(** * Session orchestration and session-cache validation of marimo

    A shallow embedding of [marimo/_server/sessions.py] (Room, Session,
    SessionManager) and of [marimo/_server/session/serialize.py]
    (cache-hit validation, cache reading and cache writing), with the
    properties of the orchestration layer stated and proved over it.

    Conventions.
    - A Python [dict] is an insertion-ordered association list with unique
      keys ([PyDict]); iteration order is list order.
    - Objects owned by external collaborators (consumers, disposables) are
      references ([nat]); what a consumer answers when it is called is read
      from an environment.
    - A method is a function from the receiver's state to a [Run]: the
      outcome (a return value or a raised exception), the state left
      behind, and the ordered trace of calls made to external
      collaborators.

    What is left out.  Logging is not modelled.  [assert] statements are
    taken to be enabled.  Calls to external collaborators are recorded in
    the trace and complete, with one exception: the stop hook of a
    consumer may raise, as [Room.remove_consumer] provides for.  The wait
    of [close_kernel] for the profile file is recorded as one call that is
    taken to end. *)

From Stdlib Require Import List String Bool Arith Lia.
Import ListNotations.

Set Implicit Arguments.

Open Scope string_scope.
Open Scope list_scope.

(* ================================================================== *)
(** * Python dictionaries *)
(* ================================================================== *)

Module PyDict.

(** Keys are compared with [==]; for the key types used here ([str] and
    object identity) that is a decidable equality. *)
Class Hashable (K : Type) := {
  key_eqb : K -> K -> bool;
  key_eqb_spec : forall a b, key_eqb a b = true <-> a = b
}.

#[export] Instance nat_Hashable : Hashable nat :=
  {| key_eqb := Nat.eqb; key_eqb_spec := Nat.eqb_eq |}.

#[export] Instance string_Hashable : Hashable string :=
  {| key_eqb := String.eqb; key_eqb_spec := String.eqb_eq |}.

Definition dict (K V : Type) := list (K * V).

Section Dict.
Context {K V : Type} `{Hashable K}.

(** [d.get(k)] *)
Fixpoint get (d : dict K V) (k : K) : option V :=
  match d with
  | [] => None
  | (k', v) :: rest => if key_eqb k' k then Some v else get rest k
  end.

(** [k in d] *)
Definition mem (d : dict K V) (k : K) : bool :=
  match get d k with Some _ => true | None => false end.

(** [d[k] = v]: an existing key keeps its position, a new key goes last. *)
Fixpoint set (d : dict K V) (k : K) (v : V) : dict K V :=
  match d with
  | [] => [(k, v)]
  | (k', v') :: rest =>
      if key_eqb k' k then (k', v) :: rest else (k', v') :: set rest k v
  end.

(** [del d[k]] on a key that is present (no effect otherwise). *)
Fixpoint del (d : dict K V) (k : K) : dict K V :=
  match d with
  | [] => []
  | (k', v') :: rest =>
      if key_eqb k' k then rest else (k', v') :: del rest k
  end.

(** [d.pop(k)]: [None] stands for the [KeyError] of a missing key. *)
Definition pop (d : dict K V) (k : K) : option (V * dict K V) :=
  match get d k with
  | Some v => Some (v, del d k)
  | None => None
  end.

Definition keys (d : dict K V) : list K := map fst d.
Definition values (d : dict K V) : list V := map snd d.
Definition items (d : dict K V) : list (K * V) := d.
Definition len (d : dict K V) : nat := List.length d.

Fixpoint uniq (ks : list K) : bool :=
  match ks with
  | [] => true
  | k :: rest => negb (existsb (key_eqb k) rest) && uniq rest
  end.

(** The representation invariant of a dictionary: no key occurs twice. *)
Definition wf (d : dict K V) : Prop := uniq (keys d) = true.

Lemma key_eqb_refl (k : K) : key_eqb k k = true.
Proof. now apply key_eqb_spec. Qed.

Lemma key_eqb_neq (a b : K) : a <> b -> key_eqb a b = false.
Proof.
  intros Hab. destruct (key_eqb a b) eqn:E; [|reflexivity].
  apply key_eqb_spec in E. contradiction.
Qed.

Lemma key_eqb_false (a b : K) : key_eqb a b = false -> a <> b.
Proof.
  intros E Hab. subst. rewrite key_eqb_refl in E. discriminate.
Qed.

Lemma existsb_key_In (k : K) (ks : list K) :
  existsb (key_eqb k) ks = true <-> In k ks.
Proof.
  rewrite existsb_exists. split.
  - intros [x [Hin Hx]]. apply key_eqb_spec in Hx. now subst.
  - intros Hin. exists k. split; [assumption | apply key_eqb_refl].
Qed.

Lemma uniq_NoDup (ks : list K) : uniq ks = true <-> NoDup ks.
Proof.
  induction ks as [|k ks IH]; simpl.
  - split; [constructor | reflexivity].
  - rewrite andb_true_iff, negb_true_iff, IH. split.
    + intros [Hn Hu]. constructor; [|assumption].
      intros Hin. apply existsb_key_In in Hin. congruence.
    + intros Hnd. inversion Hnd as [|? ? Hnot Hrest]; subst. split; [|assumption].
      destruct (existsb (key_eqb k) ks) eqn:E; [|reflexivity].
      apply existsb_key_In in E. contradiction.
Qed.

Lemma get_In_keys (d : dict K V) (k : K) (v : V) :
  get d k = Some v -> In k (keys d).
Proof.
  induction d as [|[k' v'] d IH]; simpl; [discriminate|].
  destruct (key_eqb k' k) eqn:E.
  - apply key_eqb_spec in E. now left.
  - intros Hg. right. now apply IH.
Qed.

Lemma get_None_keys (d : dict K V) (k : K) :
  get d k = None <-> ~ In k (keys d).
Proof.
  induction d as [|[k' v'] d IH]; simpl.
  - split; [intros _ [] | reflexivity].
  - destruct (key_eqb k' k) eqn:E.
    + apply key_eqb_spec in E. split; [discriminate|]. intros Hn. exfalso. apply Hn. now left.
    + apply key_eqb_false in E. rewrite IH. split.
      * intros Hn [Hk|Hin]; contradiction.
      * intros Hn Hin. apply Hn. now right.
Qed.

Lemma mem_keys (d : dict K V) (k : K) : mem d k = true <-> In k (keys d).
Proof.
  unfold mem. destruct (get d k) eqn:E.
  - split; [intros _; eapply get_In_keys; eassumption | reflexivity].
  - split; [discriminate|]. intros Hin. apply get_None_keys in E. contradiction.
Qed.

Lemma mem_false_keys (d : dict K V) (k : K) : mem d k = false <-> ~ In k (keys d).
Proof.
  rewrite <- mem_keys. destruct (mem d k); split; congruence.
Qed.

Lemma get_set_same (d : dict K V) (k : K) (v : V) : get (set d k v) k = Some v.
Proof.
  induction d as [|[k' v'] d IH]; simpl.
  - now rewrite key_eqb_refl.
  - destruct (key_eqb k' k) eqn:E; simpl; rewrite E; [reflexivity | exact IH].
Qed.

Lemma get_set_other (d : dict K V) (k k' : K) (v : V) :
  k <> k' -> get (set d k v) k' = get d k'.
Proof.
  intros Hne. induction d as [|[k0 v0] d IH]; simpl.
  - now rewrite (key_eqb_neq Hne).
  - destruct (key_eqb k0 k) eqn:E; simpl.
    + apply key_eqb_spec in E. subst k0. now rewrite (key_eqb_neq Hne).
    + now rewrite IH.
Qed.

Lemma get_del_other (d : dict K V) (k k' : K) :
  k <> k' -> get (del d k) k' = get d k'.
Proof.
  intros Hne. induction d as [|[k0 v0] d IH]; simpl; [reflexivity|].
  destruct (key_eqb k0 k) eqn:E; simpl.
  - apply key_eqb_spec in E. subst k0. now rewrite (key_eqb_neq Hne).
  - now rewrite IH.
Qed.

Lemma keys_del_incl (d : dict K V) (k x : K) : In x (keys (del d k)) -> In x (keys d).
Proof.
  induction d as [|[k0 v0] d IH]; simpl; [tauto|].
  destruct (key_eqb k0 k); simpl; [now right|]. intros [Hx|Hx]; [now left | right; now apply IH].
Qed.

Lemma wf_del (d : dict K V) (k : K) : wf d -> wf (del d k).
Proof.
  unfold wf. rewrite !uniq_NoDup. induction d as [|[k0 v0] d IH]; simpl; [trivial|].
  intros Hnd. inversion Hnd as [|? ? Hnot Hrest]; subst.
  destruct (key_eqb k0 k); simpl; [assumption|].
  constructor; [|now apply IH]. intros Hin. apply Hnot. eapply keys_del_incl; eassumption.
Qed.

Lemma get_del_same (d : dict K V) (k : K) : wf d -> get (del d k) k = None.
Proof.
  unfold wf. rewrite uniq_NoDup. induction d as [|[k0 v0] d IH]; simpl; [reflexivity|].
  intros Hnd. inversion Hnd as [|? ? Hnot Hrest]; subst.
  destruct (key_eqb k0 k) eqn:E; simpl.
  - apply key_eqb_spec in E. subst k0. now apply get_None_keys.
  - rewrite E. now apply IH.
Qed.

Lemma keys_set (d : dict K V) (k : K) (v : V) :
  keys (set d k v) = if mem d k then keys d else keys d ++ [k].
Proof.
  unfold mem. induction d as [|[k0 v0] d IH]; simpl; [reflexivity|].
  destruct (key_eqb k0 k) eqn:E; simpl; [reflexivity|].
  rewrite IH. now destruct (get d k).
Qed.

Lemma wf_set (d : dict K V) (k : K) (v : V) : wf d -> wf (set d k v).
Proof.
  unfold wf. intros Hwf. rewrite keys_set. destruct (mem d k) eqn:E; [assumption|].
  apply mem_false_keys in E. rewrite uniq_NoDup in *.
  apply NoDup_app; [assumption | repeat constructor; intros [] |].
  intros x Hx [Hk|[]]. subst. contradiction.
Qed.

Lemma get_In (d : dict K V) (k : K) (v : V) :
  wf d -> (get d k = Some v <-> In (k, v) d).
Proof.
  unfold wf. rewrite uniq_NoDup. induction d as [|[k0 v0] d IH]; simpl.
  - intros _. split; [discriminate | tauto].
  - intros Hnd. inversion Hnd as [|? ? Hnot Hrest]; subst.
    destruct (key_eqb k0 k) eqn:E.
    + apply key_eqb_spec in E. subst k0. split.
      * intros Hs. left. congruence.
      * intros [Hp|Hin]; [congruence|]. exfalso. apply Hnot.
        change k with (fst (k, v)). now apply in_map.
    + apply key_eqb_false in E. rewrite (IH Hrest). split.
      * now right.
      * intros [Hp|Hin]; [|assumption]. congruence.
Qed.

Lemma get_middle (pre suf : dict K V) (k : K) (v : V) :
  ~ In k (keys pre) -> get (pre ++ (k, v) :: suf) k = Some v.
Proof.
  induction pre as [|[k0 v0] pre IH]; simpl; intros Hn.
  - now rewrite key_eqb_refl.
  - rewrite key_eqb_neq by (intros ->; apply Hn; now left).
    apply IH. intros Hin. apply Hn. now right.
Qed.

Lemma set_middle (pre suf : dict K V) (k : K) (v v' : V) :
  ~ In k (keys pre) -> set (pre ++ (k, v) :: suf) k v' = pre ++ (k, v') :: suf.
Proof.
  induction pre as [|[k0 v0] pre IH]; simpl; intros Hn.
  - now rewrite key_eqb_refl.
  - rewrite key_eqb_neq by (intros ->; apply Hn; now left).
    rewrite IH; [reflexivity|]. intros Hin. apply Hn. now right.
Qed.

Lemma del_middle (pre suf : dict K V) (k : K) (v : V) :
  ~ In k (keys pre) -> del (pre ++ (k, v) :: suf) k = pre ++ suf.
Proof.
  induction pre as [|[k0 v0] pre IH]; simpl; intros Hn.
  - now rewrite key_eqb_refl.
  - rewrite key_eqb_neq by (intros ->; apply Hn; now left).
    rewrite IH; [reflexivity|]. intros Hin. apply Hn. now right.
Qed.

Lemma set_same_value (d : dict K V) (k : K) (v : V) :
  get d k = Some v -> set d k v = d.
Proof.
  induction d as [|[k0 v0] d IH]; simpl; [discriminate|].
  destruct (key_eqb k0 k) eqn:E.
  - intros Hs. injection Hs as <-. reflexivity.
  - intros Hg. now rewrite IH.
Qed.

Lemma keys_filter_incl (f : K * V -> bool) (d : dict K V) (k : K) :
  In k (keys (filter f d)) -> In k (keys d).
Proof.
  unfold keys. rewrite !in_map_iff. intros [e [He Hin]]. apply filter_In in Hin.
  exists e. tauto.
Qed.

Lemma wf_filter (f : K * V -> bool) (d : dict K V) : wf d -> wf (filter f d).
Proof.
  unfold wf. rewrite !uniq_NoDup. induction d as [|[k0 v0] d IH]; simpl; [trivial|].
  intros Hnd. inversion Hnd as [|? ? Hnot Hrest]; subst.
  destruct (f (k0, v0)); simpl; [|now apply IH].
  constructor; [|now apply IH]. intros Hin. apply Hnot. eapply keys_filter_incl; eassumption.
Qed.

(** A dictionary in which the entries accepted by [f] all sit under one
    key has exactly that entry accepted. *)
Lemma filter_unique_entry (f : K * V -> bool) (d : dict K V) (k0 : K) (v0 : V) :
  wf d ->
  get d k0 = Some v0 ->
  f (k0, v0) = true ->
  (forall k v, In (k, v) d -> f (k, v) = true -> k = k0) ->
  filter f d = [(k0, v0)].
Proof.
  unfold wf. rewrite uniq_NoDup. induction d as [|[k v] d IH]; simpl; [discriminate|].
  intros Hnd Hg Hf Hall. inversion Hnd as [|? ? Hnot Hrest]; subst.
  destruct (key_eqb k k0) eqn:E.
  - apply key_eqb_spec in E. subst k. injection Hg as ->. rewrite Hf. f_equal.
    assert (Hnone : forall e, In e d -> f e = false).
    { intros [k v] Hin. destruct (f (k, v)) eqn:Efk; [|reflexivity].
      assert (k = k0) by (apply (Hall k v); [now right | assumption]). subst k.
      exfalso. apply Hnot. change k0 with (fst (k0, v)). now apply in_map. }
    clear - Hnone. induction d as [|e d IH]; simpl; [reflexivity|].
    rewrite (Hnone e (or_introl eq_refl)). apply IH. intros e' Hin. apply Hnone. now right.
  - destruct (f (k, v)) eqn:Efk.
    + assert (k = k0) by (apply (Hall k v); [now left | assumption]). subst k.
      rewrite key_eqb_refl in E. discriminate.
    + apply IH; try assumption. intros k' v' Hin. apply Hall. now right.
Qed.


End Dict.

End PyDict.

Import PyDict.

(* ================================================================== *)
(** * Identifiers, messages and effects *)
(* ================================================================== *)

Definition ConsumerId := string.
Definition SessionId := string.
Definition CellId_t := string.
Definition MarimoFileKey := string.

(** Object references: a consumer or a disposable is known by its identity. *)
Definition SessionConsumer := nat.
Definition Disposable := nat.

(** Modelled from the spec: [marimo/_server/model.py] is not part of the
    sources; the connection states a consumer or a session reports are
    OPEN, CLOSED and ORPHANED. *)
Inductive ConnectionState := OPEN | CLOSED | ORPHANED.

(** Modelled from the spec: [marimo/_server/model.py] is not part of the
    sources; a session manager runs in editing mode or in serving (run)
    mode. *)
Inductive SessionMode := EDIT | RUN.

Definition ConnectionState_eqb (a b : ConnectionState) : bool :=
  match a, b with
  | OPEN, OPEN | CLOSED, CLOSED | ORPHANED, ORPHANED => true
  | _, _ => false
  end.

Definition SessionMode_eqb (a b : SessionMode) : bool :=
  match a, b with
  | EDIT, EDIT | RUN, RUN => true
  | _, _ => false
  end.

(** Modelled from the spec: [marimo/_runtime/requests.py] is not part of the
    sources; the control queue carries a tagged union of request kinds
    (execute, set-UI-value, instantiate, stop).  The fields are those the
    session code reads or writes. *)
Inductive ControlRequest :=
| ExecuteMultipleRequest (cell_ids : list CellId_t) (codes : list string)
| SetUIElementValueRequest (object_ids : list string) (values : list string) (token : string)
| CreationRequest (execution_requests : list (CellId_t * string))
                  (object_ids : list string) (values : list string) (auto_run : bool)
| StopRequest
| OtherControlRequest (tag : string).

(** Modelled from the spec: [marimo/_messaging/ops.py] is not part of the
    sources; the operations the session layer builds itself are listed with
    the fields it fills in, any other operation is opaque. *)
Inductive MessageOperation :=
| UpdateCellCodes (cell_ids : list CellId_t) (codes : list string) (code_is_stale : bool)
| FocusCell (cell_id : CellId_t)
| UpdateCellIdsRequest (cell_ids : list CellId_t)
| Reload
| OtherOperation (name : string).

Inductive QueueName :=
| control_queue_name | set_ui_element_queue_name | input_queue_name
| completion_queue_name | win32_interrupt_queue_name.

(** Calls made to external collaborators, in the order they are made. *)
Inductive Event :=
| EvWriteOperation (c : SessionConsumer) (op : MessageOperation)
| EvOnStop (c : SessionConsumer)
| EvDispose (c : SessionConsumer) (d : Disposable)
| EvDistributorStop
| EvHeartbeatCancel
| EvWriterStopSync
| EvQueueClose (q : QueueName)
| EvAwaitProfile (path : string)
| EvKernelTerminate
| EvReadConnClose
| EvViewAddControlRequest (r : ControlRequest)
| EvWatcherRemoveCallback (path : string).

Inductive Exception :=
| AssertionError (msg : string)
| KeyError
| AttributeError (attr : string)
| InvalidSessionException (msg : string)
| StopHookError (c : SessionConsumer).

Inductive Outcome (A : Type) :=
| Return (a : A)
| Raise (e : Exception).

Arguments Return {A} a.
Arguments Raise {A} e.

(** The result of running a method on a receiver of type [S]. *)
Record Run (S A : Type) := mkRun {
  outcome : Outcome A;
  post : S;
  trace : list Event
}.

Definition returns {S A : Type} (a : A) (s : S) (tr : list Event) : Run S A :=
  mkRun (Return a) s tr.

Definition raises {S A : Type} (e : Exception) (s : S) (tr : list Event) : Run S A :=
  mkRun (Raise e) s tr.

Definition count_events (p : Event -> bool) (tr : list Event) : nat :=
  List.length (filter p tr).

Definition is_on_stop (c : SessionConsumer) (e : Event) : bool :=
  match e with EvOnStop c' => Nat.eqb c c' | _ => false end.

Definition is_dispose (c : SessionConsumer) (e : Event) : bool :=
  match e with EvDispose c' _ => Nat.eqb c c' | _ => false end.

Definition is_write_to (c : SessionConsumer) (e : Event) : bool :=
  match e with EvWriteOperation c' _ => Nat.eqb c c' | _ => false end.





Definition is_queue_close (e : Event) : bool :=
  match e with EvQueueClose _ => true | _ => false end.

(** Modelled from the spec: the session consumer is an external
    collaborator exposing a stable [consumer_id], [connection_state()],
    [on_stop()] and [write_operation(op)].  [on_stop_raises] says whether
    the stop hook of the consumer ends in an exception. *)
Record ConsumerObject := {
  consumer_id : ConsumerId;
  connection_state : ConnectionState;
  on_stop_raises : bool
}.

(* ================================================================== *)
(** * Session cache: [marimo/_server/session/serialize.py] *)
(* ================================================================== *)

Module Serialize.

(** A JSON value stored in a cached output, kept as its text. *)
Definition JsonValue := string.

(** Modelled from the spec: [marimo/_schemas/session.py] is not part of the
    sources.  The cache document has a top-level [version],
    [metadata.marimo_version] and [cells], each cell with [id], [code_hash]
    (the hex digest of the code, or null), [outputs] and [console]; the
    variants are those [serialize_session_view] builds and
    [deserialize_session] reads. *)
Inductive StreamName := stdout | stderr.

Inductive OutputType :=
| ErrorOutput (ename evalue : string) (traceback : list string)
| DataOutput (data : dict string JsonValue)
| UnknownOutput (type_name : string).

Inductive ConsoleType :=
| StreamOutput (name : StreamName) (text : string)
| StreamMediaOutput (mimetype : string) (data : string).

Record Cell := {
  id : string;
  code_hash : option string;
  outputs : list OutputType;
  console : list ConsoleType
}.

Record NotebookSessionMetadata := {
  session_marimo_version : string
}.

Record NotebookSessionV1 := {
  version : string;
  metadata : NotebookSessionMetadata;
  cells : list Cell
}.

(** Modelled from the spec: [marimo/_messaging/cell_output.py],
    [marimo/_messaging/errors.py] and [marimo/_messaging/ops.py] are not
    part of the sources; a cell operation holds the status, the output and
    the console lines of a cell. *)
Inductive CellChannel := OUTPUT | MARIMO_ERROR | MEDIA | STDERR | STDOUT.

Record MarimoExceptionRaisedError := {
  exception_type : string;
  msg : string;
  raising_cell : option CellId_t
}.

Inductive CellData :=
| DataValue (v : JsonValue)
| DataBundle (bundle : dict string JsonValue)
| DataErrors (errors : list MarimoExceptionRaisedError).

Record CellOutput := {
  channel : CellChannel;
  mimetype : string;
  data : CellData
}.

(** [CellOutput.errors(errors)] *)
Definition CellOutput_errors (errors : list MarimoExceptionRaisedError) : CellOutput :=
  {| channel := MARIMO_ERROR;
     mimetype := "application/vnd.marimo+error";
     data := DataErrors errors |}.

Record CellOp := {
  cell_id : CellId_t;
  status : string;
  output : option CellOutput;
  op_console : list CellOutput;
  timestamp : nat
}.

(** Modelled from the spec: [marimo/_server/session/session_view.py] is not
    part of the sources; the Session View maps a cell id to its latest
    operation and to its last executed code.  [SessionView()] is empty. *)
Record SessionView := {
  cell_operations : dict CellId_t CellOp;
  last_executed_code : dict CellId_t string
}.

Definition SessionView_new : SessionView :=
  {| cell_operations := []; last_executed_code := [] |}.

Definition deserialize_output (output : OutputType) : list CellOutput :=
  match output with
  | ErrorOutput ename evalue _ =>
      [CellOutput_errors
         [{| exception_type := ename; msg := evalue; raising_cell := None |}]]
  | DataOutput data =>
      match data with
      | [] => []
      | [(mime, value)] =>
          [{| channel := OUTPUT; mimetype := mime; data := DataValue value |}]
      | _ =>
          [{| channel := OUTPUT;
              mimetype := "application/vnd.marimo+mimebundle";
              data := DataBundle data |}]
      end
  | UnknownOutput _ => []
  end.

Definition deserialize_console (console : ConsoleType) : CellOutput :=
  match console with
  | StreamMediaOutput mimetype data =>
      {| channel := MEDIA; mimetype := mimetype; data := DataValue data |}
  | StreamOutput name text =>
      {| channel := match name with stderr => STDERR | stdout => STDOUT end;
         mimetype := "text/plain";
         data := DataValue text |}
  end.

Fixpoint deserialize_cells (cs : list Cell) (view : SessionView) : SessionView :=
  match cs with
  | [] => view
  | cell :: rest =>
      let cell_outputs := flat_map deserialize_output (outputs cell) in
      let console_outputs := map deserialize_console (console cell) in
      let cell_id := id cell in
      deserialize_cells rest
        {| cell_operations :=
             PyDict.set (cell_operations view) cell_id
               {| cell_id := cell_id;
                  status := "idle";
                  output := hd_error cell_outputs;
                  op_console := console_outputs;
                  timestamp := 0 |};
           last_executed_code := last_executed_code view |}
  end.

(** [deserialize_session] *)
Definition deserialize_session (session : NotebookSessionV1) : SessionView :=
  deserialize_cells (cells session) SessionView_new.

Record SessionCacheKey := {
  codes : list (option string);
  marimo_version : string
}.

Definition hash_eqb (a b : option string) : bool :=
  match a, b with
  | None, None => true
  | Some x, Some y => String.eqb x y
  | _, _ => false
  end.

Lemma hash_eqb_eq (a b : option string) : hash_eqb a b = true <-> a = b.
Proof.
  destruct a as [x|], b as [y|]; simpl; try (split; congruence).
  rewrite String.eqb_eq. split; congruence.
Qed.

(** [SessionCacheManager]: [session_cache_writer] records whether a
    background writer is running. *)
Record SessionCacheManager := {
  session_view : SessionView;
  path : option string;
  interval : nat;
  session_cache_writer : option unit
}.

Section WithLibraries.

(** [hashlib.md5(code.encode("utf-8"), usedforsecurity=False).hexdigest()] *)
Variable md5_hexdigest : string -> string.

(** [pathlib]: [Path(s)], [p.parent], [p.name] and [p / s]; the file
    system: [p.exists()] and [p.read_text()] ([None] when reading raises);
    [json.loads] ([None] when parsing raises). *)
Variable Path : Type.
Variable Path_of : string -> Path.
Variable parent : Path -> Path.
Variable name : Path -> string.
Variable joinpath : Path -> string -> Path.
Variable exists_ : Path -> bool.
Variable read_text : Path -> option string.
Variable json_loads : string -> option NotebookSessionV1.

Definition _hash_code (code : option string) : option string :=
  match code with
  | None => None
  | Some s => if String.eqb s "" then None else Some (md5_hexdigest s)
  end.

(** [get_session_cache_file]: [foo/bar/baz.py] gives
    [foo/bar/__marimo__/session/baz.py.json]. *)
Definition get_session_cache_file (p : Path) : Path :=
  joinpath (joinpath (joinpath (parent p) "__marimo__") "session")
           (name p ++ ".json").

(** [SessionCacheManager.stop]: returns whether the writer was running. *)
Definition stop (self : SessionCacheManager) : Run SessionCacheManager bool :=
  match session_cache_writer self with
  | None => returns false self []
  | Some _ =>
      returns true
        {| session_view := session_view self;
           path := path self;
           interval := interval self;
           session_cache_writer := None |}
        [EvWriterStopSync]
  end.

(** [SessionCacheManager.is_cache_hit] *)
Definition is_cache_hit (notebook_session : NotebookSessionV1)
    (key : SessionCacheKey) : bool :=
  if negb (Nat.eqb (List.length (codes key)) (List.length (cells notebook_session)))
     || existsb (fun '(code, cell) => negb (hash_eqb (_hash_code code) (code_hash cell)))
                (combine (codes key) (cells notebook_session))
  then false
  else if negb (String.eqb (marimo_version key)
                           (session_marimo_version (metadata notebook_session)))
  then false
  else true.

(** [SessionCacheManager.read_session_view]: the view returned, and the
    manager afterwards (its [session_view] is replaced on a cache hit). *)
Definition read_session_view (self : SessionCacheManager) (key : SessionCacheKey)
    : SessionView * SessionCacheManager :=
  match path self with
  | None => (session_view self, self)
  | Some p =>
      let cache_file := get_session_cache_file (Path_of p) in
      if negb (exists_ cache_file) then (session_view self, self)
      else
        match read_text cache_file with
        | None => (session_view self, self)
        | Some text =>
            match json_loads text with
            | None => (session_view self, self)
            | Some notebook_session =>
                if negb (is_cache_hit notebook_session key)
                then (session_view self, self)
                else
                  let view := deserialize_session notebook_session in
                  (view,
                   {| session_view := view;
                      path := path self;
                      interval := interval self;
                      session_cache_writer := session_cache_writer self |})
            end
        end
  end.

(** ** Cache-hit validation *)

Lemma existsb_combine_false {A B : Type} (f : A * B -> bool) (l1 : list A) (l2 : list B) :
  existsb f (combine l1 l2) = false <->
  (forall i a b, nth_error l1 i = Some a -> nth_error l2 i = Some b -> f (a, b) = false).
Proof.
  revert l2. induction l1 as [|x l1 IH]; intros l2; simpl.
  - split; [|reflexivity]. intros _ [|i] a b; discriminate.
  - destruct l2 as [|y l2]; simpl.
    + split; [|reflexivity]. intros _ [|i] a b ? ?; discriminate.
    + rewrite orb_false_iff, IH. split.
      * intros [Hxy Hrest] [|i] a b Ha Hb; simpl in *.
        -- congruence.
        -- eapply Hrest; eassumption.
      * intros Hall. split.
        -- apply (Hall 0); reflexivity.
        -- intros i a b Ha Hb. apply (Hall (S i)); assumption.
Qed.

Lemma is_cache_hit_spec (notebook_session : NotebookSessionV1) (key : SessionCacheKey) :
  is_cache_hit notebook_session key = true <->
  (List.length (codes key) = List.length (cells notebook_session)
   /\ (forall i code cell,
         nth_error (codes key) i = Some code ->
         nth_error (cells notebook_session) i = Some cell ->
         _hash_code code = code_hash cell)
   /\ marimo_version key = session_marimo_version (metadata notebook_session)).
Proof.
  unfold is_cache_hit.
  destruct (Nat.eqb (List.length (codes key)) (List.length (cells notebook_session))) eqn:Elen; simpl.
  - apply Nat.eqb_eq in Elen.
    destruct (existsb _ (combine (codes key) (cells notebook_session))) eqn:Eany.
    + split; [discriminate|]. intros (_ & Hall & _). exfalso.
      assert (Hf : existsb
                (fun '(code, cell) => negb (hash_eqb (_hash_code code) (code_hash cell)))
                (combine (codes key) (cells notebook_session)) = false).
      { apply existsb_combine_false. intros i a b Ha Hb.
        apply negb_false_iff, hash_eqb_eq. eapply Hall; eassumption. }
      congruence.
    + rewrite existsb_combine_false in Eany.
      destruct (String.eqb (marimo_version key)
                  (session_marimo_version (metadata notebook_session))) eqn:Ever; simpl.
      * apply String.eqb_eq in Ever. split; [|reflexivity]. intros _.
        repeat split; try assumption.
        intros i code cell Ha Hb. specialize (Eany i code cell Ha Hb).
        apply negb_false_iff, hash_eqb_eq in Eany. exact Eany.
      * apply String.eqb_neq in Ever. split; [discriminate|]. intros (_ & _ & Hv). contradiction.
  - apply Nat.eqb_neq in Elen. split; [discriminate|]. intros (Hl & _). contradiction.
Qed.

(** C2. [is_cache_hit] answers true exactly when the key has as many codes
    as the document has cells, the hash of every code equals the
    [code_hash] of the cell at the same position, and the version of the
    key equals the version recorded in the document; a mismatch of the
    lengths, of one hash, or of the version gives false. *)
Theorem is_cache_hit_iff_all_match :
  forall (notebook_session : NotebookSessionV1) (key : SessionCacheKey),
    (is_cache_hit notebook_session key = true <->
     (List.length (codes key) = List.length (cells notebook_session)
      /\ (forall i code cell,
            nth_error (codes key) i = Some code ->
            nth_error (cells notebook_session) i = Some cell ->
            _hash_code code = code_hash cell)
      /\ marimo_version key = session_marimo_version (metadata notebook_session)))
    /\ (List.length (codes key) <> List.length (cells notebook_session) ->
        is_cache_hit notebook_session key = false)
    /\ (forall i code cell,
          nth_error (codes key) i = Some code ->
          nth_error (cells notebook_session) i = Some cell ->
          _hash_code code <> code_hash cell ->
          is_cache_hit notebook_session key = false)
    /\ (marimo_version key <> session_marimo_version (metadata notebook_session) ->
        is_cache_hit notebook_session key = false).
Proof.
  intros notebook_session key.
  pose proof (is_cache_hit_spec notebook_session key) as Hspec.
  split; [exact Hspec|].
  destruct (is_cache_hit notebook_session key) eqn:Ehit.
  - destruct Hspec as [Hto _]. destruct (Hto eq_refl) as (Hlen & Hall & Hver).
    repeat split.
    + intros Hne. contradiction.
    + intros i code cell Ha Hb Hne. exfalso. apply Hne. eapply Hall; eassumption.
    + intros Hne. contradiction.
  - repeat split; reflexivity.
Qed.

Lemma existsb_combine_map {A A' B : Type} (h : A -> A') (g : A' * B -> bool)
    (l1 : list A) (l2 : list B) :
  existsb (fun '(a, b) => g (h a, b)) (combine l1 l2) = existsb g (combine (map h l1) l2).
Proof.
  revert l2. induction l1 as [|x l1 IH]; intros [|y l2]; simpl; try reflexivity.
  now rewrite IH.
Qed.

(** The answer depends on the codes of the key only through their hashes. *)
Lemma is_cache_hit_hashes (notebook_session : NotebookSessionV1) (k k' : SessionCacheKey) :
  map _hash_code (codes k) = map _hash_code (codes k') ->
  marimo_version k = marimo_version k' ->
  is_cache_hit notebook_session k = is_cache_hit notebook_session k'.
Proof.
  intros Hh Hv. unfold is_cache_hit.
  rewrite <- (length_map _hash_code (codes k)), <- (length_map _hash_code (codes k')).
  rewrite (existsb_combine_map _hash_code
             (fun p => negb (hash_eqb (fst p) (code_hash (snd p)))) (codes k)).
  rewrite (existsb_combine_map _hash_code
             (fun p => negb (hash_eqb (fst p) (code_hash (snd p)))) (codes k')).
  now rewrite Hh, Hv.
Qed.

(** C10. Absent code and empty code have the same (null) hash, so
    replacing one by the other in the key never changes the answer of
    [is_cache_hit], and a cached cell whose [code_hash] is null matches
    both. *)
Theorem is_cache_hit_none_vs_empty_code :
  _hash_code None = None
  /\ _hash_code (Some "") = None
  /\ (forall (notebook_session : NotebookSessionV1) (before after : list (option string))
             (v : string),
        is_cache_hit notebook_session
          {| codes := before ++ None :: after; marimo_version := v |}
        = is_cache_hit notebook_session
            {| codes := before ++ Some "" :: after; marimo_version := v |})
  /\ (forall (ver v i : string) (o : list OutputType) (c : list ConsoleType),
        let doc := {| version := ver;
                      metadata := {| session_marimo_version := v |};
                      cells := [{| id := i; code_hash := None; outputs := o; console := c |}] |} in
        is_cache_hit doc {| codes := [None]; marimo_version := v |} = true
        /\ is_cache_hit doc {| codes := [Some ""]; marimo_version := v |} = true).
Proof.
  split; [reflexivity|]. split; [reflexivity|]. split.
  - intros notebook_session before after v. apply is_cache_hit_hashes; [|reflexivity].
    simpl. now rewrite !map_app.
  - intros ver v i o c doc. unfold is_cache_hit; simpl. now rewrite String.eqb_refl.
Qed.

(** ** Reading the cache *)

(** Closes the branches of [read_session_view] that keep the view. *)
Ltac rsv_same :=
  repeat match goal with
         | H : Some _ = Some _ |- _ => injection H as H; subst
         | H : ?x = Some _, H' : ?x = Some _ |- _ => rewrite H in H'
         end.

Ltac rsv_fallback :=
  repeat split; intros; rsv_same; try congruence; auto.

(** C9. [read_session_view] gives back the view the manager already holds,
    and leaves the manager as it is, when the manager has no path, the
    cache file does not exist, reading or parsing it fails, or
    [is_cache_hit] is false; on a cache hit, and only then, the view is
    replaced by the deserialized document.  The function returns a view in
    every case: a failed read or parse is not passed on. *)
Theorem read_session_view_falls_back_unless_hit :
  forall (self : SessionCacheManager) (key : SessionCacheKey),
    let cache_file p := get_session_cache_file (Path_of p) in
    let r := read_session_view self key in
    (path self = None -> r = (session_view self, self))
    /\ (forall p, path self = Some p -> exists_ (cache_file p) = false ->
                  r = (session_view self, self))
    /\ (forall p, path self = Some p -> exists_ (cache_file p) = true ->
                  read_text (cache_file p) = None ->
                  r = (session_view self, self))
    /\ (forall p text, path self = Some p -> exists_ (cache_file p) = true ->
                       read_text (cache_file p) = Some text ->
                       json_loads text = None ->
                       r = (session_view self, self))
    /\ (forall p text doc, path self = Some p -> exists_ (cache_file p) = true ->
                           read_text (cache_file p) = Some text ->
                           json_loads text = Some doc ->
                           is_cache_hit doc key = false ->
                           r = (session_view self, self))
    /\ (forall p text doc, path self = Some p -> exists_ (cache_file p) = true ->
                           read_text (cache_file p) = Some text ->
                           json_loads text = Some doc ->
                           is_cache_hit doc key = true ->
                           fst r = deserialize_session doc
                           /\ session_view (snd r) = deserialize_session doc
                           /\ path (snd r) = path self
                           /\ session_cache_writer (snd r) = session_cache_writer self)
    /\ (r = (session_view self, self)
        \/ exists p text doc,
             path self = Some p
             /\ exists_ (cache_file p) = true
             /\ read_text (cache_file p) = Some text
             /\ json_loads text = Some doc
             /\ is_cache_hit doc key = true
             /\ r = (deserialize_session doc,
                     {| session_view := deserialize_session doc;
                        path := path self;
                        interval := interval self;
                        session_cache_writer := session_cache_writer self |})).
Proof.
  intros self key cache_file r. subst r cache_file. unfold read_session_view.
  destruct (path self) as [p|] eqn:Epath; [|rsv_fallback].
  destruct (exists_ (get_session_cache_file (Path_of p))) eqn:Eex; simpl; [|rsv_fallback].
  destruct (read_text (get_session_cache_file (Path_of p))) as [text|] eqn:Eread;
    [|rsv_fallback].
  destruct (json_loads text) as [doc|] eqn:Ejson; [|rsv_fallback].
  destruct (is_cache_hit doc key) eqn:Ehit; simpl; [|rsv_fallback].
  repeat split; intros; rsv_same; try congruence.
  right. exists p, text, doc. repeat split; auto.
Qed.

End WithLibraries.

(* ------------------------------------------------------------------ *)
(** ** A concrete notebook and cache *)
(* ------------------------------------------------------------------ *)

(** A stand-in digest for the examples: distinct codes get distinct
    digests. *)
Definition demo_digest (code : string) : string := "md5:" ++ code.

Definition demo_document : NotebookSessionV1 :=
  {| version := "1";
     metadata := {| session_marimo_version := "0.13.0" |};
     cells :=
       [ {| id := "c1"; code_hash := Some "md5:x=1";
            outputs := []; console := [] |};
         {| id := "c2"; code_hash := Some "md5:y=x+1";
            outputs := [DataOutput [("text/plain", "2")]];
            console := [StreamOutput stdout "done"] |} ] |}.

Definition demo_key (second_code version : string) : SessionCacheKey :=
  {| codes := [Some "x=1"; Some second_code]; marimo_version := version |}.

Lemma is_cache_hit_witness :
  is_cache_hit demo_digest demo_document (demo_key "y=x+1" "0.13.0") = true
  /\ is_cache_hit demo_digest demo_document (demo_key "y=x+2" "0.13.0") = false
  /\ is_cache_hit demo_digest demo_document (demo_key "y=x+1" "0.13.1") = false
  /\ is_cache_hit demo_digest demo_document
       {| codes := [Some "x=1"]; marimo_version := "0.13.0" |} = false.
Proof.
  split.
  { apply (proj1 (is_cache_hit_iff_all_match demo_digest demo_document
                    (demo_key "y=x+1" "0.13.0"))).
    split; [reflexivity|]. split; [|reflexivity].
    intros [|[|i]] code cell Hc Hd; simpl in Hc, Hd.
    - injection Hc as <-. injection Hd as <-. reflexivity.
    - injection Hc as <-. injection Hd as <-. reflexivity.
    - destruct i; discriminate. }
  split.
  { destruct (is_cache_hit_iff_all_match demo_digest demo_document
                (demo_key "y=x+2" "0.13.0")) as (_ & _ & Hhash & _).
    apply (Hhash 1 (Some "y=x+2")
             {| id := "c2"; code_hash := Some "md5:y=x+1";
                outputs := [DataOutput [("text/plain", "2")]];
                console := [StreamOutput stdout "done"] |});
      [reflexivity | reflexivity | discriminate]. }
  split.
  { destruct (is_cache_hit_iff_all_match demo_digest demo_document
                (demo_key "y=x+1" "0.13.1")) as (_ & _ & _ & Hver).
    apply Hver. discriminate. }
  { destruct (is_cache_hit_iff_all_match demo_digest demo_document
                {| codes := [Some "x=1"]; marimo_version := "0.13.0" |}) as (_ & Hlen & _).
    apply Hlen. discriminate. }
Defined.

(** Absent code and empty code both match a cell cached without a hash. *)
Example is_cache_hit_absent_or_empty_code :
  let doc := {| version := "1";
                metadata := {| session_marimo_version := "0.13.0" |};
                cells := [ {| id := "c1"; code_hash := None; outputs := []; console := [] |} ] |} in
  is_cache_hit demo_digest doc {| codes := [None]; marimo_version := "0.13.0" |} = true
  /\ is_cache_hit demo_digest doc {| codes := [Some ""]; marimo_version := "0.13.0" |} = true
  /\ is_cache_hit demo_digest doc {| codes := [Some "x"]; marimo_version := "0.13.0" |} = false.
Proof. repeat split; reflexivity. Qed.

(** A file system holding one cache file, for [/srv/nb.py]. *)
Definition demo_Path_of (p : string) : string := p.
Definition demo_parent (p : string) : string := "/srv".
Definition demo_name (p : string) : string := "nb.py".
Definition demo_joinpath (p : string) (part : string) : string := p ++ "/" ++ part.
Definition demo_exists (p : string) : bool :=
  String.eqb p "/srv/__marimo__/session/nb.py.json".
Definition demo_read_text (p : string) : option string := Some "{...}".
Definition demo_json_loads (text : string) : option NotebookSessionV1 :=
  if String.eqb text "{...}" then Some demo_document else None.

Definition demo_manager : SessionCacheManager :=
  {| session_view := SessionView_new;
     path := Some "/srv/nb.py";
     interval := 2;
     session_cache_writer := None |}.

Definition demo_read (self : SessionCacheManager) (key : SessionCacheKey)
    : SessionView * SessionCacheManager :=
  read_session_view demo_digest demo_Path_of demo_parent demo_name demo_joinpath
    demo_exists demo_read_text demo_json_loads self key.

Lemma read_session_view_witness :
  fst (demo_read demo_manager (demo_key "y=x+1" "0.13.0"))
  = deserialize_session demo_document
  /\ demo_read demo_manager (demo_key "y=x+2" "0.13.0")
     = (session_view demo_manager, demo_manager).
Proof.
  split.
  - destruct (read_session_view_falls_back_unless_hit demo_digest demo_Path_of demo_parent
                demo_name demo_joinpath demo_exists demo_read_text demo_json_loads
                demo_manager (demo_key "y=x+1" "0.13.0"))
      as (_ & _ & _ & _ & _ & Hhit & _).
    destruct (Hhit "/srv/nb.py" "{...}" demo_document eq_refl eq_refl eq_refl eq_refl eq_refl)
      as (Hview & _).
    exact Hview.
  - destruct (read_session_view_falls_back_unless_hit demo_digest demo_Path_of demo_parent
                demo_name demo_joinpath demo_exists demo_read_text demo_json_loads
                demo_manager (demo_key "y=x+2" "0.13.0"))
      as (_ & _ & _ & _ & Hmiss & _).
    exact (Hmiss "/srv/nb.py" "{...}" demo_document eq_refl eq_refl eq_refl eq_refl eq_refl).
Defined.

Example deserialize_demo_document :
  cell_operations (deserialize_session demo_document)
  = [("c1", {| cell_id := "c1"; status := "idle"; output := None;
               op_console := []; timestamp := 0 |});
     ("c2", {| cell_id := "c2"; status := "idle";
               output := Some {| channel := OUTPUT; mimetype := "text/plain";
                                 data := DataValue "2" |};
               op_console := [{| channel := STDOUT; mimetype := "text/plain";
                                 data := DataValue "done" |}];
               timestamp := 0 |})].
Proof. reflexivity. Qed.

End Serialize.

(* ================================================================== *)
(** * Rooms, sessions and the session manager:
      [marimo/_server/sessions.py] *)
(* ================================================================== *)

Module Sessions.

(** ** Room *)

Record Room := {
  main_consumer : option SessionConsumer;
  consumers : dict SessionConsumer ConsumerId;
  disposables : dict SessionConsumer Disposable
}.

(** [Room()] *)
Definition Room_new : Room :=
  {| main_consumer := None; consumers := []; disposables := [] |}.

Definition with_main (self : Room) (m : option SessionConsumer) : Room :=
  {| main_consumer := m;
     consumers := consumers self;
     disposables := disposables self |}.

(** [consumer == self.main_consumer] *)
Definition is_main_consumer (self : Room) (consumer : SessionConsumer) : bool :=
  match main_consumer self with
  | Some m => Nat.eqb consumer m
  | None => false
  end.

(** [Room.size] *)
Definition size (self : Room) : nat := PyDict.len (consumers self).

(** [Room.add_consumer]: both maps are written first, the check for a
    second main consumer comes afterwards. *)
Definition add_consumer (self : Room) (consumer : SessionConsumer)
    (dispose : Disposable) (cid : ConsumerId) (main : bool) : Run Room unit :=
  let self1 :=
    {| main_consumer := main_consumer self;
       consumers := PyDict.set (consumers self) consumer cid;
       disposables := PyDict.set (disposables self) consumer dispose |} in
  if main then
    match main_consumer self1 with
    | None => returns tt (with_main self1 (Some consumer)) []
    | Some _ => raises (AssertionError "Main session consumer already exists") self1 []
    end
  else returns tt self1 [].

(** [consumer.consumer_id == except_consumer] *)
Definition is_except (cid : ConsumerId) (except_consumer : option ConsumerId) : bool :=
  match except_consumer with
  | Some x => String.eqb cid x
  | None => false
  end.

Section WithConsumers.

(** What each consumer object answers when it is called. *)
Variable obj : SessionConsumer -> ConsumerObject.

(** [Room.remove_consumer] *)
Definition remove_consumer (self : Room) (consumer : SessionConsumer) : Run Room unit :=
  if negb (PyDict.mem (consumers self) consumer) then returns tt self []
  else
    let main' := if is_main_consumer self consumer then None else main_consumer self in
    let consumers' := PyDict.del (consumers self) consumer in
    match PyDict.pop (disposables self) consumer with
    | None =>
        raises KeyError
          {| main_consumer := main'; consumers := consumers';
             disposables := disposables self |} []
    | Some (disposable, disposables') =>
        let self' :=
          {| main_consumer := main'; consumers := consumers';
             disposables := disposables' |} in
        (* try: consumer.on_stop()  finally: disposable.dispose() *)
        if on_stop_raises (obj consumer)
        then raises (StopHookError consumer) self'
               [EvOnStop consumer; EvDispose consumer disposable]
        else returns tt self'
               [EvOnStop consumer; EvDispose consumer disposable]
    end.

(** The loop of [Room.broadcast] over the keys of [self.consumers]. *)
Fixpoint broadcast_loop (cs : list SessionConsumer) (operation : MessageOperation)
    (except_consumer : option ConsumerId) : list Event :=
  match cs with
  | [] => []
  | consumer :: rest =>
      if is_except (consumer_id (obj consumer)) except_consumer
      then broadcast_loop rest operation except_consumer
      else if ConnectionState_eqb (connection_state (obj consumer)) OPEN
      then EvWriteOperation consumer operation
             :: broadcast_loop rest operation except_consumer
      else broadcast_loop rest operation except_consumer
  end.

(** [Room.broadcast] *)
Definition broadcast (self : Room) (operation : MessageOperation)
    (except_consumer : option ConsumerId) : Run Room unit :=
  returns tt self
    (broadcast_loop (PyDict.keys (consumers self)) operation except_consumer).

(** The loop of [Room.close]: the disposables still registered, and the
    calls made, when the loop ends or is left by an exception. *)
Fixpoint close_loop (cs : list SessionConsumer)
    (disp : dict SessionConsumer Disposable)
    : Outcome unit * dict SessionConsumer Disposable * list Event :=
  match cs with
  | [] => (Return tt, disp, [])
  | consumer :: rest =>
      match PyDict.pop disp consumer with
      | None => (Raise KeyError, disp, [])
      | Some (disposable, disp') =>
          if on_stop_raises (obj consumer)
          then (Raise (StopHookError consumer), disp', [EvOnStop consumer])
          else
            let '(o, disp'', tr) := close_loop rest disp' in
            (o, disp'', EvOnStop consumer :: EvDispose consumer disposable :: tr)
      end
  end.

(** [Room.close] *)
Definition Room_close (self : Room) : Run Room unit :=
  let '(o, disp, tr) := close_loop (PyDict.keys (consumers self)) (disposables self) in
  match o with
  | Return _ =>
      returns tt {| main_consumer := None; consumers := []; disposables := disp |} tr
  | Raise e =>
      raises e
        {| main_consumer := main_consumer self; consumers := consumers self;
           disposables := disp |} tr
  end.

(** ** Sequencing of methods

    A method body is a computation over the state of its receiver; an
    exception ends the sequence and keeps the state and the trace reached
    so far. *)

Definition M (S A : Type) := S -> Run S A.

Definition ret {S A : Type} (a : A) : M S A := fun s => returns a s [].

Definition throw {S A : Type} (e : Exception) : M S A := fun s => raises e s [].

Definition emit {S : Type} (evs : list Event) : M S unit := fun s => returns tt s evs.

Definition gets {S A : Type} (f : S -> A) : M S A := fun s => returns (f s) s [].

Definition modify {S : Type} (f : S -> S) : M S unit := fun s => returns tt (f s) [].

Definition bind {S A B : Type} (m : M S A) (k : A -> M S B) : M S B :=
  fun s =>
    match m s with
    | mkRun (Raise e) s' tr => raises e s' tr
    | mkRun (Return a) s' tr =>
        match k a s' with
        | mkRun o s'' tr' => mkRun o s'' (tr ++ tr')
        end
    end.

(** Runs a method of a component held in a field of the receiver. *)
Definition zoom {S T A : Type} (get_field : S -> T) (set_field : S -> T -> S)
    (m : M T A) : M S A :=
  fun s =>
    match m (get_field s) with
    | mkRun o t tr => mkRun o (set_field s t) tr
    end.

Notation "x <- m ;; k" := (bind m (fun x => k))
  (at level 61, m at next level, right associativity).
Notation "m ;;; k" := (bind m (fun _ => k))
  (at level 61, right associativity).

(** ** Queues and kernel *)

(** [QueueManager]: the queues are [multiprocessing] queues in edit mode
    and thread queues in run mode; the contents of the control queue and of
    the UI-value queue are kept in the order they were put. *)
Record QueueManager := {
  use_multiprocessing : bool;
  control_queue : list ControlRequest;
  set_ui_element_queue : list ControlRequest;
  has_win32_interrupt_queue : bool
}.

Definition control_queue_put (request : ControlRequest) (self : QueueManager) : QueueManager :=
  {| use_multiprocessing := use_multiprocessing self;
     control_queue := control_queue self ++ [request];
     set_ui_element_queue := set_ui_element_queue self;
     has_win32_interrupt_queue := has_win32_interrupt_queue self |}.

Definition set_ui_element_queue_put (request : ControlRequest) (self : QueueManager)
    : QueueManager :=
  {| use_multiprocessing := use_multiprocessing self;
     control_queue := control_queue self;
     set_ui_element_queue := set_ui_element_queue self ++ [request];
     has_win32_interrupt_queue := has_win32_interrupt_queue self |}.

(** [QueueManager.close_queues] *)
Definition close_queues : M QueueManager unit :=
  mp <- gets use_multiprocessing ;;
  win32 <- gets has_win32_interrupt_queue ;;
  if mp then
    emit ([EvQueueClose control_queue_name;
           EvQueueClose set_ui_element_queue_name;
           EvQueueClose input_queue_name;
           EvQueueClose completion_queue_name]
          ++ (if win32 then [EvQueueClose win32_interrupt_queue_name] else []))
  else modify (control_queue_put StopRequest).

Inductive KernelTaskKind := Process | Thread.

(** The kernel task; [is_alive] is what [kernel_task.is_alive()] answers
    during the call that is modelled. *)
Record KernelTask := {
  kind : KernelTaskKind;
  is_alive : bool
}.

(** [KernelManager]; its [queue_manager] is the session's queue manager,
    which the methods below therefore take as their state. *)
Record KernelManager := {
  kernel_task : option KernelTask;
  profile_path : option string;
  _read_conn : option unit
}.

(** [KernelManager.close_kernel].  [EvAwaitProfile] stands for the loop
    that sleeps until the profile file exists. *)
Definition close_kernel (self : KernelManager) : M QueueManager unit :=
  match kernel_task self with
  | None => throw (AssertionError "kernel not started")
  | Some task =>
      match kind task with
      | Process =>
          (match profile_path self with
           | Some profile =>
               if is_alive task
               then modify (control_queue_put StopRequest) ;;; emit [EvAwaitProfile profile]
               else ret tt
           | None => ret tt
           end) ;;;
          close_queues ;;;
          (if is_alive task then emit [EvKernelTerminate] else ret tt) ;;;
          (match _read_conn self with
           | Some _ => emit [EvReadConnClose]
           | None => ret tt
           end)
      | Thread =>
          if is_alive task then modify (control_queue_put StopRequest) else ret tt
      end
  end.

(** ** Session *)

Record Session := {
  initialization_id : string;
  app_file_manager_path : option string;
  room : Room;
  _queue_manager : QueueManager;
  kernel_manager : KernelManager;
  session_cache_manager : option Serialize.SessionCacheManager;
  heartbeat_task : option unit;
  _closed : bool;
  _unsubscribe_file_watcher_ : option unit
}.

Definition set_room (self : Session) (r : Room) : Session :=
  {| initialization_id := initialization_id self;
     app_file_manager_path := app_file_manager_path self;
     room := r;
     _queue_manager := _queue_manager self;
     kernel_manager := kernel_manager self;
     session_cache_manager := session_cache_manager self;
     heartbeat_task := heartbeat_task self;
     _closed := _closed self;
     _unsubscribe_file_watcher_ := _unsubscribe_file_watcher_ self |}.

Definition set_queue_manager (self : Session) (q : QueueManager) : Session :=
  {| initialization_id := initialization_id self;
     app_file_manager_path := app_file_manager_path self;
     room := room self;
     _queue_manager := q;
     kernel_manager := kernel_manager self;
     session_cache_manager := session_cache_manager self;
     heartbeat_task := heartbeat_task self;
     _closed := _closed self;
     _unsubscribe_file_watcher_ := _unsubscribe_file_watcher_ self |}.

Definition set_session_cache_manager (self : Session)
    (m : option Serialize.SessionCacheManager) : Session :=
  {| initialization_id := initialization_id self;
     app_file_manager_path := app_file_manager_path self;
     room := room self;
     _queue_manager := _queue_manager self;
     kernel_manager := kernel_manager self;
     session_cache_manager := m;
     heartbeat_task := heartbeat_task self;
     _closed := _closed self;
     _unsubscribe_file_watcher_ := _unsubscribe_file_watcher_ self |}.

Definition set_closed (b : bool) (self : Session) : Session :=
  {| initialization_id := initialization_id self;
     app_file_manager_path := app_file_manager_path self;
     room := room self;
     _queue_manager := _queue_manager self;
     kernel_manager := kernel_manager self;
     session_cache_manager := session_cache_manager self;
     heartbeat_task := heartbeat_task self;
     _closed := b;
     _unsubscribe_file_watcher_ := _unsubscribe_file_watcher_ self |}.

(** [isinstance(request, SetUIElementValueRequest)] *)
Definition is_SetUIElementValueRequest (request : ControlRequest) : bool :=
  match request with SetUIElementValueRequest _ _ _ => true | _ => false end.

(** [Session.put_control_request] *)
Definition put_control_request (request : ControlRequest)
    (from_consumer_id : option ConsumerId) : M Session unit :=
  zoom _queue_manager set_queue_manager (modify (control_queue_put request)) ;;;
  (if is_SetUIElementValueRequest request
   then zoom _queue_manager set_queue_manager (modify (set_ui_element_queue_put request))
   else ret tt) ;;;
  (match request with
   | ExecuteMultipleRequest cell_ids codes =>
       zoom room set_room
         (fun r => broadcast r (UpdateCellCodes cell_ids codes false) from_consumer_id) ;;;
       (if Nat.eqb (List.length cell_ids) 1
        then zoom room set_room
               (fun r => broadcast r (FocusCell (hd "" cell_ids)) from_consumer_id)
        else ret tt)
   | _ => ret tt
   end) ;;;
  emit [EvViewAddControlRequest request].

(** [Session.disconnect_consumer] *)
Definition disconnect_consumer (session_consumer : SessionConsumer) : M Session unit :=
  zoom room set_room (fun r => remove_consumer r session_consumer).

(** [Session.connection_state] *)
Definition Session_connection_state (self : Session) : ConnectionState :=
  if _closed self then CLOSED
  else
    match main_consumer (room self) with
    | None => ORPHANED
    | Some m => connection_state (obj m)
    end.

(** [Session.close] *)
Definition Session_close : M Session unit :=
  closed <- gets _closed ;;
  if closed then ret tt
  else
    modify (set_closed true) ;;;
    zoom room set_room Room_close ;;;
    emit [EvDistributorStop] ;;;
    (heartbeat <- gets heartbeat_task ;;
     match heartbeat with
     | Some _ => emit [EvHeartbeatCancel]
     | None => ret tt
     end) ;;;
    (manager <- gets session_cache_manager ;;
     match manager with
     | Some m =>
         fun self =>
           match Serialize.stop m with
           | mkRun _ m' tr => returns tt (set_session_cache_manager self (Some m')) tr
           end
     | None => ret tt
     end) ;;;
    (fun self =>
       zoom _queue_manager set_queue_manager (close_kernel (kernel_manager self)) self).

(** ** Session manager *)

(** [os.path.abspath] *)
Variable abspath : string -> string.

(** [SessionManager]: the fields the methods below read or write.  Each
    entry of [sessions] holds a session object of its own. *)
Record SessionManager := {
  mode : SessionMode;
  sessions : dict SessionId Session;
  watch : bool
}.

Definition set_sessions (self : SessionManager) (d : dict SessionId Session)
    : SessionManager :=
  {| mode := mode self; sessions := d; watch := watch self |}.

(** [ConsumerId(session_id) in session.room.consumers.values()] *)
Definition has_consumer_id (session_id : SessionId) (session : Session) : bool :=
  existsb (String.eqb session_id) (PyDict.values (consumers (room session))).

(** [SessionManager.get_session], with the key the session is stored
    under: the session registered under [session_id], or else the first
    session with a consumer whose id is [session_id] (kiosk lookup). *)
Definition get_session_entry (self : SessionManager) (session_id : SessionId)
    : option (SessionId * Session) :=
  match PyDict.get (sessions self) session_id with
  | Some session => Some (session_id, session)
  | None =>
      find (fun entry => has_consumer_id session_id (snd entry))
           (PyDict.items (sessions self))
  end.

Definition get_session (self : SessionManager) (session_id : SessionId)
    : option Session :=
  option_map snd (get_session_entry self session_id).

(** A path is truthy when it is a non-empty string. *)
Definition path_is_set (p : option string) : bool :=
  match p with
  | Some s => negb (String.eqb s "")
  | None => false
  end.

(** [SessionManager.close_session]; the closed session object stays
    where it is stored unless it is stored under [session_id]. *)
Definition close_session (session_id : SessionId) : M SessionManager bool :=
  found <- gets (fun self => get_session_entry self session_id) ;;
  match found with
  | None => ret false
  | Some (stored_id, session) =>
      w <- gets watch ;;
      (if path_is_set (app_file_manager_path session) && w
       then
         match _unsubscribe_file_watcher_ session, app_file_manager_path session with
         | Some _, Some p => emit [EvWatcherRemoveCallback p]
         | _, _ => throw (AttributeError "_unsubscribe_file_watcher_")
         end
       else ret tt) ;;;
      zoom (fun _ => session)
           (fun self closed =>
              set_sessions self (PyDict.set (sessions self) stored_id closed))
           Session_close ;;;
      modify (fun self =>
                if PyDict.mem (sessions self) session_id
                then set_sessions self (PyDict.del (sessions self) session_id)
                else self) ;;;
      ret true
  end.

(** [task is not None and not task.is_alive()] *)
Definition kernel_is_dead (session : Session) : bool :=
  match kernel_task (kernel_manager session) with
  | Some task => negb (is_alive task)
  | None => false
  end.

(** The clean-up loop of [maybe_resume_session] over
    [list(self.sessions.items())]. *)
Fixpoint cleanup_dead_kernels (snapshot : list (SessionId * Session))
    : M SessionManager unit :=
  match snapshot with
  | [] => ret tt
  | (session_id, session) :: rest =>
      (if kernel_is_dead session
       then close_session session_id ;;; ret tt
       else ret tt) ;;;
      cleanup_dead_kernels rest
  end.

(** [session.app_file_manager.path == os.path.abspath(file_key)] *)
Definition same_file (file_key : MarimoFileKey) (entry : SessionId * Session) : bool :=
  match app_file_manager_path (snd entry) with
  | Some p => String.eqb p (abspath file_key)
  | None => false
  end.

(** [SessionManager.maybe_resume_session] *)
Definition maybe_resume_session (new_session_id : SessionId)
    (file_key : MarimoFileKey) : M SessionManager (option Session) :=
  m <- gets mode ;;
  if SessionMode_eqb m RUN then
    maybe_session <- gets (fun self => get_session self new_session_id) ;;
    match maybe_session with
    | Some session =>
        if ConnectionState_eqb (Session_connection_state session) ORPHANED
        then ret (Some session)
        else ret None
    | None => ret None
    end
  else
    snapshot <- gets (fun self => PyDict.items (sessions self)) ;;
    cleanup_dead_kernels snapshot ;;;
    sessions_with_the_same_file <-
      gets (fun self => filter (same_file file_key) (PyDict.items (sessions self))) ;;
    match sessions_with_the_same_file with
    | [] => ret None
    | [(session_id, session)] =>
        if ConnectionState_eqb (Session_connection_state session) ORPHANED
        then
          modify (fun self =>
                    set_sessions self (PyDict.set (sessions self) new_session_id session)) ;;;
          modify (fun self =>
                    if negb (String.eqb new_session_id session_id)
                       && PyDict.mem (sessions self) session_id
                    then set_sessions self (PyDict.del (sessions self) session_id)
                    else self) ;;;
          ret (Some session)
        else ret None
    | _ => throw (InvalidSessionException "Only one session should exist while editing")
    end.

(* ------------------------------------------------------------------ *)
(** ** Properties of the Room *)
(* ------------------------------------------------------------------ *)

(** [add_consumer] writes both maps whatever happens next. *)
Lemma add_consumer_registers_before_check (self : Room) (consumer : SessionConsumer)
    (dispose : Disposable) (cid : ConsumerId) (main : bool) :
  consumers (post (add_consumer self consumer dispose cid main))
  = PyDict.set (consumers self) consumer cid
  /\ disposables (post (add_consumer self consumer dispose cid main))
     = PyDict.set (disposables self) consumer dispose.
Proof.
  unfold add_consumer. destruct main; simpl; [|split; reflexivity].
  destruct (main_consumer self); split; reflexivity.
Qed.

(** C3 (as amended). When a main consumer exists, [add_consumer] with
    [main=True] raises, makes no call to any collaborator, and leaves the
    main-consumer slot and the entries of every other consumer as they
    were.  (The check comes after both maps are assigned, so the room is
    not left untouched.) *)
Theorem add_consumer_second_main_raises_keeping_main :
  forall (self : Room) (existing consumer : SessionConsumer)
         (dispose : Disposable) (cid : ConsumerId),
    main_consumer self = Some existing ->
    let r := add_consumer self consumer dispose cid true in
    outcome r = Raise (AssertionError "Main session consumer already exists")
    /\ trace r = []
    /\ main_consumer (post r) = Some existing
    /\ (forall c, c <> consumer ->
          PyDict.get (consumers (post r)) c = PyDict.get (consumers self) c
          /\ PyDict.get (disposables (post r)) c = PyDict.get (disposables self) c).
Proof.
  intros self existing consumer dispose cid Hmain r. subst r.
  unfold add_consumer; simpl. rewrite Hmain; simpl.
  repeat split; try reflexivity.
  - apply get_set_other. congruence.
  - apply get_set_other. congruence.
Qed.

Lemma is_except_true (cid : ConsumerId) (except_consumer : option ConsumerId) :
  is_except cid except_consumer = true <-> except_consumer = Some cid.
Proof.
  destruct except_consumer as [x|]; simpl.
  - rewrite String.eqb_eq. split; congruence.
  - split; discriminate.
Qed.

Lemma ConnectionState_eqb_eq (a b : ConnectionState) :
  ConnectionState_eqb a b = true <-> a = b.
Proof. destruct a, b; simpl; split; congruence. Qed.

(** Whether [broadcast] writes to a consumer of the room. *)
Definition receives (except_consumer : option ConsumerId) (c : SessionConsumer) : bool :=
  negb (is_except (consumer_id (obj c)) except_consumer)
  && ConnectionState_eqb (connection_state (obj c)) OPEN.

Lemma receives_true (except_consumer : option ConsumerId) (c : SessionConsumer) :
  receives except_consumer c = true <->
  connection_state (obj c) = OPEN /\ except_consumer <> Some (consumer_id (obj c)).
Proof.
  unfold receives. rewrite andb_true_iff, negb_true_iff, ConnectionState_eqb_eq.
  rewrite <- is_except_true.
  destruct (is_except (consumer_id (obj c)) except_consumer); split; intuition congruence.
Qed.

Lemma broadcast_loop_filter (cs : list SessionConsumer) (operation : MessageOperation)
    (except_consumer : option ConsumerId) :
  broadcast_loop cs operation except_consumer
  = map (fun c => EvWriteOperation c operation) (filter (receives except_consumer) cs).
Proof.
  induction cs as [|c cs IH]; simpl; [reflexivity|].
  unfold receives at 1.
  destruct (is_except (consumer_id (obj c)) except_consumer); simpl; [exact IH|].
  destruct (ConnectionState_eqb (connection_state (obj c)) OPEN); simpl; [now rewrite IH | exact IH].
Qed.

Lemma count_write_to_map (c : SessionConsumer) (operation : MessageOperation)
    (cs : list SessionConsumer) :
  count_events (is_write_to c) (map (fun c' => EvWriteOperation c' operation) cs)
  = List.length (filter (Nat.eqb c) cs).
Proof.
  unfold count_events. induction cs as [|x cs IH]; simpl; [reflexivity|].
  destruct (Nat.eqb c x); simpl; now rewrite IH.
Qed.

Lemma NoDup_count_le_1 (c : nat) (cs : list nat) :
  NoDup cs -> List.length (filter (Nat.eqb c) cs) = if existsb (Nat.eqb c) cs then 1 else 0.
Proof.
  induction 1 as [|x cs Hnot Hnd IH]; simpl; [reflexivity|].
  destruct (Nat.eqb c x) eqn:E; simpl.
  - apply Nat.eqb_eq in E. subst x. rewrite IH.
    destruct (existsb (Nat.eqb c) cs) eqn:Ex; [|reflexivity].
    apply existsb_exists in Ex. destruct Ex as [y [Hy Hcy]].
    apply Nat.eqb_eq in Hcy. subst y. contradiction.
  - exact IH.
Qed.

Lemma broadcast_loop_In (cs : list SessionConsumer) (operation : MessageOperation)
    (except_consumer : option ConsumerId) (e : Event) :
  In e (broadcast_loop cs operation except_consumer) <->
  exists c, e = EvWriteOperation c operation /\ In c cs
            /\ connection_state (obj c) = OPEN
            /\ except_consumer <> Some (consumer_id (obj c)).
Proof.
  rewrite broadcast_loop_filter, in_map_iff. split.
  - intros [c [He Hin]]. apply filter_In in Hin. destruct Hin as [Hin Hr].
    apply receives_true in Hr. exists c. intuition.
  - intros [c (He & Hin & Hopen & Hex)]. exists c. split; [now symmetry|].
    apply filter_In. split; [assumption|]. apply receives_true. now split.
Qed.

Lemma broadcast_loop_count (cs : list SessionConsumer) (operation : MessageOperation)
    (except_consumer : option ConsumerId) (c : SessionConsumer) :
  NoDup cs ->
  count_events (is_write_to c) (broadcast_loop cs operation except_consumer)
  = if existsb (Nat.eqb c) cs && receives except_consumer c then 1 else 0.
Proof.
  intros Hnd. rewrite broadcast_loop_filter, count_write_to_map.
  rewrite (NoDup_count_le_1 c (NoDup_filter _ Hnd)).
  destruct (existsb (Nat.eqb c) (filter (receives except_consumer) cs)) eqn:E.
  - apply existsb_exists in E. destruct E as [y [Hy Hcy]]. apply Nat.eqb_eq in Hcy. subst y.
    apply filter_In in Hy. destruct Hy as [Hin Hr]. rewrite Hr, andb_true_r.
    assert (Hex : existsb (Nat.eqb c) cs = true).
    { apply existsb_exists. exists c. split; [assumption | apply Nat.eqb_refl]. }
    now rewrite Hex.
  - destruct (existsb (Nat.eqb c) cs) eqn:Ein; [|reflexivity].
    destruct (receives except_consumer c) eqn:Er; [|reflexivity]. exfalso.
    apply existsb_exists in Ein. destruct Ein as [y [Hy Hcy]]. apply Nat.eqb_eq in Hcy. subst y.
    assert (Hex : existsb (Nat.eqb c) (filter (receives except_consumer) cs) = true).
    { apply existsb_exists. exists c. split; [|apply Nat.eqb_refl].
      apply filter_In. now split. }
    congruence.
Qed.

(** C5. [broadcast] writes the operation to exactly the consumers of the
    room that report OPEN and whose id is not [except_consumer], once each
    and in the order of the room; it writes nothing else, does not raise,
    leaves the room as it is, and an empty room receives nothing. *)
Theorem broadcast_delivers_to_open_consumers_except :
  forall (self : Room) (operation : MessageOperation)
         (except_consumer : option ConsumerId),
    PyDict.wf (consumers self) ->
    let r := broadcast self operation except_consumer in
    outcome r = Return tt
    /\ post r = self
    /\ (forall e, In e (trace r) -> exists c, e = EvWriteOperation c operation)
    /\ (forall c, In (EvWriteOperation c operation) (trace r) <->
                  (In c (PyDict.keys (consumers self))
                   /\ connection_state (obj c) = OPEN
                   /\ except_consumer <> Some (consumer_id (obj c))))
    /\ (forall c, count_events (is_write_to c) (trace r) <= 1)
    /\ (forall c, In (EvWriteOperation c operation) (trace r) ->
                  count_events (is_write_to c) (trace r) = 1)
    /\ trace r = map (fun c => EvWriteOperation c operation)
                     (filter (receives except_consumer) (PyDict.keys (consumers self)))
    /\ (consumers self = [] -> trace r = []).
Proof.
  intros self operation except_consumer Hwf r. subst r. unfold broadcast; simpl.
  apply uniq_NoDup in Hwf.
  assert (Hiff : forall c,
             In (EvWriteOperation c operation)
                (broadcast_loop (keys (consumers self)) operation except_consumer) <->
             In c (keys (consumers self)) /\ connection_state (obj c) = OPEN
             /\ except_consumer <> Some (consumer_id (obj c))).
  { intros c. rewrite broadcast_loop_In. split.
    - intros [c' (He & Hin & Ho & Hx)]. injection He as <-. auto.
    - intros (Hin & Ho & Hx). exists c. auto. }
  split; [reflexivity|]. split; [reflexivity|].
  split.
  { intros e He. apply broadcast_loop_In in He. destruct He as [c [He _]]. now exists c. }
  split; [exact Hiff|].
  split.
  { intros c. rewrite (broadcast_loop_count operation except_consumer c Hwf).
    destruct (existsb (Nat.eqb c) (keys (consumers self)) && receives except_consumer c); lia. }
  split.
  { intros c Hin. rewrite (broadcast_loop_count operation except_consumer c Hwf).
    apply Hiff in Hin. destruct Hin as (Hin & Ho & Hx).
    assert (Hex : existsb (Nat.eqb c) (keys (consumers self)) = true).
    { apply existsb_exists. exists c. split; [assumption | apply Nat.eqb_refl]. }
    assert (Hr : receives except_consumer c = true) by (apply receives_true; now split).
    now rewrite Hex, Hr. }
  split; [apply broadcast_loop_filter|].
  intros Hempty. now rewrite Hempty.
Qed.

(** C8. Removing a consumer that is in the room calls its stop hook and
    then its disposal callback, once each and in that order, also when the
    stop hook raises (the exception is passed on afterwards); the consumer
    is gone from both maps, the other consumers are untouched, and the
    main-consumer slot is cleared exactly when the consumer removed was the
    main consumer. *)
Theorem remove_consumer_stops_then_disposes_once :
  forall (self : Room) (consumer : SessionConsumer) (cid : ConsumerId)
         (disposable : Disposable),
    PyDict.wf (consumers self) ->
    PyDict.wf (disposables self) ->
    PyDict.get (consumers self) consumer = Some cid ->
    PyDict.get (disposables self) consumer = Some disposable ->
    let r := remove_consumer self consumer in
    trace r = [EvOnStop consumer; EvDispose consumer disposable]
    /\ count_events (is_on_stop consumer) (trace r) = 1
    /\ count_events (is_dispose consumer) (trace r) = 1
    /\ outcome r = (if on_stop_raises (obj consumer)
                    then Raise (StopHookError consumer) else Return tt)
    /\ PyDict.mem (consumers (post r)) consumer = false
    /\ PyDict.mem (disposables (post r)) consumer = false
    /\ (forall c, c <> consumer ->
          PyDict.get (consumers (post r)) c = PyDict.get (consumers self) c
          /\ PyDict.get (disposables (post r)) c = PyDict.get (disposables self) c)
    /\ (main_consumer self = Some consumer -> main_consumer (post r) = None)
    /\ (main_consumer self <> Some consumer -> main_consumer (post r) = main_consumer self).
Proof.
  intros self consumer cid disposable Hwc Hwd Hc Hd r. subst r.
  unfold remove_consumer, PyDict.pop, PyDict.mem. rewrite Hc, Hd. simpl.
  assert (Hmain1 : main_consumer self = Some consumer ->
                   (if is_main_consumer self consumer then None else main_consumer self) = None).
  { intros Hm. unfold is_main_consumer. rewrite Hm. now rewrite Nat.eqb_refl. }
  assert (Hmain2 : main_consumer self <> Some consumer ->
                   (if is_main_consumer self consumer then None else main_consumer self)
                   = main_consumer self).
  { intros Hm. unfold is_main_consumer. destruct (main_consumer self) as [m|]; [|reflexivity].
    destruct (Nat.eqb consumer m) eqn:E; [|reflexivity].
    apply Nat.eqb_eq in E. subst m. contradiction. }
  destruct (on_stop_raises (obj consumer)); simpl;
    unfold count_events; simpl; rewrite Nat.eqb_refl; simpl;
    repeat split; auto;
    try (now rewrite get_del_same);
    try (apply get_del_other; congruence).
Qed.

(* ------------------------------------------------------------------ *)
(** ** Properties of the Session *)
(* ------------------------------------------------------------------ *)

(** The calls [Room.close] makes for the consumers [cs] when every stop
    hook completes, read off the disposable map. *)
Definition stop_events (disp : dict SessionConsumer Disposable)
    (cs : list SessionConsumer) : list Event :=
  flat_map (fun c => match PyDict.get disp c with
                     | Some d => [EvOnStop c; EvDispose c d]
                     | None => []
                     end) cs.

Fixpoint del_all (cs : list SessionConsumer) (disp : dict SessionConsumer Disposable)
    : dict SessionConsumer Disposable :=
  match cs with
  | [] => disp
  | c :: rest => del_all rest (PyDict.del disp c)
  end.

(** A room whose [close] runs to its end: no consumer is registered twice,
    each has a disposable, and no stop hook raises. *)
Definition room_closes (self : Room) : Prop :=
  PyDict.wf (consumers self)
  /\ (forall c, In c (PyDict.keys (consumers self)) -> PyDict.mem (disposables self) c = true)
  /\ (forall c, In c (PyDict.keys (consumers self)) -> on_stop_raises (obj c) = false).

Lemma stop_events_ext (disp disp' : dict SessionConsumer Disposable)
    (cs : list SessionConsumer) :
  (forall c, In c cs -> PyDict.get disp' c = PyDict.get disp c) ->
  stop_events disp' cs = stop_events disp cs.
Proof.
  induction cs as [|c cs IH]; simpl; intros Hext; [reflexivity|].
  rewrite (Hext c (or_introl eq_refl)). f_equal. apply IH.
  intros c' Hin. apply Hext. now right.
Qed.

Lemma close_loop_completes (cs : list SessionConsumer) :
  forall disp,
    NoDup cs ->
    (forall c, In c cs -> PyDict.mem disp c = true) ->
    (forall c, In c cs -> on_stop_raises (obj c) = false) ->
    close_loop cs disp = (Return tt, del_all cs disp, stop_events disp cs).
Proof.
  induction cs as [|c cs IH]; intros disp Hnd Hmem Hstop; simpl; [reflexivity|].
  inversion Hnd as [|? ? Hnot Hrest]; subst.
  pose proof (Hmem c (or_introl eq_refl)) as Hc. unfold PyDict.mem in Hc.
  unfold PyDict.pop. destruct (PyDict.get disp c) as [d|] eqn:Eg; [|discriminate].
  rewrite (Hstop c (or_introl eq_refl)).
  assert (Hother : forall c', In c' cs -> PyDict.get (PyDict.del disp c) c' = PyDict.get disp c').
  { intros c' Hin. apply get_del_other. intros ->. contradiction. }
  rewrite IH; try assumption.
  - now rewrite (stop_events_ext _ _ _ Hother).
  - intros c' Hin. unfold PyDict.mem. rewrite (Hother c' Hin). apply Hmem. now right.
  - intros c' Hin. apply Hstop. now right.
Qed.

Lemma Room_close_completes (self : Room) :
  room_closes self ->
  Room_close self
  = returns tt
      {| main_consumer := None; consumers := [];
         disposables := del_all (PyDict.keys (consumers self)) (disposables self) |}
      (stop_events (disposables self) (PyDict.keys (consumers self))).
Proof.
  intros (Hwf & Hmem & Hstop). unfold Room_close.
  rewrite close_loop_completes; auto. now apply uniq_NoDup.
Qed.


Lemma close_kernel_returns (km : KernelManager) (qm : QueueManager) :
  kernel_task km <> None -> outcome (close_kernel km qm) = Return tt.
Proof.
  intros Hk. unfold close_kernel. destruct (kernel_task km) as [task|]; [|contradiction].
  destruct qm as [mp cq uq w].
  destruct (kind task), (profile_path km), (is_alive task), (_read_conn km), mp, w;
    reflexivity.
Qed.

Definition heartbeat_events (self : Session) : list Event :=
  match heartbeat_task self with Some _ => [EvHeartbeatCancel] | None => [] end.

Definition cache_events (self : Session) : list Event :=
  match session_cache_manager self with
  | Some m => trace (Serialize.stop m)
  | None => []
  end.

(** The session left by a first [close] that runs to its end. *)
Definition closed_session (self : Session) : Session :=
  {| initialization_id := initialization_id self;
     app_file_manager_path := app_file_manager_path self;
     room := {| main_consumer := None; consumers := [];
                disposables := del_all (PyDict.keys (consumers (room self)))
                                       (disposables (room self)) |};
     _queue_manager := post (close_kernel (kernel_manager self) (_queue_manager self));
     kernel_manager := kernel_manager self;
     session_cache_manager :=
       option_map (fun m => post (Serialize.stop m)) (session_cache_manager self);
     heartbeat_task := heartbeat_task self;
     _closed := true;
     _unsubscribe_file_watcher_ := _unsubscribe_file_watcher_ self |}.

Lemma Session_close_again (self : Session) :
  _closed self = true -> Session_close self = returns tt self [].
Proof.
  intros Hc. unfold Session_close, bind, gets. rewrite Hc. reflexivity.
Qed.

Lemma Session_close_first (self : Session) :
  _closed self = false ->
  room_closes (room self) ->
  Session_close self
  = mkRun (outcome (close_kernel (kernel_manager self) (_queue_manager self)))
      (closed_session self)
      (stop_events (disposables (room self)) (PyDict.keys (consumers (room self)))
       ++ EvDistributorStop :: heartbeat_events self ++ cache_events self
       ++ trace (close_kernel (kernel_manager self) (_queue_manager self))).
Proof.
  intros Hc Hroom. unfold Session_close, bind, zoom, gets, modify, emit, ret, returns, raises.
  cbv beta. rewrite Hc. cbn -[Room_close close_kernel Serialize.stop].
  rewrite (Room_close_completes Hroom).
  unfold closed_session, heartbeat_events, cache_events.
  destruct self as [iid pth rm qm km scm hbt cl unsub].
  cbn -[close_kernel Serialize.stop].
  destruct hbt as [hb|]; cbn -[close_kernel Serialize.stop];
    destruct scm as [m|]; cbn -[close_kernel Serialize.stop];
    try (destruct (Serialize.stop m) as [so sm st]; cbn -[close_kernel]);
    destruct (close_kernel km qm) as [ko kq kt];
    reflexivity.
Qed.

Lemma Session_close_sets_closed (self : Session) :
  _closed (post (Session_close self)) = true.
Proof.
  destruct (_closed self) eqn:Hc.
  - now rewrite Session_close_again.
  - unfold Session_close, bind, zoom, gets, modify, emit, ret, returns, raises.
    cbv beta. rewrite Hc. cbn -[Room_close close_kernel Serialize.stop].
    destruct (Room_close (room self)) as [[[]|e] rm tr]; cbn -[close_kernel Serialize.stop];
      [|reflexivity].
    destruct (heartbeat_task self) as [hb|]; cbn -[close_kernel Serialize.stop];
      destruct (session_cache_manager self) as [m|]; cbn -[close_kernel Serialize.stop];
      try (destruct (Serialize.stop m) as [so sm st]; cbn -[close_kernel]);
      match goal with
      | |- context [close_kernel ?k ?q] => destruct (close_kernel k q) as [ko kq kt]
      end; reflexivity.
Qed.

Lemma count_events_app (p : Event -> bool) (tr1 tr2 : list Event) :
  count_events p (tr1 ++ tr2) = count_events p tr1 + count_events p tr2.
Proof. unfold count_events. now rewrite filter_app, length_app. Qed.


Lemma count_events_none (p : Event -> bool) (tr : list Event) :
  (forall e, In e tr -> p e = false) -> count_events p tr = 0.
Proof.
  unfold count_events. induction tr as [|e tr IH]; simpl; intros Hall; [reflexivity|].
  rewrite (Hall e (or_introl eq_refl)). apply IH. intros e' Hin. apply Hall. now right.
Qed.








(** The writes [broadcast] makes in the room of a session. *)
Definition notified (self : Session) (operation : MessageOperation)
    (except_consumer : option ConsumerId) : list Event :=
  map (fun c => EvWriteOperation c operation)
      (filter (receives except_consumer) (PyDict.keys (consumers (room self)))).

Lemma In_notified (self : Session) (operation operation' : MessageOperation)
    (except_consumer : option ConsumerId) (c : SessionConsumer) :
  In (EvWriteOperation c operation') (notified self operation except_consumer) <->
  operation' = operation
  /\ In c (PyDict.keys (consumers (room self)))
  /\ connection_state (obj c) = OPEN
  /\ except_consumer <> Some (consumer_id (obj c)).
Proof.
  unfold notified. rewrite <- broadcast_loop_filter, broadcast_loop_In. split.
  - intros [c' (He & Hin & Ho & Hx)]. injection He as <- <-. auto.
  - intros (-> & Hin & Ho & Hx). exists c. auto.
Qed.

(** The run of [put_control_request], step by step. *)
Lemma put_control_request_run (self : Session) (request : ControlRequest)
    (from_consumer_id : option ConsumerId) :
  let r := put_control_request request from_consumer_id self in
  outcome r = Return tt
  /\ control_queue (_queue_manager (post r))
     = control_queue (_queue_manager self) ++ [request]
  /\ set_ui_element_queue (_queue_manager (post r))
     = (if is_SetUIElementValueRequest request
        then set_ui_element_queue (_queue_manager self) ++ [request]
        else set_ui_element_queue (_queue_manager self))
  /\ trace r
     = match request with
       | ExecuteMultipleRequest cell_ids codes =>
           notified self (UpdateCellCodes cell_ids codes false) from_consumer_id
           ++ match cell_ids with
              | [cell_id] => notified self (FocusCell cell_id) from_consumer_id
              | _ => []
              end
       | _ => []
       end ++ [EvViewAddControlRequest request]
  /\ room (post r) = room self
  /\ _closed (post r) = _closed self
  /\ kernel_manager (post r) = kernel_manager self
  /\ session_cache_manager (post r) = session_cache_manager self.
Proof.
  intros r. subst r.
  destruct self as [iid pth rm qm km scm hbt cl unsub].
  destruct qm as [mp cq uq w].
  unfold put_control_request, notified, bind, zoom, gets, modify, emit, ret, returns,
    raises, broadcast.
  destruct request as [cell_ids codes| | | |]; cbn -[broadcast_loop receives];
    try (repeat split; reflexivity).
  rewrite !broadcast_loop_filter.
  destruct cell_ids as [|cell_id [|cell_id' rest]]; cbn -[receives];
    rewrite ?broadcast_loop_filter, ?app_nil_r, <- ?app_assoc;
    repeat split; reflexivity.
Qed.

(** C6. [put_control_request] puts the request on the control queue; a
    set-UI-element-value request is also put on the UI-value queue; for an
    [ExecuteMultipleRequest] an [UpdateCellCodes] notice with
    [code_is_stale=False] is written to every consumer of the room that is
    OPEN and is not the originator, followed by a [FocusCell] notice to the
    same consumers when the request has exactly one cell id; no other
    notice is written; last, the request is recorded in the Session View.
    The room is unchanged and the call does not raise. *)
Theorem put_control_request_enqueues_notifies_records :
  forall (self : Session) (request : ControlRequest)
         (from_consumer_id : option ConsumerId),
    let r := put_control_request request from_consumer_id self in
    let reached c :=
      In c (PyDict.keys (consumers (room self)))
      /\ connection_state (obj c) = OPEN
      /\ from_consumer_id <> Some (consumer_id (obj c)) in
    outcome r = Return tt
    /\ control_queue (_queue_manager (post r))
       = control_queue (_queue_manager self) ++ [request]
    /\ set_ui_element_queue (_queue_manager (post r))
       = (if is_SetUIElementValueRequest request
          then set_ui_element_queue (_queue_manager self) ++ [request]
          else set_ui_element_queue (_queue_manager self))
    /\ (forall cell_ids codes c,
          request = ExecuteMultipleRequest cell_ids codes ->
          (In (EvWriteOperation c (UpdateCellCodes cell_ids codes false)) (trace r)
           <-> reached c))
    /\ (forall cell_id codes c,
          request = ExecuteMultipleRequest [cell_id] codes ->
          (In (EvWriteOperation c (FocusCell cell_id)) (trace r) <-> reached c))
    /\ (forall c operation,
          In (EvWriteOperation c operation) (trace r) ->
          exists cell_ids codes,
            request = ExecuteMultipleRequest cell_ids codes
            /\ (operation = UpdateCellCodes cell_ids codes false
                \/ (List.length cell_ids = 1 /\ operation = FocusCell (hd "" cell_ids))))
    /\ trace r
       = match request with
         | ExecuteMultipleRequest cell_ids codes =>
             notified self (UpdateCellCodes cell_ids codes false) from_consumer_id
             ++ match cell_ids with
                | [cell_id] => notified self (FocusCell cell_id) from_consumer_id
                | _ => []
                end
         | _ => []
         end ++ [EvViewAddControlRequest request]
    /\ room (post r) = room self.
Proof.
  intros self request from_consumer_id r reached.
  destruct (put_control_request_run self request from_consumer_id)
    as (Ho & Hq & Hu & Htr & Hroom & _).
  fold r in Ho, Hq, Hu, Htr, Hroom.
  split; [exact Ho|]. split; [exact Hq|]. split; [exact Hu|].
  split; [|split; [|split; [|split; [exact Htr | exact Hroom]]]].
  - intros cell_ids codes c ->. rewrite Htr, !in_app_iff, In_notified. subst reached. simpl.
    split.
    + intros [[H|H]|[H|[]]]; [tauto | | discriminate].
      destruct cell_ids as [|x [|y l]]; simpl in H; try contradiction.
      apply In_notified in H. destruct H as [H _]. discriminate.
    + intros H. left. left. tauto.
  - intros cell_id codes c ->. rewrite Htr, !in_app_iff, !In_notified. subst reached. simpl.
    split.
    + intros [[(H & _)|H]|[H|[]]]; [discriminate | tauto | discriminate].
    + intros H. left. right. tauto.
  - intros c operation Hin. rewrite Htr in Hin.
    destruct request as [cell_ids codes| | | |];
      try (simpl in Hin; destruct Hin as [Hin|[]]; discriminate).
    exists cell_ids, codes. split; [reflexivity|].
    rewrite !in_app_iff in Hin. destruct Hin as [[H|H]|[H|[]]]; [| |discriminate].
    + apply In_notified in H. left. tauto.
    + destruct cell_ids as [|x [|y l]]; simpl in H; try contradiction.
      apply In_notified in H. right. simpl. tauto.
Qed.

(* ------------------------------------------------------------------ *)
(** ** Properties of the session manager *)
(* ------------------------------------------------------------------ *)

Definition is_live (entry : SessionId * Session) : bool :=
  negb (kernel_is_dead (snd entry)).

(** The sessions that survive the clean-up of dead kernels. *)
Definition live_sessions (self : SessionManager) : dict SessionId Session :=
  filter is_live (PyDict.items (sessions self)).

(** [close_session] runs to its end on a session stored under its own id:
    the watcher callback to remove is there when it is needed, and
    [Session.close] does not raise. *)
Definition closes_cleanly (w : bool) (session : Session) : bool :=
  (negb (path_is_set (app_file_manager_path session) && w)
   || match _unsubscribe_file_watcher_ session with Some _ => true | None => false end)
  && match outcome (Session_close session) with Return _ => true | Raise _ => false end.

Definition dead_sessions_close_cleanly (self : SessionManager) : bool :=
  forallb (fun entry => is_live entry || closes_cleanly (watch self) (snd entry))
          (PyDict.items (sessions self)).

Lemma close_session_stored (self : SessionManager)
    (pre suf : dict SessionId Session) (sid : SessionId) (s : Session) :
  sessions self = pre ++ (sid, s) :: suf ->
  ~ In sid (PyDict.keys pre) ->
  closes_cleanly (watch self) s = true ->
  exists tr, close_session sid self = returns true (set_sessions self (pre ++ suf)) tr.
Proof.
  intros Hs Hpre Hok. unfold closes_cleanly in Hok.
  apply andb_true_iff in Hok. destruct Hok as [Hwatch Hclose].
  unfold close_session, bind, gets, zoom, modify, ret, emit, throw, returns, raises.
  cbv beta. unfold get_session_entry. rewrite Hs, (get_middle pre suf sid s Hpre).
  destruct (Session_close s) as [[[]|e] s' tr] eqn:Ec; simpl in Hclose; [|discriminate].
  assert (Hmem : PyDict.mem (pre ++ (sid, s') :: suf) sid = true).
  { unfold PyDict.mem. now rewrite (get_middle pre suf sid s' Hpre). }
  destruct (path_is_set (app_file_manager_path s) && watch self) eqn:Ew; simpl in Hwatch.
  - destruct (_unsubscribe_file_watcher_ s) as [u|]; [|discriminate].
    destruct (app_file_manager_path s) as [p|] eqn:Ep; [|discriminate].
    cbn. rewrite Hs, (set_middle pre suf sid s s' Hpre), Hmem. cbn.
    rewrite (del_middle pre suf sid s' Hpre). eexists. reflexivity.
  - cbn. rewrite Hs, (set_middle pre suf sid s s' Hpre), Hmem. cbn.
    rewrite (del_middle pre suf sid s' Hpre). eexists. reflexivity.
Qed.

Lemma cleanup_dead_kernels_spec (rest : list (SessionId * Session)) :
  forall (pre : dict SessionId Session) (self : SessionManager),
    sessions self = pre ++ rest ->
    NoDup (PyDict.keys (pre ++ rest)) ->
    forallb (fun entry => is_live entry || closes_cleanly (watch self) (snd entry)) rest = true ->
    exists tr,
      cleanup_dead_kernels rest self
      = returns tt (set_sessions self (pre ++ filter is_live rest)) tr.
Proof.
  induction rest as [|[sid s] rest IH]; intros pre self Hs Hnd Hok.
  - exists []. simpl. unfold ret. rewrite <- Hs. now destruct self.
  - simpl in Hok. apply andb_true_iff in Hok. destruct Hok as [Hhead Hrest].
    assert (Hpre : ~ In sid (PyDict.keys pre)).
    { unfold PyDict.keys in *. rewrite map_app in Hnd. simpl in Hnd.
      apply NoDup_remove_2 in Hnd. intros Hin. apply Hnd. apply in_or_app. now left. }
    unfold is_live in Hhead. simpl in Hhead.
    change (cleanup_dead_kernels ((sid, s) :: rest) self)
      with (((if kernel_is_dead s then close_session sid ;;; ret tt else ret tt) ;;;
             cleanup_dead_kernels rest) self).
    change (filter is_live ((sid, s) :: rest))
      with (if negb (kernel_is_dead s) then (sid, s) :: filter is_live rest
            else filter is_live rest).
    destruct (kernel_is_dead s) eqn:Ed; simpl in Hhead.
    + destruct (@close_session_stored self pre rest sid s Hs Hpre Hhead) as [tr1 Hc].
      assert (Hnd' : NoDup (PyDict.keys (pre ++ rest))).
      { unfold PyDict.keys in *. rewrite map_app in *. simpl in Hnd.
        now apply NoDup_remove_1 in Hnd. }
      destruct (IH pre (set_sessions self (pre ++ rest)) eq_refl Hnd' Hrest) as [tr2 Hi].
      exists ((tr1 ++ []) ++ tr2).
      unfold bind, ret, returns in *. rewrite Hc, Hi. reflexivity.
    + assert (Hs' : sessions self = (pre ++ [(sid, s)]) ++ rest)
        by (now rewrite <- app_assoc).
      assert (Hnd' : NoDup (PyDict.keys ((pre ++ [(sid, s)]) ++ rest)))
        by (now rewrite <- app_assoc).
      destruct (IH (pre ++ [(sid, s)]) self Hs' Hnd' Hrest) as [tr2 Hi].
      exists tr2. unfold bind, ret, returns in *. rewrite Hi.
      simpl. now rewrite <- app_assoc.
Qed.

(** What the edit-mode branch of [maybe_resume_session] computes once the
    dead kernels are cleaned up. *)
Lemma maybe_resume_session_edit (self : SessionManager)
    (new_session_id : SessionId) (file_key : MarimoFileKey) :
  mode self = EDIT ->
  PyDict.wf (sessions self) ->
  dead_sessions_close_cleanly self = true ->
  let live := live_sessions self in
  let r := maybe_resume_session new_session_id file_key self in
  match filter (same_file file_key) live with
  | [] => outcome r = Return None /\ post r = set_sessions self live
  | [(session_id, session)] =>
      if ConnectionState_eqb (Session_connection_state session) ORPHANED
      then outcome r = Return (Some session)
           /\ post r
              = set_sessions self
                  (if negb (String.eqb new_session_id session_id)
                      && PyDict.mem (PyDict.set live new_session_id session) session_id
                   then PyDict.del (PyDict.set live new_session_id session) session_id
                   else PyDict.set live new_session_id session)
      else outcome r = Return None /\ post r = set_sessions self live
  | _ => outcome r
         = Raise (InvalidSessionException "Only one session should exist while editing")
         /\ post r = set_sessions self live
  end.
Proof.
  intros Hmode Hwf Hok live r. subst r live. unfold live_sessions.
  apply uniq_NoDup in Hwf.
  destruct (@cleanup_dead_kernels_spec (PyDict.items (sessions self)) [] self
              eq_refl Hwf Hok) as [tr Hc].
  simpl in Hc.
  unfold maybe_resume_session, bind, gets, modify, ret, throw, returns, raises in *.
  rewrite Hmode. cbn -[cleanup_dead_kernels filter PyDict.set PyDict.del PyDict.mem String.eqb].
  rewrite Hc. cbn -[cleanup_dead_kernels filter PyDict.set PyDict.del PyDict.mem String.eqb].
  unfold PyDict.items.
  destruct (filter (same_file file_key) (filter is_live (sessions self)))
    as [|[session_id session] [|e2 more]];
    cbn -[PyDict.set PyDict.del PyDict.mem String.eqb].
  - split; reflexivity.
  - destruct (ConnectionState_eqb (Session_connection_state session) ORPHANED);
      cbn -[PyDict.set PyDict.del PyDict.mem String.eqb]; [|split; reflexivity].
    destruct (negb (String.eqb new_session_id session_id)
              && PyDict.mem (PyDict.set (filter is_live (sessions self)) new_session_id session)
                   session_id); split; reflexivity.
  - split; reflexivity.
Qed.

Lemma same_file_snd (file_key : MarimoFileKey) (k k' : SessionId) (s : Session) :
  same_file file_key (k, s) = same_file file_key (k', s).
Proof. reflexivity. Qed.

(** C1. In edit mode, once the sessions with a dead kernel are cleaned up:
    when two or more of the remaining sessions have the path of the file
    key, [maybe_resume_session] raises [InvalidSessionException]; when
    exactly one has it and is ORPHANED, that session is returned and
    stored under the new id, the old id is gone, and the map holds
    exactly one entry with that path; in every other case (no session with
    the path, or one that is not ORPHANED) the result is [None] and the
    map is left as the clean-up left it. *)
Theorem maybe_resume_session_edit_mode :
  forall (self : SessionManager) (new_session_id : SessionId)
         (file_key : MarimoFileKey),
    mode self = EDIT ->
    PyDict.wf (sessions self) ->
    dead_sessions_close_cleanly self = true ->
    let live := live_sessions self in
    let same := filter (same_file file_key) live in
    let r := maybe_resume_session new_session_id file_key self in
    (2 <= List.length same ->
       outcome r = Raise (InvalidSessionException "Only one session should exist while editing")
       /\ sessions (post r) = live)
    /\ (forall session_id session,
          same = [(session_id, session)] ->
          Session_connection_state session = ORPHANED ->
          outcome r = Return (Some session)
          /\ PyDict.get (sessions (post r)) new_session_id = Some session
          /\ (session_id <> new_session_id ->
              PyDict.get (sessions (post r)) session_id = None)
          /\ (forall k, k <> new_session_id -> k <> session_id ->
                PyDict.get (sessions (post r)) k = PyDict.get live k)
          /\ filter (same_file file_key) (sessions (post r)) = [(new_session_id, session)]
          /\ PyDict.wf (sessions (post r)))
    /\ (forall session_id session,
          same = [(session_id, session)] ->
          Session_connection_state session <> ORPHANED ->
          outcome r = Return None /\ sessions (post r) = live)
    /\ (same = [] -> outcome r = Return None /\ sessions (post r) = live).
Proof.
  intros self new_session_id file_key Hmode Hwf Hok live same r.
  pose proof (@maybe_resume_session_edit self new_session_id file_key Hmode Hwf Hok) as Hrun.
  cbv zeta in Hrun. fold live in Hrun. fold same in Hrun. fold r in Hrun.
  assert (Hwl : PyDict.wf live) by (apply wf_filter; exact Hwf).
  split; [|split; [|split]].
  - intros Hlen. destruct same as [|e1 [|e2 more]]; simpl in Hlen; try lia.
    destruct e1 as [k1 s1]. destruct Hrun as [Ho Hp]. rewrite Hp. now split.
  - intros session_id session Hsame Horph. rewrite Hsame in Hrun.
    rewrite Horph in Hrun. simpl in Hrun. destruct Hrun as [Ho Hp].
    assert (Hin : In (session_id, session) live /\ same_file file_key (session_id, session) = true).
    { apply filter_In. fold same. rewrite Hsame. now left. }
    destruct Hin as [Hin Hmatch].
    assert (Hget : PyDict.get live session_id = Some session) by (now apply get_In).
    assert (Honly : forall k v, In (k, v) live -> same_file file_key (k, v) = true ->
                                k = session_id).
    { intros k v Hkv Hm.
      assert (Hs : In (k, v) same) by (apply filter_In; now split).
      rewrite Hsame in Hs. destruct Hs as [Hs|[]]. congruence. }
    rewrite Hp. simpl.
    destruct (String.eqb new_session_id session_id) eqn:Eid; simpl.
    + apply String.eqb_eq in Eid. subst new_session_id.
      rewrite (set_same_value _ _ Hget).
      split; [assumption|]. split; [assumption|]. split; [congruence|].
      split; [reflexivity|]. split; [|assumption].
      apply filter_unique_entry; auto.
    + apply String.eqb_neq in Eid.
      assert (Hmem : PyDict.mem (PyDict.set live new_session_id session) session_id = true).
      { unfold PyDict.mem. rewrite get_set_other by assumption. now rewrite Hget. }
      rewrite Hmem.
      assert (Hws : PyDict.wf (PyDict.set live new_session_id session)) by (now apply wf_set).
      assert (Hnew : PyDict.get (PyDict.del (PyDict.set live new_session_id session) session_id)
                       new_session_id = Some session).
      { rewrite get_del_other by congruence. apply get_set_same. }
      split; [assumption|]. split; [assumption|].
      split; [intros _; now apply get_del_same|].
      split.
      { intros k Hk1 Hk2. rewrite get_del_other by congruence.
        apply get_set_other. congruence. }
      split; [|now apply wf_del].
      apply filter_unique_entry;
        [now apply wf_del | exact Hnew
        | now rewrite (same_file_snd file_key new_session_id session_id) |].
      * intros k v Hkv Hm.
        apply (get_In _ _ (wf_del _ Hws)) in Hkv.
        destruct (String.eqb k new_session_id) eqn:Ek; [now apply String.eqb_eq in Ek|].
        apply String.eqb_neq in Ek. exfalso.
        destruct (String.eqb k session_id) eqn:Ek2.
        -- apply String.eqb_eq in Ek2. subst k. rewrite get_del_same in Hkv by assumption.
           discriminate.
        -- apply String.eqb_neq in Ek2.
           rewrite get_del_other in Hkv by congruence.
           rewrite get_set_other in Hkv by congruence.
           apply (get_In _ _ Hwl) in Hkv. apply Ek2. now apply (Honly k v).
  - intros session_id session Hsame Hnot. rewrite Hsame in Hrun.
    destruct (ConnectionState_eqb (Session_connection_state session) ORPHANED) eqn:Eo.
    + apply ConnectionState_eqb_eq in Eo. contradiction.
    + destruct Hrun as [Ho Hp]. rewrite Hp. now split.
  - intros Hsame. rewrite Hsame in Hrun. destruct Hrun as [Ho Hp]. rewrite Hp. now split.
Qed.

(** In run mode the answer is whatever [get_session] finds for the new
    id, kiosk lookup included, provided it is ORPHANED; the manager is not
    changed. *)
Lemma maybe_resume_session_run (self : SessionManager)
    (new_session_id : SessionId) (file_key : MarimoFileKey) :
  mode self = RUN ->
  maybe_resume_session new_session_id file_key self
  = returns
      (match get_session self new_session_id with
       | Some session =>
           if ConnectionState_eqb (Session_connection_state session) ORPHANED
           then Some session else None
       | None => None
       end) self [].
Proof.
  intros Hmode. unfold maybe_resume_session, bind, gets, ret, returns.
  rewrite Hmode. simpl.
  destruct (get_session self new_session_id) as [session|]; [|reflexivity].
  now destruct (ConnectionState_eqb (Session_connection_state session) ORPHANED).
Qed.

End WithConsumers.

(* ------------------------------------------------------------------ *)
(** ** Concrete rooms, sessions and managers *)
(* ------------------------------------------------------------------ *)

(** Consumer 1 is an open main consumer, consumer 2 an open kiosk
    consumer, consumer 3 a consumer whose connection is closed; the stop
    hook of any other consumer raises. *)
Definition demo_obj (c : SessionConsumer) : ConsumerObject :=
  match c with
  | 1 => {| consumer_id := "main-1"; connection_state := OPEN; on_stop_raises := false |}
  | 2 => {| consumer_id := "kiosk-2"; connection_state := OPEN; on_stop_raises := false |}
  | 3 => {| consumer_id := "kiosk-3"; connection_state := CLOSED; on_stop_raises := false |}
  | _ => {| consumer_id := "faulty"; connection_state := OPEN; on_stop_raises := true |}
  end.

Definition demo_abspath (file_key : string) : string := "/srv/" ++ file_key.

Definition demo_room : Room :=
  {| main_consumer := Some 1;
     consumers := [(1, "main-1"); (2, "kiosk-2"); (3, "kiosk-3")];
     disposables := [(1, 101); (2, 102); (3, 103)] |}.

Definition demo_kernel_manager (alive : bool) : KernelManager :=
  {| kernel_task := Some {| kind := Process; is_alive := alive |};
     profile_path := None;
     _read_conn := Some tt |}.

Definition demo_queue_manager : QueueManager :=
  {| use_multiprocessing := true;
     control_queue := [];
     set_ui_element_queue := [];
     has_win32_interrupt_queue := false |}.

Definition demo_cache_manager : Serialize.SessionCacheManager :=
  {| Serialize.session_view := Serialize.SessionView_new;
     Serialize.path := Some "/srv/nb.py";
     Serialize.interval := 2;
     Serialize.session_cache_writer := Some tt |}.

Definition demo_session (r : Room) (alive : bool) : Session :=
  {| initialization_id := "nb.py";
     app_file_manager_path := Some "/srv/nb.py";
     room := r;
     _queue_manager := demo_queue_manager;
     kernel_manager := demo_kernel_manager alive;
     session_cache_manager := Some demo_cache_manager;
     heartbeat_task := Some tt;
     _closed := false;
     _unsubscribe_file_watcher_ := Some tt |}.

(** A room that lost its main consumer and keeps one kiosk consumer. *)
Definition orphaned_room : Room :=
  {| main_consumer := None;
     consumers := [(2, "kiosk-2")];
     disposables := [(2, 102)] |}.

Definition demo_edit_manager : SessionManager :=
  {| mode := EDIT;
     sessions := [("s-dead", demo_session demo_room false);
                  ("s-old", demo_session orphaned_room true)];
     watch := true |}.

(** A run-mode session: thread kernel, thread queues, no cache manager;
    its main consumer is gone and one kiosk consumer is left. *)
Definition run_session : Session :=
  {| initialization_id := "nb.py";
     app_file_manager_path := Some "/srv/nb.py";
     room := orphaned_room;
     _queue_manager :=
       {| use_multiprocessing := false;
          control_queue := [];
          set_ui_element_queue := [];
          has_win32_interrupt_queue := false |};
     kernel_manager :=
       {| kernel_task := Some {| kind := Thread; is_alive := true |};
          profile_path := None;
          _read_conn := None |};
     session_cache_manager := None;
     heartbeat_task := Some tt;
     _closed := false;
     _unsubscribe_file_watcher_ := None |}.

Definition demo_run_manager : SessionManager :=
  {| mode := RUN;
     sessions := [("s-1", run_session)];
     watch := false |}.

(** A room with a consumer whose stop hook raises. *)
Definition faulty_room : Room :=
  {| main_consumer := Some 1;
     consumers := [(1, "main-1"); (9, "faulty")];
     disposables := [(1, 101); (9, 109)] |}.

(** C3 (counterexample). The claim as stated fails: with consumer 1 as
    main consumer, adding consumer 4 as a second main consumer raises, but
    by then both maps hold an entry for consumer 4. *)
Lemma add_consumer_second_main_changes_maps :
  ~ (forall (self : Room) (consumer : SessionConsumer) (dispose : Disposable)
            (cid : ConsumerId),
       main_consumer self <> None ->
       let r := add_consumer self consumer dispose cid true in
       (exists e, outcome r = Raise e)
       /\ consumers (post r) = consumers self
       /\ disposables (post r) = disposables self).
Proof.
  intros Hclaim.
  assert (Hmain : main_consumer demo_room <> None) by discriminate.
  destruct (Hclaim demo_room 4 104 "second-main" Hmain) as (_ & Hcons & _).
  vm_compute in Hcons. discriminate Hcons.
Qed.

Lemma add_consumer_second_main_witness :
  outcome (add_consumer demo_room 4 104 "second-main" true)
  = Raise (AssertionError "Main session consumer already exists")
  /\ main_consumer (post (add_consumer demo_room 4 104 "second-main" true)) = Some 1
  /\ PyDict.get (consumers (post (add_consumer demo_room 4 104 "second-main" true))) 2
     = Some "kiosk-2".
Proof.
  destruct (@add_consumer_second_main_raises_keeping_main
              demo_room 1 4 104 "second-main" eq_refl)
    as (Ho & _ & Hm & Hothers).
  split; [exact Ho|]. split; [exact Hm|].
  destruct (Hothers 2) as [Hc _]; [discriminate | exact Hc].
Defined.

Lemma broadcast_witness :
  PyDict.wf (consumers demo_room)
  /\ trace (broadcast demo_obj demo_room Reload (Some "main-1"))
     = [EvWriteOperation 2 Reload]
  /\ count_events (is_write_to 2) (trace (broadcast demo_obj demo_room Reload (Some "main-1"))) = 1.
Proof.
  assert (Hwf : PyDict.wf (consumers demo_room)) by reflexivity.
  destruct (@broadcast_delivers_to_open_consumers_except
              demo_obj demo_room Reload (Some "main-1") Hwf)
    as (_ & _ & _ & _ & _ & Hone & Htr & _).
  split; [exact Hwf|]. split; [exact Htr|].
  apply Hone. rewrite Htr. now left.
Defined.

Lemma remove_consumer_witness :
  trace (remove_consumer demo_obj demo_room 1) = [EvOnStop 1; EvDispose 1 101]
  /\ outcome (remove_consumer demo_obj demo_room 1) = Return tt
  /\ main_consumer (post (remove_consumer demo_obj demo_room 1)) = None
  /\ PyDict.mem (consumers (post (remove_consumer demo_obj demo_room 1))) 1 = false.
Proof.
  destruct (@remove_consumer_stops_then_disposes_once
              demo_obj demo_room 1 "main-1" 101 eq_refl eq_refl eq_refl eq_refl)
    as (Htr & _ & _ & Ho & Hc & _ & _ & Hm & _).
  split; [exact Htr|]. split; [exact Ho|]. split; [exact (Hm eq_refl) | exact Hc].
Defined.

(** The disposal callback also runs when the stop hook raises. *)
Example remove_consumer_with_raising_stop_hook :
  remove_consumer demo_obj faulty_room 9
  = raises (StopHookError 9)
      {| main_consumer := Some 1; consumers := [(1, "main-1")]; disposables := [(1, 101)] |}
      [EvOnStop 9; EvDispose 9 109].
Proof. reflexivity. Qed.



(** Outside the assumptions of C4: when a stop hook raises, the first
    [close] passes the exception on after marking the session closed, so
    a second [close] returns at once and the kernel is not closed. *)
Example Session_close_with_raising_stop_hook :
  outcome (Session_close demo_obj (demo_session faulty_room true))
  = Raise (StopHookError 9)
  /\ trace (Session_close demo_obj (demo_session faulty_room true))
     = [EvOnStop 1; EvDispose 1 101; EvOnStop 9]
  /\ Session_close demo_obj (post (Session_close demo_obj (demo_session faulty_room true)))
     = returns tt (post (Session_close demo_obj (demo_session faulty_room true))) [].
Proof. repeat split; reflexivity. Qed.

Example put_control_request_single_cell :
  trace (put_control_request demo_obj (ExecuteMultipleRequest ["c1"] ["x=1"])
           (Some "main-1") (demo_session demo_room true))
  = [EvWriteOperation 2 (UpdateCellCodes ["c1"] ["x=1"] false);
     EvWriteOperation 2 (FocusCell "c1");
     EvViewAddControlRequest (ExecuteMultipleRequest ["c1"] ["x=1"])].
Proof. reflexivity. Qed.

Example put_control_request_set_ui :
  let r := put_control_request demo_obj (SetUIElementValueRequest ["slider"] ["3"] "t")
             None (demo_session demo_room true) in
  control_queue (_queue_manager (post r)) = [SetUIElementValueRequest ["slider"] ["3"] "t"]
  /\ set_ui_element_queue (_queue_manager (post r))
     = [SetUIElementValueRequest ["slider"] ["3"] "t"]
  /\ trace r = [EvViewAddControlRequest (SetUIElementValueRequest ["slider"] ["3"] "t")].
Proof. repeat split; reflexivity. Qed.

Lemma maybe_resume_session_edit_witness :
  outcome (maybe_resume_session demo_obj demo_abspath "s-new" "nb.py" demo_edit_manager)
  = Return (Some (demo_session orphaned_room true))
  /\ filter (same_file demo_abspath "nb.py")
       (sessions (post (maybe_resume_session demo_obj demo_abspath "s-new" "nb.py"
                          demo_edit_manager)))
     = [("s-new", demo_session orphaned_room true)].
Proof.
  destruct (@maybe_resume_session_edit_mode demo_obj demo_abspath demo_edit_manager
              "s-new" "nb.py" eq_refl eq_refl eq_refl)
    as (_ & Hone & _).
  destruct (Hone "s-old" (demo_session orphaned_room true) eq_refl eq_refl)
    as (Ho & _ & _ & _ & Hf & _).
  split; [exact Ho | exact Hf].
Defined.

(** The clean-up comes first: an orphaned session whose kernel is dead is
    closed and dropped, not resumed. *)
Example maybe_resume_session_dead_kernel_not_resumed :
  let r := maybe_resume_session demo_obj demo_abspath "s-new" "nb.py"
             {| mode := EDIT;
                sessions := [("s-old", demo_session orphaned_room false)];
                watch := false |} in
  outcome r = Return None /\ sessions (post r) = [].
Proof. split; reflexivity. Qed.

(** Two live sessions on one file are an internal-consistency failure. *)
Example maybe_resume_session_two_sessions_same_file :
  outcome (maybe_resume_session demo_obj demo_abspath "s-new" "nb.py"
             {| mode := EDIT;
                sessions := [("s-a", demo_session demo_room true);
                             ("s-b", demo_session orphaned_room true)];
                watch := false |})
  = Raise (InvalidSessionException "Only one session should exist while editing").
Proof. reflexivity. Qed.

(** C7 (failing input). In run mode no session is stored under
    ["kiosk-2"], yet [maybe_resume_session "kiosk-2"] returns the orphaned
    session stored under ["s-1"], found through its kiosk consumer. *)
Theorem maybe_resume_session_run_resumes_across_ids :
  PyDict.get (sessions demo_run_manager) "kiosk-2" = None
  /\ PyDict.get (sessions demo_run_manager) "s-1" = Some run_session
  /\ Session_connection_state demo_obj run_session = ORPHANED
  /\ maybe_resume_session demo_obj demo_abspath "kiosk-2" "nb.py" demo_run_manager
     = returns (Some run_session) demo_run_manager [].
Proof. repeat split; reflexivity. Qed.

End Sessions.

(* ================================================================== *)
(** * Further facts about Python dictionaries *)
(* ================================================================== *)

Module PyDictFacts.

Section Facts.
Context {K V : Type} `{Hashable K}.

Lemma del_absent (d : dict K V) (k : K) :
  ~ In k (PyDict.keys d) -> PyDict.del d k = d.
Proof.
  induction d as [|[k0 v0] d IH]; simpl; intros Hn; [reflexivity|].
  rewrite key_eqb_neq by (intros ->; apply Hn; now left).
  rewrite IH; [reflexivity|]. intros Hin. apply Hn. now right.
Qed.

(** Deleting a key that was just added under a fresh key gives the
    dictionary back. *)
Lemma del_set_fresh (d : dict K V) (k : K) (v : V) :
  ~ In k (PyDict.keys d) -> PyDict.del (PyDict.set d k v) k = d.
Proof.
  induction d as [|[k0 v0] d IH]; simpl; intros Hn.
  - now rewrite key_eqb_refl.
  - rewrite key_eqb_neq by (intros ->; apply Hn; now left). simpl.
    rewrite key_eqb_neq by (intros ->; apply Hn; now left).
    rewrite IH; [reflexivity|]. intros Hin. apply Hn. now right.
Qed.

Lemma In_keys_del (d : dict K V) (k m : K) :
  In m (PyDict.keys d) -> m <> k -> In m (PyDict.keys (PyDict.del d k)).
Proof.
  intros Hin Hne. apply mem_keys. apply mem_keys in Hin.
  unfold PyDict.mem in *. rewrite get_del_other by congruence. exact Hin.
Qed.

Lemma keys_del_absent (d : dict K V) (k : K) :
  PyDict.wf d -> ~ In k (PyDict.keys (PyDict.del d k)).
Proof.
  intros Hwf. apply get_None_keys. now apply get_del_same.
Qed.

Lemma In_keys_set (d : dict K V) (k m : K) (v : V) :
  In m (PyDict.keys (PyDict.set d k v)) <-> m = k \/ In m (PyDict.keys d).
Proof.
  rewrite keys_set. destruct (PyDict.mem d k) eqn:E.
  - apply mem_keys in E. split; [now right|]. intros [->|Hin]; assumption.
  - rewrite in_app_iff. simpl. split.
    + intros [Hin|[<-|[]]]; [now right | now left].
    + intros [->|Hin]; [right; now left | now left].
Qed.

End Facts.

(** Two dictionaries with the same keys keep the same keys when a key is
    written to or deleted from both. *)
Lemma keys_del_cong {K V V' : Type} `{Hashable K} (d : dict K V) (d' : dict K V') (k : K) :
  PyDict.keys d = PyDict.keys d' ->
  PyDict.keys (PyDict.del d k) = PyDict.keys (PyDict.del d' k).
Proof.
  revert d'. induction d as [|[k0 v0] d IH]; intros [|[k1 v1] d']; simpl;
    try discriminate; [reflexivity|].
  intros Hk. injection Hk as <- Hk.
  destruct (key_eqb k0 k); simpl; [assumption|]. f_equal. now apply IH.
Qed.

Lemma keys_set_cong {K V V' : Type} `{Hashable K} (d : dict K V) (d' : dict K V') (k : K)
    (v : V) (v' : V') :
  PyDict.keys d = PyDict.keys d' ->
  PyDict.keys (PyDict.set d k v) = PyDict.keys (PyDict.set d' k v').
Proof.
  revert d'. induction d as [|[k0 v0] d IH]; intros [|[k1 v1] d']; simpl;
    try discriminate; [reflexivity|].
  intros Hk. injection Hk as <- Hk.
  destruct (key_eqb k0 k); simpl; [now f_equal|]. f_equal. now apply IH.
Qed.

Lemma mem_keys_cong {K V V' : Type} `{Hashable K} (d : dict K V) (d' : dict K V') (k : K) :
  PyDict.keys d = PyDict.keys d' -> PyDict.mem d k = PyDict.mem d' k.
Proof.
  intros Hk. destruct (PyDict.mem d' k) eqn:E.
  - apply mem_keys. rewrite Hk. now apply mem_keys.
  - apply mem_false_keys. rewrite Hk. now apply mem_false_keys.
Qed.

End PyDictFacts.

(* ================================================================== *)
(** * The room as a registry: invariant, round trips, closing *)
(* ================================================================== *)

Module RoomFacts.

Import Sessions.

(** The two maps of a room describe the same consumers, each once, and
    the main consumer is one of them. *)
Definition room_inv (self : Room) : Prop :=
  PyDict.wf (consumers self)
  /\ PyDict.keys (consumers self) = PyDict.keys (disposables self)
  /\ (forall m, main_consumer self = Some m -> In m (PyDict.keys (consumers self))).

Lemma room_inv_wf_disposables (self : Room) :
  room_inv self -> PyDict.wf (disposables self).
Proof. intros (Hwf & Hk & _). unfold PyDict.wf in *. now rewrite <- Hk. Qed.

Lemma room_inv_new : room_inv Room_new.
Proof. repeat split. intros m Hm. discriminate Hm. Qed.

Section WithConsumers.

Variable obj : SessionConsumer -> ConsumerObject.

Lemma add_consumer_post (self : Room) (consumer : SessionConsumer)
    (dispose : Disposable) (cid : ConsumerId) (main : bool) :
  let r := add_consumer self consumer dispose cid main in
  consumers (post r) = PyDict.set (consumers self) consumer cid
  /\ disposables (post r) = PyDict.set (disposables self) consumer dispose
  /\ (main_consumer (post r) = main_consumer self
      \/ main_consumer (post r) = Some consumer)
  /\ trace r = [].
Proof.
  unfold add_consumer. destruct main; simpl; [|auto].
  destruct (main_consumer self); simpl; auto.
Qed.

(** What [remove_consumer] leaves behind for a consumer found in both
    maps. *)
Lemma remove_consumer_present (self : Room) (consumer : SessionConsumer)
    (cid : ConsumerId) (disposable : Disposable) :
  PyDict.get (consumers self) consumer = Some cid ->
  PyDict.get (disposables self) consumer = Some disposable ->
  remove_consumer obj self consumer
  = mkRun (if on_stop_raises (obj consumer)
           then Raise (StopHookError consumer) else Return tt)
      {| main_consumer := if is_main_consumer self consumer then None
                          else main_consumer self;
         consumers := PyDict.del (consumers self) consumer;
         disposables := PyDict.del (disposables self) consumer |}
      [EvOnStop consumer; EvDispose consumer disposable].
Proof.
  intros Hc Hd. unfold remove_consumer, PyDict.pop, PyDict.mem. rewrite Hc, Hd. simpl.
  now destruct (on_stop_raises (obj consumer)).
Qed.

Lemma remove_consumer_absent (self : Room) (consumer : SessionConsumer) :
  PyDict.mem (consumers self) consumer = false ->
  remove_consumer obj self consumer = returns tt self [].
Proof. intros Hm. unfold remove_consumer. now rewrite Hm. Qed.

(** X1. The room invariant (both maps hold the same consumers, each once,
    and the main consumer is registered) is kept by [add_consumer],
    whether it returns or raises, and by [remove_consumer], whether the
    stop hook raises or not; on such a room [remove_consumer] never fails
    with a missing disposable. *)
Theorem room_invariant_kept_by_add_and_remove :
  forall (self : Room) (consumer : SessionConsumer) (dispose : Disposable)
         (cid : ConsumerId) (main : bool),
    room_inv self ->
    room_inv (post (add_consumer self consumer dispose cid main))
    /\ room_inv (post (remove_consumer obj self consumer))
    /\ outcome (remove_consumer obj self consumer) <> Raise KeyError.
Proof.
  intros self consumer dispose cid main (Hwf & Hk & Hm).
  split; [|].
  - destruct (add_consumer_post self consumer dispose cid main) as (Hc & Hd & Hmain & _).
    repeat split.
    + rewrite Hc. now apply wf_set.
    + rewrite Hc, Hd. now apply PyDictFacts.keys_set_cong.
    + intros m Hpost. rewrite Hc. apply PyDictFacts.In_keys_set.
      destruct Hmain as [Hsame|Hnew].
      * right. apply Hm. congruence.
      * left. congruence.
  - destruct (PyDict.mem (consumers self) consumer) eqn:Emem.
    + assert (Emem' : PyDict.mem (disposables self) consumer = true).
      { rewrite <- (PyDictFacts.mem_keys_cong (consumers self) (disposables self) consumer Hk).
        exact Emem. }
      unfold PyDict.mem in Emem, Emem'.
      destruct (PyDict.get (consumers self) consumer) as [c0|] eqn:Ec; [|discriminate].
      destruct (PyDict.get (disposables self) consumer) as [d0|] eqn:Ed; [|discriminate].
      rewrite (remove_consumer_present self consumer Ec Ed). simpl. split.
      * repeat split.
        -- now apply wf_del.
        -- now apply PyDictFacts.keys_del_cong.
        -- intros m Hpost. unfold is_main_consumer in Hpost.
           destruct (main_consumer self) as [m0|] eqn:Em0; [|discriminate].
           destruct (Nat.eqb consumer m0) eqn:Eeq; [discriminate|].
           injection Hpost as <-. apply Nat.eqb_neq in Eeq.
           apply PyDictFacts.In_keys_del; [now apply Hm | congruence].
      * destruct (on_stop_raises (obj consumer)); discriminate.
    + rewrite (remove_consumer_absent self consumer Emem). simpl.
      split; [repeat split; assumption | discriminate].
Qed.

(** X2. A consumer that was not in the room, once added (as main or not,
    and whether [add_consumer] returned or raised), is removed again by
    [remove_consumer] with exactly the room as it was before, after its
    stop hook and then the disposal callback given at registration have
    been called. *)
Theorem add_then_remove_restores_room :
  forall (self : Room) (consumer : SessionConsumer) (dispose : Disposable)
         (cid : ConsumerId) (main : bool),
    PyDict.mem (consumers self) consumer = false ->
    PyDict.mem (disposables self) consumer = false ->
    main_consumer self <> Some consumer ->
    let added := post (add_consumer self consumer dispose cid main) in
    let r := remove_consumer obj added consumer in
    post r = self
    /\ trace r = [EvOnStop consumer; EvDispose consumer dispose]
    /\ outcome r = (if on_stop_raises (obj consumer)
                    then Raise (StopHookError consumer) else Return tt).
Proof.
  intros self consumer dispose cid main Hc Hd Hmain added r. subst r added.
  apply mem_false_keys in Hc. apply mem_false_keys in Hd.
  assert (Hpost : exists m',
             post (add_consumer self consumer dispose cid main)
             = {| main_consumer := m';
                  consumers := PyDict.set (consumers self) consumer cid;
                  disposables := PyDict.set (disposables self) consumer dispose |}
             /\ (m' = main_consumer self \/ (m' = Some consumer /\ main_consumer self = None))).
  { unfold add_consumer. destruct main; simpl.
    - destruct (main_consumer self) eqn:Em; simpl; eexists; split; try reflexivity; auto.
    - eexists; split; [reflexivity | now left]. }
  destruct Hpost as (m' & Hpost & Hm'). rewrite Hpost.
  rewrite (@remove_consumer_present _ consumer cid dispose);
    [|simpl; apply get_set_same|simpl; apply get_set_same].
  simpl. split; [|split; reflexivity].
  rewrite !PyDictFacts.del_set_fresh by assumption.
  unfold is_main_consumer. simpl.
  destruct self as [m0 cs ds]. simpl in *. f_equal.
  destruct Hm' as [->|[-> Hnone]].
  - destruct m0 as [m|]; [|reflexivity].
    destruct (Nat.eqb consumer m) eqn:E; [|reflexivity].
    apply Nat.eqb_eq in E. subst m. contradiction.
  - now rewrite Nat.eqb_refl.
Qed.

(** X3. Removing a consumer twice is removing it once: the second
    [remove_consumer] finds nothing, calls nothing and changes nothing,
    whatever the first one did. *)
Theorem remove_consumer_twice_is_once :
  forall (self : Room) (consumer : SessionConsumer),
    PyDict.wf (consumers self) ->
    let first := remove_consumer obj self consumer in
    remove_consumer obj (post first) consumer = returns tt (post first) []
    /\ PyDict.mem (consumers (post first)) consumer = false.
Proof.
  intros self consumer Hwf first.
  assert (Hgone : PyDict.mem (consumers (post first)) consumer = false).
  { subst first. unfold remove_consumer.
    destruct (PyDict.mem (consumers self) consumer) eqn:Emem; simpl; [|exact Emem].
    assert (Hdel : PyDict.mem (PyDict.del (consumers self) consumer) consumer = false).
    { unfold PyDict.mem. now rewrite get_del_same. }
    unfold PyDict.pop. destruct (PyDict.get (disposables self) consumer); simpl;
      [|exact Hdel].
    destruct (on_stop_raises (obj consumer)); exact Hdel. }
  split; [now apply remove_consumer_absent | exact Hgone].
Qed.

Lemma del_all_keys (d : dict SessionConsumer Disposable) :
  del_all (PyDict.keys d) d = [].
Proof.
  induction d as [|[k v] d IH]; simpl; [reflexivity|].
  now rewrite Nat.eqb_refl.
Qed.

Lemma stop_events_items (d : dict SessionConsumer Disposable) :
  PyDict.wf d ->
  stop_events d (PyDict.keys d)
  = flat_map (fun entry => [EvOnStop (fst entry); EvDispose (fst entry) (snd entry)]) d.
Proof.
  unfold PyDict.wf. rewrite uniq_NoDup.
  induction d as [|[k v] d IH]; simpl; intros Hnd; [reflexivity|].
  inversion Hnd as [|? ? Hnot Hrest]; subst.
  rewrite Nat.eqb_refl. simpl. do 2 f_equal.
  rewrite <- (IH Hrest). apply stop_events_ext.
  intros c Hin. simpl. destruct (Nat.eqb k c) eqn:E; [|reflexivity].
  apply Nat.eqb_eq in E. subst c. contradiction.
Qed.

Lemma room_inv_closes (self : Room) :
  room_inv self ->
  (forall c, In c (PyDict.keys (consumers self)) -> on_stop_raises (obj c) = false) ->
  room_closes obj self.
Proof.
  intros (Hwf & Hk & _) Hstop. split; [assumption|]. split; [|assumption].
  intros c Hin. apply mem_keys. now rewrite <- Hk.
Qed.

(** X4. When no stop hook raises, [Room.close] on a room that satisfies
    the invariant stops and then disposes every consumer, in the order of
    registration and with the disposal callback it was registered with,
    and leaves the room as a new [Room()]: no consumer, no disposable, no
    main consumer. *)
Theorem Room_close_empties_the_room :
  forall self : Room,
    room_inv self ->
    (forall c, In c (PyDict.keys (consumers self)) -> on_stop_raises (obj c) = false) ->
    Room_close obj self
    = returns tt Room_new
        (flat_map (fun entry => [EvOnStop (fst entry); EvDispose (fst entry) (snd entry)])
                  (disposables self)).
Proof.
  intros self Hinv Hstop.
  rewrite (Room_close_completes (room_inv_closes Hinv Hstop)).
  destruct Hinv as (Hwf & Hk & Hm).
  assert (Hwd : PyDict.wf (disposables self)) by (unfold PyDict.wf in *; now rewrite <- Hk).
  rewrite Hk, del_all_keys, (stop_events_items Hwd). reflexivity.
Qed.

Lemma get_del_all_other (ks : list SessionConsumer) :
  forall (d : dict SessionConsumer Disposable) (x : SessionConsumer),
    ~ In x ks -> PyDict.get (del_all ks d) x = PyDict.get d x.
Proof.
  induction ks as [|k ks IH]; intros d x Hn; simpl; [reflexivity|].
  rewrite IH by (intros Hin; apply Hn; now right).
  apply get_del_other. intros ->. apply Hn. now left.
Qed.

Lemma get_del_all_in (ks : list SessionConsumer) :
  forall (d : dict SessionConsumer Disposable) (x : SessionConsumer),
    PyDict.wf d -> In x ks -> PyDict.get (del_all ks d) x = None.
Proof.
  induction ks as [|k ks IH]; intros d x Hwf Hin; simpl; [contradiction|].
  destruct (in_dec Nat.eq_dec x ks) as [Hx|Hx].
  - apply IH; [now apply wf_del | assumption].
  - destruct Hin as [->|Hin]; [|contradiction].
    rewrite get_del_all_other by assumption. now apply get_del_same.
Qed.

Lemma stop_events_in (disp : dict SessionConsumer Disposable)
    (cs : list SessionConsumer) (e : Event) :
  In e (stop_events disp cs) ->
  exists c, In c cs /\ (e = EvOnStop c \/ exists d, e = EvDispose c d).
Proof.
  unfold stop_events. rewrite in_flat_map. intros [c [Hc Hin]].
  destruct (PyDict.get disp c) as [d|]; simpl in Hin; [|contradiction].
  destruct Hin as [<-|[<-|[]]]; exists c; split; auto. right. now exists d.
Qed.

Lemma close_loop_raises (pre : list SessionConsumer) :
  forall (c : SessionConsumer) (suf : list SessionConsumer)
         (disp : dict SessionConsumer Disposable),
    NoDup (pre ++ c :: suf) ->
    (forall x, In x (pre ++ [c]) -> PyDict.mem disp x = true) ->
    (forall x, In x pre -> on_stop_raises (obj x) = false) ->
    on_stop_raises (obj c) = true ->
    close_loop obj (pre ++ c :: suf) disp
    = (Raise (StopHookError c), del_all (pre ++ [c]) disp,
       stop_events disp pre ++ [EvOnStop c]).
Proof.
  induction pre as [|p pre IH]; intros c suf disp Hnd Hmem Hpre Hc; simpl.
  - pose proof (Hmem c (or_introl eq_refl)) as Hm. unfold PyDict.mem in Hm.
    unfold PyDict.pop. destruct (PyDict.get disp c) as [d|]; [|discriminate].
    now rewrite Hc.
  - simpl in Hnd. inversion Hnd as [|? ? Hnot Hrest]; subst.
    pose proof (Hmem p (or_introl eq_refl)) as Hm. unfold PyDict.mem in Hm.
    unfold PyDict.pop. destruct (PyDict.get disp p) as [d|] eqn:Eg; [|discriminate].
    rewrite (Hpre p (or_introl eq_refl)).
    assert (Hother : forall x, In x (pre ++ c :: suf) ->
                               PyDict.get (PyDict.del disp p) x = PyDict.get disp x).
    { intros x Hin. apply get_del_other. intros ->. contradiction. }
    rewrite (IH c suf (PyDict.del disp p)); try assumption.
    + rewrite (@stop_events_ext disp (PyDict.del disp p) pre); [reflexivity|].
      intros x Hin. apply Hother. apply in_or_app. now left.
    + intros x Hin. unfold PyDict.mem. rewrite Hother.
      * apply Hmem. now right.
      * apply in_app_or in Hin. apply in_or_app.
        destruct Hin as [Hin|[<-|[]]]; [now left | right; now left].
    + intros x Hin. apply Hpre. now right.
Qed.

(** X5. [Room.close] has no [try/finally]: at the first consumer whose
    stop hook raises it stops.  The consumers before it were stopped and
    disposed; the failing consumer's disposal callback was taken out of
    the map but is not called; the consumers after it are neither stopped
    nor disposed; the consumer map and the main-consumer slot are left as
    they were.  The failing consumer can then no longer be removed:
    [remove_consumer] raises [KeyError] without calling anything. *)
Theorem Room_close_stops_at_raising_stop_hook :
  forall (self : Room) (pre : list SessionConsumer) (c : SessionConsumer)
         (suf : list SessionConsumer),
    room_inv self ->
    PyDict.keys (consumers self) = pre ++ c :: suf ->
    (forall x, In x pre -> on_stop_raises (obj x) = false) ->
    on_stop_raises (obj c) = true ->
    let r := Room_close obj self in
    outcome r = Raise (StopHookError c)
    /\ trace r = stop_events (disposables self) pre ++ [EvOnStop c]
    /\ count_events (is_dispose c) (trace r) = 0
    /\ (forall x, In x suf ->
          count_events (is_on_stop x) (trace r) = 0
          /\ count_events (is_dispose x) (trace r) = 0)
    /\ consumers (post r) = consumers self
    /\ main_consumer (post r) = main_consumer self
    /\ PyDict.get (disposables (post r)) c = None
    /\ (forall x, In x suf ->
          PyDict.get (disposables (post r)) x = PyDict.get (disposables self) x)
    /\ outcome (remove_consumer obj (post r) c) = Raise KeyError
    /\ trace (remove_consumer obj (post r) c) = [].
Proof.
  intros self pre c suf (Hwf & Hk & Hm) Hkeys Hpre Hc r.
  assert (Hnd : NoDup (pre ++ c :: suf)).
  { rewrite <- Hkeys. now apply uniq_NoDup. }
  assert (Hwd : PyDict.wf (disposables self)) by (unfold PyDict.wf in *; now rewrite <- Hk).
  assert (Hmem : forall x, In x (pre ++ [c]) -> PyDict.mem (disposables self) x = true).
  { intros x Hin. apply mem_keys. rewrite <- Hk, Hkeys.
    apply in_app_or in Hin. apply in_or_app.
    destruct Hin as [Hin|[<-|[]]]; [now left | right; now left]. }
  assert (Hrun : r = raises (StopHookError c)
                       {| main_consumer := main_consumer self;
                          consumers := consumers self;
                          disposables := del_all (pre ++ [c]) (disposables self) |}
                       (stop_events (disposables self) pre ++ [EvOnStop c])).
  { subst r. unfold Room_close. rewrite Hkeys.
    now rewrite (@close_loop_raises pre c suf (disposables self) Hnd Hmem Hpre Hc). }
  assert (Hc_not_pre : ~ In c pre).
  { intros Hin. apply NoDup_remove_2 in Hnd. apply Hnd. apply in_or_app. now left. }
  assert (Hsuf : forall x, In x suf -> ~ In x (pre ++ [c])).
  { intros x Hx Hin. apply in_app_or in Hin. destruct Hin as [Hin|[<-|[]]].
    - apply NoDup_app_remove_r in Hnd as Hpre_nd.
      assert (Hd : NoDup (pre ++ c :: suf)) by assumption.
      clear - Hd Hin Hx. induction pre as [|p pre IH]; [contradiction|].
      simpl in Hd. inversion Hd as [|? ? Hnot Hrest]; subst.
      destruct Hin as [->|Hin]; [|now apply IH].
      apply Hnot. apply in_or_app. right. now right.
    - apply NoDup_remove_2 in Hnd. apply Hnd. apply in_or_app. now right. }
  assert (Hcount : forall x, ~ In x pre ->
             count_events (is_on_stop x) (stop_events (disposables self) pre) = 0
             /\ count_events (is_dispose x) (stop_events (disposables self) pre) = 0).
  { intros x Hx. split; apply count_events_none; intros e Hin;
      apply stop_events_in in Hin; destruct Hin as (y & Hy & [->|[d ->]]); simpl;
      try reflexivity; apply Nat.eqb_neq; intros ->; contradiction. }
  rewrite Hrun. simpl.
  split; [reflexivity|]. split; [reflexivity|].
  split.
  { rewrite count_events_app. now rewrite (proj2 (Hcount c Hc_not_pre)). }
  split.
  { intros x Hx. assert (Hxp : ~ In x pre).
    { intros Hin. apply (Hsuf x Hx). apply in_or_app. now left. }
    assert (Hxc : Nat.eqb x c = false).
    { apply Nat.eqb_neq. intros ->. apply (Hsuf c Hx). apply in_or_app. right. now left. }
    destruct (Hcount x Hxp) as [H1 H2].
    rewrite !count_events_app, H1, H2. unfold count_events. simpl. now rewrite Hxc. }
  split; [reflexivity|]. split; [reflexivity|].
  assert (Hgone : PyDict.get (del_all (pre ++ [c]) (disposables self)) c = None).
  { apply get_del_all_in; [assumption|]. apply in_or_app. right. now left. }
  split; [exact Hgone|].
  split.
  { intros x Hx. apply get_del_all_other. now apply Hsuf. }
  unfold remove_consumer, PyDict.pop. simpl.
  assert (Hin : PyDict.mem (consumers self) c = true).
  { apply mem_keys. rewrite Hkeys. apply in_or_app. right. now left. }
  rewrite Hin, Hgone. simpl. split; reflexivity.
Qed.

Lemma broadcast_In (self : Room) (operation : MessageOperation)
    (except_consumer : option ConsumerId) (c : SessionConsumer) :
  In (EvWriteOperation c operation) (trace (broadcast obj self operation except_consumer))
  <-> In c (PyDict.keys (consumers self))
      /\ connection_state (obj c) = OPEN
      /\ except_consumer <> Some (consumer_id (obj c)).
Proof.
  unfold broadcast. simpl. rewrite broadcast_loop_In. split.
  - intros [c' (He & Hin & Ho & Hx)]. injection He as <-. auto.
  - intros (Hin & Ho & Hx). exists c. auto.
Qed.

Lemma remove_consumer_keys (self : Room) (consumer : SessionConsumer) :
  consumers (post (remove_consumer obj self consumer))
  = PyDict.del (consumers self) consumer.
Proof.
  unfold remove_consumer. destruct (PyDict.mem (consumers self) consumer) eqn:Em; simpl.
  - unfold PyDict.pop. destruct (PyDict.get (disposables self) consumer); simpl;
      [|reflexivity].
    now destruct (on_stop_raises (obj consumer)).
  - symmetry. apply PyDictFacts.del_absent. now apply mem_false_keys.
Qed.

(** X6. Once [add_consumer] has run for a consumer, [broadcast] writes to
    it exactly when it is OPEN and is not the excepted consumer.  This
    holds whether [add_consumer] returned or raised: a second main
    consumer that was refused with an assertion failure is in the room
    all the same and receives the broadcasts. *)
Theorem broadcast_reaches_consumer_after_add :
  forall (self : Room) (consumer : SessionConsumer) (dispose : Disposable)
         (cid : ConsumerId) (main : bool) (operation : MessageOperation)
         (except_consumer : option ConsumerId),
    let added := post (add_consumer self consumer dispose cid main) in
    PyDict.mem (consumers added) consumer = true
    /\ (In (EvWriteOperation consumer operation)
           (trace (broadcast obj added operation except_consumer))
        <-> connection_state (obj consumer) = OPEN
            /\ except_consumer <> Some (consumer_id (obj consumer))).
Proof.
  intros self consumer dispose cid main operation except_consumer added.
  destruct (add_consumer_post self consumer dispose cid main) as (Hc & _).
  fold added in Hc.
  assert (Hin : In consumer (PyDict.keys (consumers added))).
  { rewrite Hc. apply PyDictFacts.In_keys_set. now left. }
  split; [now apply mem_keys|].
  rewrite broadcast_In. tauto.
Qed.

(** X7. After [remove_consumer], [broadcast] never writes to the consumer
    removed, also when its stop hook raised, and reaches every other
    consumer exactly as before. *)
Theorem broadcast_skips_consumer_after_remove :
  forall (self : Room) (consumer : SessionConsumer) (operation : MessageOperation)
         (except_consumer : option ConsumerId),
    PyDict.wf (consumers self) ->
    let removed := post (remove_consumer obj self consumer) in
    ~ In (EvWriteOperation consumer operation)
         (trace (broadcast obj removed operation except_consumer))
    /\ (forall c, c <> consumer ->
          (In (EvWriteOperation c operation)
              (trace (broadcast obj removed operation except_consumer))
           <-> In (EvWriteOperation c operation)
                  (trace (broadcast obj self operation except_consumer)))).
Proof.
  intros self consumer operation except_consumer Hwf removed.
  pose proof (remove_consumer_keys self consumer) as Hk. fold removed in Hk.
  split.
  - rewrite broadcast_In, Hk. intros (Hin & _).
    now apply (PyDictFacts.keys_del_absent consumer Hwf).
  - intros c Hne. rewrite !broadcast_In, Hk.
    assert (Hiff : In c (PyDict.keys (PyDict.del (consumers self) consumer))
                   <-> In c (PyDict.keys (consumers self))).
    { split; [apply keys_del_incl|]. intros Hin. now apply PyDictFacts.In_keys_del. }
    tauto.
Qed.

End WithConsumers.

(** The room of the examples satisfies the invariant. *)
Lemma demo_room_inv : room_inv demo_room.
Proof.
  repeat split. intros m Hm. injection Hm as <-. simpl. now left.
Defined.

Lemma room_invariant_witness :
  room_inv (post (add_consumer demo_room 4 104 "kiosk-4" false))
  /\ room_inv (post (remove_consumer demo_obj demo_room 1)).
Proof.
  destruct (@room_invariant_kept_by_add_and_remove demo_obj demo_room 4 104 "kiosk-4" false
              demo_room_inv) as (Hadd & _).
  destruct (@room_invariant_kept_by_add_and_remove demo_obj demo_room 1 0 "" false
              demo_room_inv) as (_ & Hrem & _).
  split; assumption.
Defined.

Lemma add_then_remove_witness :
  post (remove_consumer demo_obj
          (post (add_consumer demo_room 4 104 "second-main" true)) 4) = demo_room.
Proof.
  assert (Hmain : main_consumer demo_room <> Some 4) by discriminate.
  destruct (@add_then_remove_restores_room demo_obj demo_room 4 104 "second-main" true
              eq_refl eq_refl Hmain) as (Hpost & _).
  exact Hpost.
Defined.

Lemma remove_consumer_twice_witness :
  remove_consumer demo_obj (post (remove_consumer demo_obj demo_room 2)) 2
  = returns tt (post (remove_consumer demo_obj demo_room 2)) [].
Proof.
  assert (Hwf : PyDict.wf (consumers demo_room)) by reflexivity.
  destruct (@remove_consumer_twice_is_once demo_obj demo_room 2 Hwf) as (Hagain & _).
  exact Hagain.
Defined.

Lemma Room_close_witness :
  Room_close demo_obj demo_room
  = returns tt Room_new
      [EvOnStop 1; EvDispose 1 101; EvOnStop 2; EvDispose 2 102;
       EvOnStop 3; EvDispose 3 103].
Proof.
  apply (@Room_close_empties_the_room demo_obj demo_room demo_room_inv).
  intros c [<-|[<-|[<-|[]]]]; reflexivity.
Defined.

Lemma faulty_room_inv : room_inv faulty_room.
Proof.
  repeat split. intros m Hm. injection Hm as <-. simpl. now left.
Defined.

Lemma Room_close_raising_witness :
  outcome (Room_close demo_obj faulty_room) = Raise (StopHookError 9)
  /\ trace (Room_close demo_obj faulty_room) = [EvOnStop 1; EvDispose 1 101; EvOnStop 9]
  /\ outcome (remove_consumer demo_obj (post (Room_close demo_obj faulty_room)) 9)
     = Raise KeyError.
Proof.
  assert (Hpre : forall x, In x [1] -> on_stop_raises (demo_obj x) = false).
  { intros x [<-|[]]. reflexivity. }
  destruct (@Room_close_stops_at_raising_stop_hook demo_obj faulty_room [1] 9 []
              faulty_room_inv eq_refl Hpre eq_refl)
    as (Ho & Htr & _ & _ & _ & _ & _ & _ & Hrm & _).
  split; [exact Ho|]. split; [exact Htr | exact Hrm].
Defined.

Lemma broadcast_skips_witness :
  ~ In (EvWriteOperation 2 Reload)
       (trace (broadcast demo_obj (post (remove_consumer demo_obj demo_room 2)) Reload None)).
Proof.
  assert (Hwf : PyDict.wf (consumers demo_room)) by reflexivity.
  destruct (@broadcast_skips_consumer_after_remove demo_obj demo_room 2 Reload None Hwf)
    as (Hnot & _).
  exact Hnot.
Defined.

End RoomFacts.

(* ================================================================== *)
(** * Calls to further collaborators *)
(* ================================================================== *)

Module Effects.

(** The calls of [Event], and those the methods modelled below make
    besides: to the consumer's start hook, the message distributor, the
    Session View, the kernel task, the heartbeat, the recent-files list,
    the file watcher, the language server, the cache writer, and the
    console. *)
Inductive Call :=
| Core (e : Event)
| CallOnStart (c : SessionConsumer)
| CallDistributorAddConsumer (c : SessionConsumer)
| CallDistributorAddView
| CallDistributorStart
| CallViewAddOperation (operation : MessageOperation)
| CallStartKernel (mode : SessionMode)
| CallCreateHeartbeatTask
| CallPrintKernelDied
| CallRecentsTouch (path : string)
| CallWatcherAddCallback (path : string)
| CallLspStop
| CallWatcherStopAll
| CallWriterStart (path : string).

Record XRun (S A : Type) := mkXRun {
  xoutcome : Outcome A;
  xpost : S;
  calls : list Call
}.

Definition X (S A : Type) := S -> XRun S A.

Definition xret {S A : Type} (a : A) : X S A := fun s => mkXRun (Return a) s [].

Definition xemit {S : Type} (cs : list Call) : X S unit := fun s => mkXRun (Return tt) s cs.

Definition xbind {S A B : Type} (m : X S A) (k : A -> X S B) : X S B :=
  fun s =>
    match m s with
    | mkXRun (Raise e) s' cs => mkXRun (Raise e) s' cs
    | mkXRun (Return a) s' cs =>
        match k a s' with
        | mkXRun o s'' cs' => mkXRun o s'' (cs ++ cs')
        end
    end.

(** A method that only makes calls of [Event]. *)
Definition xlift {S A : Type} (m : S -> Run S A) : X S A :=
  fun s =>
    match m s with
    | mkRun o s' tr => mkXRun o s' (map Core tr)
    end.

Notation "m >>> k" := (xbind m (fun _ => k))
  (at level 61, right associativity).

Definition is_core (p : Event -> bool) (c : Call) : bool :=
  match c with Core e => p e | _ => false end.

Definition is_view_add_operation (c : Call) : bool :=
  match c with CallViewAddOperation _ => true | _ => false end.

Lemma In_map_Core (e : Event) (tr : list Event) : In (Core e) (map Core tr) <-> In e tr.
Proof.
  rewrite in_map_iff. split.
  - intros [e' [He Hin]]. injection He as <-. exact Hin.
  - intros Hin. now exists e.
Qed.

Lemma In_map_Core_other (c : Call) (tr : list Event) :
  In c (map Core tr) -> exists e, c = Core e /\ In e tr.
Proof.
  rewrite in_map_iff. intros [e [He Hin]]. exists e. now split.
Qed.

End Effects.

(* ================================================================== *)
(** * The life of a session: connecting, disconnecting, writing,
      heartbeat *)
(* ================================================================== *)

Module SessionFlow.

Import Sessions Effects.

Section WithConsumers.

Variable obj : SessionConsumer -> ConsumerObject.

(** [Session.maybe_disconnect_consumer] *)
Definition maybe_disconnect_consumer : M Session unit :=
  fun self =>
    match main_consumer (room self) with
    | Some m => disconnect_consumer obj m self
    | None => ret tt self
    end.

(** [Session.connect_consumer]; [unsubscribe_consumer] is the handle
    [message_distributor.add_consumer] returns. *)
Definition connect_consumer (session_consumer : SessionConsumer) (main : bool)
    (unsubscribe_consumer : Disposable) : X Session unit :=
  xemit [CallOnStart session_consumer; CallDistributorAddConsumer session_consumer] >>>
  xlift (zoom room set_room
           (fun r => add_consumer r session_consumer unsubscribe_consumer
                       (consumer_id (obj session_consumer)) main)).

(** [Session.write_operation] *)
Definition write_operation (operation : MessageOperation)
    (from_consumer_id : option ConsumerId) : X Session unit :=
  xemit [CallViewAddOperation operation] >>>
  xlift (zoom room set_room (fun r => broadcast obj r operation from_consumer_id)).

(** [KernelManager.is_alive] *)
Definition KernelManager_is_alive (self : KernelManager) : bool :=
  match kernel_task self with
  | Some task => is_alive task
  | None => false
  end.

(** [_check_alive], the body of the heartbeat of [Session._start_heartbeat] *)
Definition _check_alive : X Session unit :=
  fun self =>
    if negb (KernelManager_is_alive (kernel_manager self))
    then (xlift (Session_close obj) >>>
          xemit [CallPrintKernelDied] >>>
          xlift (Session_close obj)) self
    else xret tt self.

(** [Session.instantiate]; [cell_data] is what
    [app_file_manager.app.cell_manager.cell_data()] yields, as pairs of
    cell id and code. *)
Definition instantiate (object_ids values : list string) (auto_run : bool)
    (cell_data : list (CellId_t * string)) : M Session unit :=
  put_control_request obj
    (CreationRequest (map (fun cell => (fst cell, snd cell)) cell_data)
                     object_ids values auto_run)
    None.

Lemma disconnect_consumer_run (self : Session) (c : SessionConsumer) :
  disconnect_consumer obj c self
  = mkRun (outcome (remove_consumer obj (room self) c))
      (set_room self (post (remove_consumer obj (room self) c)))
      (trace (remove_consumer obj (room self) c)).
Proof.
  unfold disconnect_consumer, zoom. now destruct (remove_consumer obj (room self) c).
Qed.

(** X8. Disconnecting the main consumer of an open session leaves it
    ORPHANED, whether or not the stop hook raises: the only calls are the
    consumer's stop hook and its disposal callback, and the kernel, the
    queues and the closed flag are untouched.  [maybe_disconnect_consumer]
    does exactly that, and does nothing when called again.  Disconnecting
    any other consumer does not change the state the session reports. *)
Theorem disconnecting_main_consumer_orphans_session :
  forall (self : Session) (m : SessionConsumer) (cid : ConsumerId) (d : Disposable),
    _closed self = false ->
    main_consumer (room self) = Some m ->
    PyDict.get (consumers (room self)) m = Some cid ->
    PyDict.get (disposables (room self)) m = Some d ->
    let r := maybe_disconnect_consumer self in
    r = disconnect_consumer obj m self
    /\ Session_connection_state obj (post r) = ORPHANED
    /\ trace r = [EvOnStop m; EvDispose m d]
    /\ kernel_manager (post r) = kernel_manager self
    /\ _queue_manager (post r) = _queue_manager self
    /\ _closed (post r) = false
    /\ maybe_disconnect_consumer (post r) = returns tt (post r) []
    /\ (forall c, c <> m ->
          Session_connection_state obj (post (disconnect_consumer obj c self))
          = Session_connection_state obj self).
Proof.
  intros self m cid d Hopen Hmain Hc Hd r.
  assert (Hr : r = disconnect_consumer obj m self).
  { subst r. unfold maybe_disconnect_consumer. now rewrite Hmain. }
  split; [exact Hr|]. rewrite Hr, disconnect_consumer_run.
  rewrite (RoomFacts.remove_consumer_present obj (room self) m Hc Hd). simpl.
  assert (His : is_main_consumer (room self) m = true).
  { unfold is_main_consumer. rewrite Hmain. apply Nat.eqb_refl. }
  rewrite His.
  split.
  { unfold Session_connection_state. simpl. now rewrite Hopen. }
  split; [reflexivity|]. split; [reflexivity|]. split; [reflexivity|].
  split; [exact Hopen|]. split; [reflexivity|].
  intros c Hne. rewrite disconnect_consumer_run. simpl.
  unfold Session_connection_state. simpl. rewrite Hopen.
  assert (Hm' : main_consumer (post (remove_consumer obj (room self) c)) = Some m).
  { unfold remove_consumer.
    assert (Hnot : is_main_consumer (room self) c = false).
    { unfold is_main_consumer. rewrite Hmain. apply Nat.eqb_neq. exact Hne. }
    destruct (PyDict.mem (consumers (room self)) c); simpl; [|exact Hmain].
    unfold PyDict.pop. rewrite Hnot.
    destruct (PyDict.get (disposables (room self)) c); simpl; [|exact Hmain].
    destruct (on_stop_raises (obj c)); exact Hmain. }
  now rewrite Hm', Hmain.
Qed.

Lemma set_room_same (self : Session) : set_room self (room self) = self.
Proof. now destruct self. Qed.

Lemma connect_consumer_run (self : Session) (c : SessionConsumer) (main : bool)
    (unsub : Disposable) :
  connect_consumer c main unsub self
  = mkXRun (outcome (add_consumer (room self) c unsub (consumer_id (obj c)) main))
      (set_room self (post (add_consumer (room self) c unsub (consumer_id (obj c)) main)))
      [CallOnStart c; CallDistributorAddConsumer c].
Proof.
  unfold connect_consumer, xbind, xemit, xlift, zoom.
  destruct (add_consumer (room self) c unsub (consumer_id (obj c)) main) as [[[]|e] rm tr] eqn:E;
    simpl;
    assert (Htr : tr = []) by
      (pose proof (RoomFacts.add_consumer_post (room self) c unsub (consumer_id (obj c)) main)
         as (_ & _ & _ & H); rewrite E in H; exact H);
    subst tr; reflexivity.
Qed.

Lemma write_operation_run (self : Session) (operation : MessageOperation)
    (from_consumer_id : option ConsumerId) :
  write_operation operation from_consumer_id self
  = mkXRun (Return tt) self
      (CallViewAddOperation operation
       :: map Core (map (fun c => EvWriteOperation c operation)
                        (filter (receives obj from_consumer_id)
                                (PyDict.keys (consumers (room self)))))).
Proof.
  unfold write_operation, xbind, xemit, xlift, zoom, broadcast, returns. simpl.
  now rewrite broadcast_loop_filter, set_room_same.
Qed.

(** X9. Once a session is closed it reports CLOSED for good: no method
    resets the closed flag.  After [put_control_request],
    [disconnect_consumer], [maybe_disconnect_consumer], [connect_consumer]
    (returning or raising), [write_operation], [instantiate], the
    heartbeat check or another [close], the session still reports
    CLOSED. *)
Theorem closed_session_stays_closed :
  forall self : Session,
    _closed self = true ->
    (forall request from_consumer_id,
       Session_connection_state obj
         (post (put_control_request obj request from_consumer_id self)) = CLOSED)
    /\ (forall c,
          Session_connection_state obj (post (disconnect_consumer obj c self)) = CLOSED)
    /\ Session_connection_state obj (post (maybe_disconnect_consumer self)) = CLOSED
    /\ (forall c main unsub,
          Session_connection_state obj (xpost (connect_consumer c main unsub self)) = CLOSED)
    /\ (forall operation from_consumer_id,
          Session_connection_state obj
            (xpost (write_operation operation from_consumer_id self)) = CLOSED)
    /\ (forall object_ids values auto_run cell_data,
          Session_connection_state obj
            (post (instantiate object_ids values auto_run cell_data self)) = CLOSED)
    /\ Session_connection_state obj (xpost (_check_alive self)) = CLOSED
    /\ Session_connection_state obj (post (Session_close obj self)) = CLOSED.
Proof.
  intros self Hclosed.
  assert (Hflag : forall s, _closed s = true -> Session_connection_state obj s = CLOSED).
  { intros s Hs. unfold Session_connection_state. now rewrite Hs. }
  assert (Hput : forall request from_consumer_id,
             _closed (post (put_control_request obj request from_consumer_id self)) = true).
  { intros request from_consumer_id.
    destruct (put_control_request_run obj self request from_consumer_id)
      as (_ & _ & _ & _ & _ & Hc & _). now rewrite Hc. }
  assert (Hdis : forall c, _closed (post (disconnect_consumer obj c self)) = true).
  { intros c. now rewrite disconnect_consumer_run. }
  split; [intros; apply Hflag, Hput|].
  split; [intros; apply Hflag, Hdis|].
  split.
  { apply Hflag. unfold maybe_disconnect_consumer.
    destruct (main_consumer (room self)); [apply Hdis | exact Hclosed]. }
  split; [intros; apply Hflag; now rewrite connect_consumer_run|].
  split; [intros; apply Hflag; now rewrite write_operation_run|].
  split; [intros; apply Hflag; unfold instantiate; apply Hput|].
  rewrite (Session_close_again obj self Hclosed). simpl.
  split; [|now apply Hflag].
  apply Hflag. unfold _check_alive.
  destruct (negb (KernelManager_is_alive (kernel_manager self))); [|exact Hclosed].
  unfold xbind, xlift, xemit. rewrite (Session_close_again obj self Hclosed). simpl.
  rewrite (Session_close_again obj self Hclosed). exact Hclosed.
Qed.

(** X10. [write_operation] first records the operation in the Session
    View, once and whatever the room looks like, and then writes it to the
    consumers of the room that are OPEN and are not the originator; it
    does not raise and leaves the session as it is. *)
Theorem write_operation_records_then_broadcasts :
  forall (self : Session) (operation : MessageOperation)
         (from_consumer_id : option ConsumerId),
    let r := write_operation operation from_consumer_id self in
    xoutcome r = Return tt
    /\ xpost r = self
    /\ (exists writes, calls r = CallViewAddOperation operation :: map Core writes)
    /\ List.length (filter is_view_add_operation (calls r)) = 1
    /\ (forall c, In (Core (EvWriteOperation c operation)) (calls r)
                  <-> In c (PyDict.keys (consumers (room self)))
                      /\ connection_state (obj c) = OPEN
                      /\ from_consumer_id <> Some (consumer_id (obj c)))
    /\ (forall e, In (Core e) (calls r) -> exists c, e = EvWriteOperation c operation).
Proof.
  intros self operation from_consumer_id r. subst r. rewrite write_operation_run. simpl.
  set (targets := filter (receives obj from_consumer_id) (PyDict.keys (consumers (room self)))).
  split; [reflexivity|]. split; [reflexivity|].
  split; [eexists; reflexivity|].
  split.
  { f_equal. induction (map (fun c => EvWriteOperation c operation) targets) as [|e l IH];
      simpl; [reflexivity | exact IH]. }
  split.
  - intros c. split.
    + intros [Hh|Hin]; [discriminate|]. apply In_map_Core in Hin.
      apply in_map_iff in Hin. destruct Hin as [c' [He Hin]]. injection He as <-.
      subst targets. apply filter_In in Hin. destruct Hin as [Hin Hr].
      apply receives_true in Hr. tauto.
    + intros (Hin & Ho & Hx). right. apply In_map_Core. apply in_map_iff. exists c.
      split; [reflexivity|]. apply filter_In. split; [assumption|].
      apply receives_true. now split.
  - intros e [Hh|Hin]; [discriminate|]. apply In_map_Core in Hin.
    apply in_map_iff in Hin. destruct Hin as [c [He _]]. now exists c.
Qed.

(** X11. Connecting a main consumer to a session that has none (a new or
    an orphaned session) calls the consumer's start hook, subscribes it to
    the message distributor, and only then registers it, with the
    unsubscribe handle as its disposal callback and its own
    [consumer_id]; the session, if open, then reports the connection
    state of that consumer, and the room invariant is kept. *)
Theorem connecting_main_consumer_resumes_session :
  forall (self : Session) (c : SessionConsumer) (unsub : Disposable),
    main_consumer (room self) = None ->
    let r := connect_consumer c true unsub self in
    xoutcome r = Return tt
    /\ calls r = [CallOnStart c; CallDistributorAddConsumer c]
    /\ main_consumer (room (xpost r)) = Some c
    /\ PyDict.get (consumers (room (xpost r))) c = Some (consumer_id (obj c))
    /\ PyDict.get (disposables (room (xpost r))) c = Some unsub
    /\ (_closed self = false ->
        Session_connection_state obj (xpost r) = connection_state (obj c))
    /\ (RoomFacts.room_inv (room self) -> RoomFacts.room_inv (room (xpost r))).
Proof.
  intros self c unsub Hmain r. subst r. rewrite connect_consumer_run.
  unfold add_consumer. simpl. rewrite Hmain. simpl.
  split; [reflexivity|]. split; [reflexivity|]. split; [reflexivity|].
  split; [apply get_set_same|]. split; [apply get_set_same|].
  split.
  - intros Hopen. unfold Session_connection_state. simpl. now rewrite Hopen.
  - intros (Hwf & Hk & Hm). repeat split; simpl.
    + now apply wf_set.
    + now apply PyDictFacts.keys_set_cong.
    + intros m Hsome. injection Hsome as <-. apply PyDictFacts.In_keys_set. now left.
Qed.

(** X12. When the session already has a main consumer, connecting a
    second one as main raises, but only after its start hook was called
    and it was subscribed to the message distributor, and it is left
    registered in the room with its unsubscribe handle; the state the
    session reports is unchanged.  Disconnecting it afterwards calls its
    stop hook and the unsubscribe handle and gives back the session as it
    was. *)
Theorem connecting_second_main_consumer_fails_after_subscribing :
  forall (self : Session) (m c : SessionConsumer) (unsub : Disposable),
    main_consumer (room self) = Some m ->
    c <> m ->
    PyDict.mem (consumers (room self)) c = false ->
    PyDict.mem (disposables (room self)) c = false ->
    let r := connect_consumer c true unsub self in
    xoutcome r = Raise (AssertionError "Main session consumer already exists")
    /\ calls r = [CallOnStart c; CallDistributorAddConsumer c]
    /\ Session_connection_state obj (xpost r) = Session_connection_state obj self
    /\ PyDict.get (disposables (room (xpost r))) c = Some unsub
    /\ post (disconnect_consumer obj c (xpost r)) = self
    /\ trace (disconnect_consumer obj c (xpost r)) = [EvOnStop c; EvDispose c unsub].
Proof.
  intros self m c unsub Hmain Hne Hc Hd r. subst r. rewrite connect_consumer_run.
  unfold add_consumer. simpl. rewrite Hmain. simpl.
  split; [reflexivity|]. split; [reflexivity|].
  split.
  { unfold Session_connection_state. simpl. now rewrite Hmain. }
  split; [apply get_set_same|].
  rewrite disconnect_consumer_run. simpl.
  rewrite (@RoomFacts.remove_consumer_present obj _ c (consumer_id (obj c)) unsub);
    [|simpl; apply get_set_same|simpl; apply get_set_same].
  simpl. split; [|reflexivity].
  apply mem_false_keys in Hc. apply mem_false_keys in Hd.
  rewrite !PyDictFacts.del_set_fresh by assumption.
  unfold is_main_consumer. simpl. rewrite ?Hmain.
  assert (Hcm : Nat.eqb c m = false) by (now apply Nat.eqb_neq).
  rewrite Hcm. destruct self as [iid pth rm qm km scm hbt cl unsubw].
  destruct rm as [m0 cs ds]. simpl in *. now subst m0.
Qed.

(** X13. The heartbeat check does nothing while the kernel is alive.
    When the kernel is not alive the session ends up reporting CLOSED; if
    [close] runs to its end, the calls are those of one [close] followed
    by the diagnostic on the console, the second [close] of the check
    adding nothing; if [close] raises, the exception is passed on and no
    diagnostic is printed. *)
Theorem heartbeat_closes_session_of_dead_kernel :
  forall self : Session,
    let r := _check_alive self in
    (KernelManager_is_alive (kernel_manager self) = true -> r = xret tt self)
    /\ (KernelManager_is_alive (kernel_manager self) = false ->
        Session_connection_state obj (xpost r) = CLOSED)
    /\ (KernelManager_is_alive (kernel_manager self) = false ->
        outcome (Session_close obj self) = Return tt ->
        xoutcome r = Return tt
        /\ xpost r = post (Session_close obj self)
        /\ calls r = map Core (trace (Session_close obj self)) ++ [CallPrintKernelDied])
    /\ (KernelManager_is_alive (kernel_manager self) = false ->
        forall e, outcome (Session_close obj self) = Raise e ->
        xoutcome r = Raise e
        /\ calls r = map Core (trace (Session_close obj self))).
Proof.
  intros self r. subst r. unfold _check_alive.
  pose proof (Session_close_sets_closed obj self) as Hclosed.
  destruct (KernelManager_is_alive (kernel_manager self)); simpl.
  - split; [reflexivity|]. repeat split; intros; discriminate.
  - split; [discriminate|].
    unfold xbind, xlift, xemit.
    destruct (Session_close obj self) as [[[]|e] s1 tr1] eqn:E1; simpl in *.
    + rewrite (Session_close_again obj s1 Hclosed). simpl.
      split.
      { intros _. unfold Session_connection_state. now rewrite Hclosed. }
      split.
      { intros _ _. split; [reflexivity|]. split; reflexivity. }
      intros _ e He. discriminate.
    + split.
      { intros _. unfold Session_connection_state. now rewrite Hclosed. }
      split; [intros _ He; discriminate|].
      intros _ e' He. injection He as <-. split; reflexivity.
Qed.

(** X14. [instantiate] puts one [CreationRequest] on the control queue,
    carrying one execution request per cell in the order of the notebook
    and the UI element values of the request; although that request
    carries UI element values it is not put on the UI-value queue, no
    consumer is notified, and the request is recorded in the Session
    View. *)
Theorem instantiate_enqueues_one_creation_request :
  forall (self : Session) (object_ids values : list string) (auto_run : bool)
         (cell_data : list (CellId_t * string)),
    let r := instantiate object_ids values auto_run cell_data self in
    let request := CreationRequest cell_data object_ids values auto_run in
    outcome r = Return tt
    /\ control_queue (_queue_manager (post r))
       = control_queue (_queue_manager self) ++ [request]
    /\ set_ui_element_queue (_queue_manager (post r))
       = set_ui_element_queue (_queue_manager self)
    /\ trace r = [EvViewAddControlRequest request]
    /\ room (post r) = room self.
Proof.
  intros self object_ids values auto_run cell_data r request. subst r request.
  unfold instantiate.
  assert (Hmap : map (fun cell : CellId_t * string => (fst cell, snd cell)) cell_data
                 = cell_data).
  { induction cell_data as [|[i c] l IH]; simpl; [reflexivity | now rewrite IH]. }
  rewrite Hmap.
  destruct (put_control_request_run obj self
              (CreationRequest cell_data object_ids values auto_run) None)
    as (Ho & Hq & Hu & Htr & Hroom & _).
  simpl in Hu, Htr. auto.
Qed.

End WithConsumers.

Lemma disconnecting_main_consumer_witness :
  Session_connection_state demo_obj
    (post (maybe_disconnect_consumer demo_obj (demo_session demo_room true))) = ORPHANED
  /\ trace (maybe_disconnect_consumer demo_obj (demo_session demo_room true))
     = [EvOnStop 1; EvDispose 1 101].
Proof.
  destruct (@disconnecting_main_consumer_orphans_session demo_obj
              (demo_session demo_room true) 1 "main-1" 101 eq_refl eq_refl eq_refl eq_refl)
    as (_ & Hst & Htr & _).
  split; [exact Hst | exact Htr].
Defined.

(** A session that was closed. *)
Definition closed_demo_session : Session :=
  post (Session_close demo_obj (demo_session demo_room true)).

Lemma closed_session_witness :
  Session_connection_state demo_obj
    (xpost (connect_consumer demo_obj 2 true 202 closed_demo_session)) = CLOSED
  /\ Session_connection_state demo_obj
       (post (put_control_request demo_obj StopRequest None closed_demo_session)) = CLOSED.
Proof.
  destruct (@closed_session_stays_closed demo_obj closed_demo_session eq_refl)
    as (Hput & _ & _ & Hconn & _).
  split; [apply Hconn | apply Hput].
Defined.

Lemma connecting_main_consumer_witness :
  Session_connection_state demo_obj
    (xpost (connect_consumer demo_obj 1 true 201 (demo_session orphaned_room true))) = OPEN
  /\ Session_connection_state demo_obj (demo_session orphaned_room true) = ORPHANED.
Proof.
  destruct (@connecting_main_consumer_resumes_session demo_obj
              (demo_session orphaned_room true) 1 201 eq_refl)
    as (_ & _ & _ & _ & _ & Hst & _).
  split; [exact (Hst eq_refl) | reflexivity].
Defined.

Lemma connecting_second_main_consumer_witness :
  xoutcome (connect_consumer demo_obj 4 true 204 (demo_session demo_room true))
  = Raise (AssertionError "Main session consumer already exists")
  /\ post (disconnect_consumer demo_obj 4
             (xpost (connect_consumer demo_obj 4 true 204 (demo_session demo_room true))))
     = demo_session demo_room true.
Proof.
  assert (Hne : 4 <> 1) by discriminate.
  destruct (@connecting_second_main_consumer_fails_after_subscribing demo_obj
              (demo_session demo_room true) 1 4 204 eq_refl Hne eq_refl eq_refl)
    as (Ho & _ & _ & _ & Hback & _).
  split; [exact Ho | exact Hback].
Defined.

Lemma heartbeat_witness :
  xoutcome (_check_alive demo_obj (demo_session demo_room false)) = Return tt
  /\ Session_connection_state demo_obj
       (xpost (_check_alive demo_obj (demo_session demo_room false))) = CLOSED
  /\ _check_alive demo_obj (demo_session demo_room true)
     = xret tt (demo_session demo_room true).
Proof.
  destruct (@heartbeat_closes_session_of_dead_kernel demo_obj (demo_session demo_room false))
    as (_ & Hst & Hok & _).
  destruct (Hok eq_refl eq_refl) as (Ho & _).
  destruct (@heartbeat_closes_session_of_dead_kernel demo_obj (demo_session demo_room true))
    as (Halive & _).
  split; [exact Ho|]. split; [exact (Hst eq_refl) | exact (Halive eq_refl)].
Defined.

End SessionFlow.

(* ================================================================== *)
(** * Entries of a dictionary after an update *)
(* ================================================================== *)

Module PyDictEntries.

Section Dict.
Context {K V : Type} `{Hashable K}.

Lemma In_set_inv (d : dict K V) (k : K) (v : V) (e : K * V) :
  In e (PyDict.set d k v) -> e = (k, v) \/ In e d.
Proof.
  induction d as [|[k0 v0] d IH]; simpl.
  - intros [<-|[]]. now left.
  - destruct (key_eqb k0 k) eqn:E; simpl; intros [<-|Hin].
    + left. apply key_eqb_spec in E. now subst.
    + right. now right.
    + right. now left.
    + destruct (IH Hin) as [->|Hd]; [now left | right; now right].
Qed.

Lemma In_del_inv (d : dict K V) (k : K) (e : K * V) :
  In e (PyDict.del d k) -> In e d.
Proof.
  induction d as [|[k0 v0] d IH]; simpl; [tauto|].
  destruct (key_eqb k0 k); simpl; [now right|].
  intros [<-|Hin]; [now left | right; now apply IH].
Qed.

Lemma set_fresh (d : dict K V) (k : K) (v : V) :
  ~ In k (PyDict.keys d) -> PyDict.set d k v = d ++ [(k, v)].
Proof.
  induction d as [|[k0 v0] d IH]; simpl; intros Hn; [reflexivity|].
  rewrite key_eqb_neq by (intros ->; apply Hn; now left).
  rewrite IH; [reflexivity|]. intros Hin. apply Hn. now right.
Qed.

Lemma set_last (d : dict K V) (k : K) (v v' : V) :
  ~ In k (PyDict.keys d) -> PyDict.set (d ++ [(k, v)]) k v' = d ++ [(k, v')].
Proof.
  intros Hn. rewrite (set_middle d [] k v v' Hn). reflexivity.
Qed.

Lemma del_last (d : dict K V) (k : K) (v : V) :
  ~ In k (PyDict.keys d) -> PyDict.del (d ++ [(k, v)]) k = d.
Proof.
  intros Hn. rewrite (del_middle d [] k v Hn). apply app_nil_r.
Qed.

Lemma get_last (d : dict K V) (k : K) (v : V) :
  ~ In k (PyDict.keys d) -> PyDict.get (d ++ [(k, v)]) k = Some v.
Proof.
  intros Hn. apply (get_middle d [] k v Hn).
Qed.

Lemma get_app_other (d : dict K V) (k k' : K) (v : V) :
  k' <> k -> PyDict.get (d ++ [(k, v)]) k' = PyDict.get d k'.
Proof.
  intros Hne. induction d as [|[k0 v0] d IH]; simpl.
  - rewrite key_eqb_neq by congruence. reflexivity.
  - destruct (key_eqb k0 k'); [reflexivity | exact IH].
Qed.

Lemma set_set_same (d : dict K V) (k : K) (v v' : V) :
  PyDict.set (PyDict.set d k v) k v' = PyDict.set d k v'.
Proof.
  induction d as [|[k0 v0] d IH]; simpl.
  - now rewrite key_eqb_refl.
  - destruct (key_eqb k0 k) eqn:E; simpl; rewrite E; [reflexivity | now rewrite IH].
Qed.

End Dict.

End PyDictEntries.

(* ================================================================== *)
(** * Writing the session cache *)
(* ================================================================== *)

Module SerializeFlow.

Import Serialize Effects.

Section WithLibraries.

Set Default Proof Using "Type".

Variable md5_hexdigest : string -> string.

(** [VERSION] of the session schema and [__version__] of marimo. *)
Variable VERSION : string.
Variable __version__ : string.

(** [error.describe()] and [getattr(error, "traceback", [])]. *)
Variable describe : MarimoExceptionRaisedError -> string.
Variable traceback_of : MarimoExceptionRaisedError -> list string.

(** The JSON value, and [str(...)], of output data that is not a
    string. *)
Variable json_of_bundle : dict string JsonValue -> JsonValue.
Variable json_of_errors : list MarimoExceptionRaisedError -> JsonValue.
Variable str_of_bundle : dict string JsonValue -> string.
Variable str_of_errors : list MarimoExceptionRaisedError -> string.

Definition json_of_data (d : CellData) : JsonValue :=
  match d with
  | DataValue v => v
  | DataBundle bundle => json_of_bundle bundle
  | DataErrors errors => json_of_errors errors
  end.

Definition str_of_data (d : CellData) : string :=
  match d with
  | DataValue v => v
  | DataBundle bundle => str_of_bundle bundle
  | DataErrors errors => str_of_errors errors
  end.

(** [_normalize_error] on an error object; its [type] is ["exception"]. *)
Definition _normalize_error (error : MarimoExceptionRaisedError) : OutputType :=
  ErrorOutput "exception" (describe error) (traceback_of error).

(** The conversion of [cell_op.output].  Under the error channel the data
    is iterated: a list of errors gives one output each; a string or a
    mapping has no errors to give, and its first element, a string, has
    no attribute [type]. *)
Definition serialize_output (o : CellOutput) : Outcome (list OutputType) :=
  match channel o with
  | MARIMO_ERROR =>
      match data o with
      | DataErrors errors => Return (map _normalize_error errors)
      | DataValue v =>
          if String.eqb v "" then Return [] else Raise (AttributeError "type")
      | DataBundle [] => Return []
      | DataBundle (_ :: _) => Raise (AttributeError "type")
      end
  | _ => Return [DataOutput [(mimetype o, json_of_data (data o))]]
  end.

(** The conversion of one console output. *)
Definition serialize_console (console_out : CellOutput) : ConsoleType :=
  match channel console_out with
  | MEDIA => StreamMediaOutput (mimetype console_out) (str_of_data (data console_out))
  | STDERR => StreamOutput stderr (str_of_data (data console_out))
  | _ => StreamOutput stdout (str_of_data (data console_out))
  end.

(** One turn of the loop of [serialize_session_view].  The console of an
    operation is a list here, so [as_list] leaves it as it is. *)
Definition serialize_cell (view : SessionView) (cell_id : CellId_t) : Outcome Cell :=
  match PyDict.get (cell_operations view) cell_id with
  | None => Return {| id := cell_id; code_hash := None; outputs := []; console := [] |}
  | Some cell_op =>
      match (match output cell_op with
             | Some o => serialize_output o
             | None => Return []
             end) with
      | Raise e => Raise e
      | Return outs =>
          Return {| id := cell_id;
                    code_hash :=
                      _hash_code md5_hexdigest
                        (PyDict.get (last_executed_code view) cell_id);
                    outputs := outs;
                    console := map serialize_console (op_console cell_op) |}
      end
  end.

Fixpoint serialize_cells (view : SessionView) (cell_ids : list CellId_t)
    : Outcome (list Cell) :=
  match cell_ids with
  | [] => Return []
  | cell_id :: rest =>
      match serialize_cell view cell_id with
      | Raise e => Raise e
      | Return cell =>
          match serialize_cells view rest with
          | Raise e => Raise e
          | Return cells => Return (cell :: cells)
          end
      end
  end.

(** The cell ids [serialize_session_view] goes through: those given, else
    those the view knows as the notebook order ([view.cell_ids], passed
    as [view_cell_ids]), else the keys of its operations. *)
Definition resolve_cell_ids (view : SessionView) (view_cell_ids cell_ids : option (list CellId_t))
    : list CellId_t :=
  match cell_ids with
  | Some ids => ids
  | None =>
      match view_cell_ids with
      | Some ids => ids
      | None => PyDict.keys (cell_operations view)
      end
  end.

(** [serialize_session_view] *)
Definition serialize_session_view (view : SessionView)
    (view_cell_ids cell_ids : option (list CellId_t)) : Outcome NotebookSessionV1 :=
  match serialize_cells view (resolve_cell_ids view view_cell_ids cell_ids) with
  | Raise e => Raise e
  | Return cells =>
      Return {| version := VERSION;
                metadata := {| session_marimo_version := __version__ |};
                cells := cells |}
  end.

(** Error outputs carry a list of errors. *)
Definition well_typed (view : SessionView) : Prop :=
  forall cell_id cell_op o,
    PyDict.get (cell_operations view) cell_id = Some cell_op ->
    output cell_op = Some o ->
    channel o = MARIMO_ERROR ->
    exists errors, data o = DataErrors errors.

(** The code hash [serialize_session_view] writes for a cell. *)
Definition written_hash (view : SessionView) (cell_id : CellId_t) : option string :=
  match PyDict.get (cell_operations view) cell_id with
  | Some _ => _hash_code md5_hexdigest (PyDict.get (last_executed_code view) cell_id)
  | None => None
  end.

Lemma serialize_cell_typed (view : SessionView) (cell_id : CellId_t) :
  well_typed view ->
  exists cell,
    serialize_cell view cell_id = Return cell
    /\ id cell = cell_id
    /\ code_hash cell = written_hash view cell_id
    /\ console cell
       = match PyDict.get (cell_operations view) cell_id with
         | Some cell_op => map serialize_console (op_console cell_op)
         | None => []
         end
    /\ (PyDict.get (cell_operations view) cell_id = None -> outputs cell = []).
Proof.
  intros Hty. unfold serialize_cell, written_hash.
  destruct (PyDict.get (cell_operations view) cell_id) as [cell_op|] eqn:Eop.
  - destruct (output cell_op) as [o|] eqn:Eo.
    + unfold serialize_output.
      destruct (channel o) eqn:Ec;
        try (eexists; repeat split; try reflexivity; discriminate).
      destruct (Hty cell_id cell_op o Eop Eo Ec) as [errors ->].
      eexists; repeat split; try reflexivity; discriminate.
    + eexists; repeat split; try reflexivity; discriminate.
  - eexists; repeat split; reflexivity.
Qed.

Lemma serialize_cells_typed (view : SessionView) (cell_ids : list CellId_t) :
  well_typed view ->
  exists cells,
    serialize_cells view cell_ids = Return cells
    /\ map id cells = cell_ids
    /\ map code_hash cells = map (written_hash view) cell_ids
    /\ Forall2 (fun cell_id cell => serialize_cell view cell_id = Return cell)
               cell_ids cells.
Proof.
  intros Hty. induction cell_ids as [|cell_id rest IH]; simpl.
  - exists []. repeat split; constructor.
  - destruct (serialize_cell_typed cell_id Hty) as (cell & Hc & Hid & Hh & _).
    destruct IH as (cells & Hcs & Hids & Hhs & Hall).
    rewrite Hc, Hcs. exists (cell :: cells). simpl.
    rewrite Hid, Hh, Hids, Hhs. repeat split. now constructor.
Qed.

(** X15. For a view whose error outputs carry lists of errors,
    [serialize_session_view] returns a document with the schema version
    and the marimo version, and with one cell for each cell id it was
    given, in that order (without ids: in the notebook order the view
    knows, else in the order of its operations).  A cell the view has no
    operation for is written with no hash, no output and no console; any
    other cell gets the hash of its last executed code and one console
    entry for each console output. *)
Theorem serialize_session_view_follows_cell_ids :
  forall (view : SessionView) (view_cell_ids cell_ids : option (list CellId_t)),
    well_typed view ->
    exists doc,
      serialize_session_view view view_cell_ids cell_ids = Return doc
      /\ version doc = VERSION
      /\ session_marimo_version (metadata doc) = __version__
      /\ map id (cells doc) = resolve_cell_ids view view_cell_ids cell_ids
      /\ (forall ids, cell_ids = Some ids -> map id (cells doc) = ids)
      /\ (cell_ids = None -> view_cell_ids = None ->
          map id (cells doc) = PyDict.keys (cell_operations view))
      /\ (forall cell, In cell (cells doc) ->
            match PyDict.get (cell_operations view) (id cell) with
            | None => code_hash cell = None /\ outputs cell = [] /\ console cell = []
            | Some cell_op =>
                code_hash cell
                = _hash_code md5_hexdigest (PyDict.get (last_executed_code view) (id cell))
                /\ console cell = map serialize_console (op_console cell_op)
            end).
Proof.
  intros view view_cell_ids cell_ids Hty. unfold serialize_session_view.
  destruct (serialize_cells_typed (resolve_cell_ids view view_cell_ids cell_ids) Hty)
    as (cells & Hcs & Hids & _ & Hall).
  rewrite Hcs. eexists. split; [reflexivity|]. simpl.
  split; [reflexivity|]. split; [reflexivity|]. split; [exact Hids|].
  split; [intros ids ->; exact Hids|].
  split; [intros -> ->; exact Hids|].
  intros cell Hin.
  assert (Hcell : exists cell_id, serialize_cell view cell_id = Return cell).
  { clear Hcs Hids. induction Hall as [|cell_id c ids cs Hc Hrest IH]; [contradiction|].
    destruct Hin as [<-|Hin]; [now exists cell_id | now apply IH]. }
  destruct Hcell as [cell_id Hc].
  destruct (serialize_cell_typed cell_id Hty) as (cell' & Hc' & Hid & Hh & Hcon & Hout).
  rewrite Hc in Hc'. injection Hc' as <-. rewrite Hid.
  unfold written_hash in Hh.
  destruct (PyDict.get (cell_operations view) cell_id) as [cell_op|].
  - split; assumption.
  - split; [assumption|]. split; [now apply Hout | assumption].
Qed.

(** The key that has, for each cell id, the code the view last executed
    for it. *)
Definition view_key (view : SessionView) (cell_ids : list CellId_t) : SessionCacheKey :=
  {| codes := map (fun cell_id => PyDict.get (last_executed_code view) cell_id) cell_ids;
     marimo_version := __version__ |}.

(** X16. The document written for a view is a cache hit for exactly the
    keys of the running marimo version that have one code for each
    written cell, with the hash the cell was written with.  So the key
    made of the codes the view last executed hits as long as every cell
    id has an operation in the view; a cell that has code but no
    operation is written without a hash and makes that key miss. *)
Theorem written_cache_hits_for_its_own_codes :
  forall (view : SessionView) (cell_ids : list CellId_t) (doc : NotebookSessionV1),
    serialize_session_view view None (Some cell_ids) = Return doc ->
    well_typed view ->
    (forall key,
        is_cache_hit md5_hexdigest doc key = true <->
        marimo_version key = __version__
        /\ map (_hash_code md5_hexdigest) (codes key) = map (written_hash view) cell_ids)
    /\ ((forall cell_id, In cell_id cell_ids ->
           PyDict.mem (cell_operations view) cell_id = true) ->
        is_cache_hit md5_hexdigest doc (view_key view cell_ids) = true)
    /\ (forall cell_id code,
          In cell_id cell_ids ->
          PyDict.get (cell_operations view) cell_id = None ->
          PyDict.get (last_executed_code view) cell_id = Some code ->
          code <> "" ->
          is_cache_hit md5_hexdigest doc (view_key view cell_ids) = false).
Proof.
  intros view cell_ids doc Hdoc Hty.
  unfold serialize_session_view in Hdoc. simpl in Hdoc.
  destruct (serialize_cells_typed cell_ids Hty) as (cells & Hcs & Hids & Hhs & _).
  rewrite Hcs in Hdoc. injection Hdoc as <-.
  assert (Hiff : forall key,
             is_cache_hit md5_hexdigest
               {| version := VERSION;
                  metadata := {| session_marimo_version := __version__ |};
                  cells := cells |} key = true <->
             marimo_version key = __version__
             /\ map (_hash_code md5_hexdigest) (codes key)
                = map (written_hash view) cell_ids).
  { intros key. rewrite is_cache_hit_spec. simpl. rewrite <- Hhs. split.
    - intros (Hlen & Hall & Hver). split; [exact Hver|].
      apply nth_error_ext. intros i. rewrite !nth_error_map.
      destruct (nth_error (codes key) i) as [code|] eqn:Ea.
      + destruct (nth_error cells i) as [cell|] eqn:Eb.
        * simpl. f_equal. now apply (Hall i).
        * apply nth_error_None in Eb.
          assert (i < List.length (codes key)) by (apply nth_error_Some; congruence). lia.
      + apply nth_error_None in Ea.
        destruct (nth_error cells i) as [cell|] eqn:Eb; [|reflexivity].
        assert (i < List.length cells) by (apply nth_error_Some; congruence). lia.
    - intros (Hver & Hmap).
      split; [|split; [|exact Hver]].
      + rewrite <- (length_map (_hash_code md5_hexdigest) (codes key)), Hmap.
        apply length_map.
      + intros i code cell Ha Hb.
        assert (Hn : nth_error (map (_hash_code md5_hexdigest) (codes key)) i
                     = nth_error (map code_hash cells) i) by (now rewrite Hmap).
        rewrite !nth_error_map, Ha, Hb in Hn. simpl in Hn. congruence. }
  split; [exact Hiff|]. split.
  - intros Hops. apply Hiff. simpl. split; [reflexivity|].
    rewrite map_map. apply map_ext_in. intros cell_id Hin.
    specialize (Hops cell_id Hin). unfold written_hash, PyDict.mem in *.
    now destruct (PyDict.get (cell_operations view) cell_id).
  - intros cell_id code Hin Hnone Hcode Hne.
    destruct (is_cache_hit md5_hexdigest _ (view_key view cell_ids)) eqn:Ehit;
      [|reflexivity].
    apply Hiff in Ehit. destruct Ehit as [_ Hmap]. simpl in Hmap.
    rewrite map_map in Hmap.
    assert (Hat : _hash_code md5_hexdigest (PyDict.get (last_executed_code view) cell_id)
                  = written_hash view cell_id).
    { clear - Hmap Hin. induction cell_ids as [|c rest IH]; [contradiction|].
      simpl in Hmap. injection Hmap as Hhead Hrest.
      destruct Hin as [->|Hin]; [exact Hhead | now apply IH]. }
    unfold written_hash in Hat. rewrite Hnone, Hcode in Hat. simpl in Hat.
    apply String.eqb_neq in Hne. rewrite Hne in Hat. discriminate.
Qed.

(* ------------------------------------------------------------------ *)
(** ** Reading a cache and writing it again *)
(* ------------------------------------------------------------------ *)

(** The operation [deserialize_session] stores for a cell. *)
Definition restored_op (cell : Cell) : CellOp :=
  {| cell_id := id cell;
     status := "idle";
     output := hd_error (flat_map deserialize_output (outputs cell));
     op_console := map deserialize_console (console cell);
     timestamp := 0 |}.

Lemma deserialize_cells_fresh (cs : list Cell) :
  forall view : SessionView,
    NoDup (PyDict.keys (cell_operations view) ++ map id cs) ->
    cell_operations (deserialize_cells cs view)
    = cell_operations view ++ map (fun cell => (id cell, restored_op cell)) cs
    /\ last_executed_code (deserialize_cells cs view) = last_executed_code view.
Proof.
  induction cs as [|cell rest IH]; intros view Hnd; simpl.
  - now rewrite app_nil_r.
  - assert (Hfresh : ~ In (id cell) (PyDict.keys (cell_operations view))).
    { apply NoDup_remove_2 in Hnd. intros Hin. apply Hnd. apply in_or_app. now left. }
    match goal with
    | |- context [deserialize_cells rest ?v] => specialize (IH v)
    end.
    simpl in IH.
    rewrite (@PyDictEntries.set_fresh _ _ _ (cell_operations view) (id cell)
               (restored_op cell) Hfresh) in IH.
    destruct IH as [IH1 IH2].
    { unfold PyDict.keys in *. rewrite map_app. simpl. rewrite <- app_assoc. exact Hnd. }
    unfold restored_op in *. rewrite (@PyDictEntries.set_fresh _ _ _ (cell_operations view) (id cell) _ Hfresh).
    rewrite IH1, IH2. split; [|reflexivity]. now rewrite <- app_assoc.
Qed.

Lemma deserialize_session_ops (doc : NotebookSessionV1) :
  NoDup (map id (cells doc)) ->
  cell_operations (deserialize_session doc)
  = map (fun cell => (id cell, restored_op cell)) (cells doc)
  /\ last_executed_code (deserialize_session doc) = [].
Proof.
  intros Hnd. unfold deserialize_session.
  now destruct (@deserialize_cells_fresh (cells doc) SessionView_new Hnd).
Qed.

Lemma deserialize_output_typed (out : OutputType) (o : CellOutput) :
  In o (deserialize_output out) ->
  (channel o = MARIMO_ERROR /\ exists errors, data o = DataErrors errors)
  \/ channel o = OUTPUT.
Proof.
  destruct out as [ename evalue tb|d|t]; simpl.
  - intros [<-|[]]. left. split; [reflexivity|]. eexists. reflexivity.
  - destruct d as [|[mime v] [|e2 more]]; simpl; [intros []| |];
      intros [<-|[]]; now right.
  - intros [].
Qed.

Lemma restored_output_typed (cell : Cell) (o : CellOutput) :
  output (restored_op cell) = Some o ->
  (channel o = MARIMO_ERROR /\ exists errors, data o = DataErrors errors)
  \/ channel o = OUTPUT.
Proof.
  unfold restored_op. simpl. intros Hhd.
  assert (Hin : In o (flat_map deserialize_output (outputs cell))).
  { destruct (flat_map deserialize_output (outputs cell)) as [|o0 l]; [discriminate|].
    injection Hhd as ->. now left. }
  apply in_flat_map in Hin. destruct Hin as (out & _ & Hin).
  exact (@deserialize_output_typed out o Hin).
Qed.

Lemma serialize_deserialize_console (c : ConsoleType) :
  serialize_console (deserialize_console c) = c.
Proof. destruct c as [[|] text|mime d]; reflexivity. Qed.

(** What is written for a cell that was read from a cache. *)
Definition rewritten_outputs (cell : Cell) : list OutputType :=
  match output (restored_op cell) with
  | Some o =>
      match serialize_output o with
      | Return outs => outs
      | Raise _ => []
      end
  | None => []
  end.

Definition rewritten_cell (cell : Cell) : Cell :=
  {| id := id cell;
     code_hash := None;
     outputs := rewritten_outputs cell;
     console := console cell |}.

Lemma serialize_restored_cell (doc : NotebookSessionV1) (cell : Cell) :
  NoDup (map id (cells doc)) ->
  In cell (cells doc) ->
  serialize_cell (deserialize_session doc) (id cell) = Return (rewritten_cell cell).
Proof.
  intros Hnd Hin. destruct (@deserialize_session_ops doc Hnd) as [Hops Hcode].
  assert (Hget : PyDict.get (cell_operations (deserialize_session doc)) (id cell)
                 = Some (restored_op cell)).
  { apply get_In.
    - unfold PyDict.wf. apply uniq_NoDup. rewrite Hops. unfold PyDict.keys.
      rewrite map_map. exact Hnd.
    - rewrite Hops. apply in_map_iff. now exists cell. }
  unfold serialize_cell. rewrite Hget, Hcode. unfold rewritten_cell, rewritten_outputs.
  assert (Hcon : map serialize_console (op_console (restored_op cell)) = console cell).
  { unfold restored_op. simpl. rewrite map_map.
    rewrite (map_ext _ (fun c => c) serialize_deserialize_console). apply map_id. }
  rewrite Hcon.
  destruct (output (restored_op cell)) as [o|] eqn:Eo; [|reflexivity].
  destruct (@restored_output_typed cell o Eo) as [[Hc [errors Hd]]|Hc];
    unfold serialize_output; rewrite Hc; [rewrite Hd|]; reflexivity.
Qed.

Lemma serialize_restored_cells (doc : NotebookSessionV1) (cs : list Cell) :
  NoDup (map id (cells doc)) ->
  incl cs (cells doc) ->
  serialize_cells (deserialize_session doc) (map id cs) = Return (map rewritten_cell cs).
Proof.
  intros Hnd. induction cs as [|cell rest IH]; intros Hincl; simpl; [reflexivity|].
  rewrite (@serialize_restored_cell doc cell Hnd (Hincl cell (or_introl eq_refl))).
  rewrite IH; [reflexivity|]. intros c Hc. apply Hincl. now right.
Qed.

Lemma rewritten_outputs_short (cell : Cell) : List.length (rewritten_outputs cell) <= 1.
Proof.
  unfold rewritten_outputs.
  destruct (output (restored_op cell)) as [o|] eqn:Eo; [|simpl; lia].
  assert (Hin : In o (flat_map deserialize_output (outputs cell))).
  { unfold restored_op in Eo. simpl in Eo.
    destruct (flat_map deserialize_output (outputs cell)) as [|o0 l]; [discriminate|].
    injection Eo as ->. now left. }
  apply in_flat_map in Hin. destruct Hin as (out & _ & Hin).
  destruct out as [ename evalue tb|d|t]; simpl in Hin.
  - destruct Hin as [<-|[]]. simpl. lia.
  - destruct d as [|[mime v] [|e2 more]]; simpl in Hin; [contradiction| |];
      destruct Hin as [<-|[]]; simpl; lia.
  - contradiction.
Qed.

(** X17. Reading a cache document whose cell ids are distinct and writing
    the view back gives a document with the same cell ids in the same
    order and the same console entries, with at most one output for each
    cell, and with no code hash at all: the view that is read back has no
    executed code (and no notebook order, so the cells are written in the
    order of its operations).  The document written back is therefore a
    cache hit only for keys whose codes are all absent or empty. *)
Theorem rewritten_cache_has_no_code_hashes :
  forall doc : NotebookSessionV1,
    NoDup (map id (cells doc)) ->
    exists doc',
      serialize_session_view (deserialize_session doc) None None = Return doc'
      /\ map id (cells doc') = map id (cells doc)
      /\ map console (cells doc') = map console (cells doc)
      /\ (forall cell, In cell (cells doc') ->
            code_hash cell = None /\ List.length (outputs cell) <= 1)
      /\ (forall key,
            is_cache_hit md5_hexdigest doc' key = true <->
            marimo_version key = __version__
            /\ List.length (codes key) = List.length (cells doc)
            /\ (forall code, In code (codes key) -> code = None \/ code = Some "")).
Proof.
  intros doc Hnd. destruct (@deserialize_session_ops doc Hnd) as [Hops Hcode].
  unfold serialize_session_view, resolve_cell_ids.
  assert (Hkeys : PyDict.keys (cell_operations (deserialize_session doc))
                  = map id (cells doc)).
  { rewrite Hops. unfold PyDict.keys. now rewrite map_map. }
  rewrite Hkeys, (@serialize_restored_cells doc (cells doc) Hnd (incl_refl _)).
  eexists. split; [reflexivity|]. cbn [cells].
  split; [now rewrite map_map|]. split; [now rewrite map_map|].
  split.
  { intros cell Hin. apply in_map_iff in Hin. destruct Hin as (c & <- & _).
    split; [reflexivity | apply rewritten_outputs_short]. }
  intros key. rewrite is_cache_hit_spec. cbn [cells metadata session_marimo_version].
  rewrite length_map. split.
  - intros (Hlen & Hall & Hver). split; [exact Hver|]. split; [exact Hlen|].
    intros code Hin. destruct (In_nth_error _ _ Hin) as [i Hi].
    assert (Hlt : i < List.length (cells doc)).
    { rewrite <- Hlen. apply nth_error_Some. congruence. }
    destruct (nth_error (cells doc) i) as [c|] eqn:Ec;
      [|apply nth_error_None in Ec; lia].
    assert (Hc : nth_error (map rewritten_cell (cells doc)) i = Some (rewritten_cell c))
      by (rewrite nth_error_map, Ec; reflexivity).
    specialize (Hall i code (rewritten_cell c) Hi Hc). simpl in Hall.
    destruct code as [code|]; [|now left]. right.
    simpl in Hall. destruct (String.eqb code "") eqn:Ee; [|discriminate].
    apply String.eqb_eq in Ee. now subst.
  - intros (Hver & Hlen & Hall). split; [exact Hlen|]. split; [|exact Hver].
    intros i code cell Hi Hc.
    rewrite nth_error_map in Hc. destruct (nth_error (cells doc) i) as [c|]; [|discriminate].
    injection Hc as <-. simpl.
    destruct (Hall code (nth_error_In _ _ Hi)) as [->| ->]; reflexivity.
Qed.

(* ------------------------------------------------------------------ *)
(** ** The cache manager: starting, renaming, reading again *)
(* ------------------------------------------------------------------ *)

Definition set_writer (self : SessionCacheManager) (w : option unit) : SessionCacheManager :=
  {| session_view := session_view self;
     path := path self;
     interval := interval self;
     session_cache_writer := w |}.

Definition set_path (self : SessionCacheManager) (p : option string) : SessionCacheManager :=
  {| session_view := session_view self;
     path := p;
     interval := interval self;
     session_cache_writer := session_cache_writer self |}.

(** [SessionCacheManager.start]: without a path nothing is started; else
    a writer is made for the cache file of the path and started. *)
Definition start : X SessionCacheManager unit :=
  fun self =>
    match path self with
    | None => mkXRun (Return tt) self []
    | Some p => mkXRun (Return tt) (set_writer self (Some tt)) [CallWriterStart p]
    end.

(** [SessionCacheManager.rename_path] *)
Definition rename_path (new_path : string) : X SessionCacheManager unit :=
  xlift stop >>>
  (fun self => mkXRun (Return tt) (set_path self (Some new_path)) []) >>>
  start.

(** X18. [rename_path] stops the writer if one is running, and only
    then starts one for the new path: afterwards the manager has the new
    path and a running writer, its view and interval are unchanged, and
    [stop] answers true.  [stop] on a manager without a writer answers
    false and calls nothing, so stopping twice stops once.  [start] on a
    manager without a path starts nothing. *)
Theorem rename_path_restarts_writer_on_new_path :
  forall (self : SessionCacheManager) (new_path : string),
    let x := rename_path new_path self in
    xoutcome x = Return tt
    /\ calls x
       = (match session_cache_writer self with
          | Some _ => [Core EvWriterStopSync]
          | None => []
          end) ++ [CallWriterStart new_path]
    /\ xpost x = {| session_view := session_view self;
                    path := Some new_path;
                    interval := interval self;
                    session_cache_writer := Some tt |}
    /\ outcome (stop (xpost x)) = Return true
    /\ stop (post (stop self)) = returns false (post (stop self)) []
    /\ (path self = None -> start self = mkXRun (Return tt) self []).
Proof.
  intros self new_path x. subst x. unfold rename_path, xbind, xlift, stop, start.
  destruct self as [v p i [[]|]]; simpl;
    (split; [reflexivity|]); (split; [reflexivity|]); (split; [reflexivity|]);
    (split; [reflexivity|]); (split; [reflexivity|]); intros ->; reflexivity.
Qed.

(** [pathlib] and the file system, as [read_session_view] uses them. *)
Variable Path : Type.
Variable Path_of : string -> Path.
Variable parent : Path -> Path.
Variable name : Path -> string.
Variable joinpath : Path -> string -> Path.
Variable exists_ : Path -> bool.
Variable read_text : Path -> option string.
Variable json_loads : string -> option NotebookSessionV1.

(** X19. [read_session_view] returns the view the manager holds when it
    is done, and never touches the path, the interval or the writer of
    the manager.  As long as the cache file stays the same, reading again
    with the same key gives the same view and leaves the manager as the
    first reading left it. *)
Theorem read_session_view_again_reads_the_same :
  forall (self : SessionCacheManager) (key : SessionCacheKey),
    let read := read_session_view md5_hexdigest Path_of parent name joinpath exists_
                  read_text json_loads in
    let r := read self key in
    fst r = session_view (snd r)
    /\ path (snd r) = path self
    /\ interval (snd r) = interval self
    /\ session_cache_writer (snd r) = session_cache_writer self
    /\ read (snd r) key = r.
Proof.
  intros self key read r. subst r read. unfold read_session_view.
  destruct (path self) as [p|] eqn:Epath; [|cbn [fst snd]; rewrite Epath; repeat split].
  destruct (exists_ (get_session_cache_file parent name joinpath (Path_of p))) eqn:Eex;
    cbn [negb fst snd]; [|rewrite Epath, Eex; repeat split].
  destruct (read_text (get_session_cache_file parent name joinpath (Path_of p)))
    as [text|] eqn:Eread; cbn [fst snd];
    [|rewrite Epath, Eex, Eread; repeat split].
  destruct (json_loads text) as [doc|] eqn:Ejson; cbn [fst snd];
    [|rewrite Epath, Eex, Eread, Ejson; repeat split].
  destruct (is_cache_hit md5_hexdigest doc key) eqn:Ehit;
    cbn [negb fst snd path session_view interval session_cache_writer];
    rewrite ?Epath, Eex, Eread, Ejson, Ehit; cbn [negb]; repeat split.
Qed.

End WithLibraries.

(* ------------------------------------------------------------------ *)
(** ** A worked view *)
(* ------------------------------------------------------------------ *)

(** A view of three cells: [a] printed a value and a warning, [b]
    raised, [c] has code but was never run to an operation. *)
Definition demo_view : SessionView :=
  {| cell_operations :=
       [("a", {| cell_id := "a"; status := "idle";
                 output := Some {| channel := OUTPUT; mimetype := "text/plain";
                                   data := DataValue "1" |};
                 op_console := [{| channel := STDERR; mimetype := "text/plain";
                                   data := DataValue "careful" |}];
                 timestamp := 0 |});
        ("b", {| cell_id := "b"; status := "idle";
                 output := Some (CellOutput_errors
                                   [{| exception_type := "ValueError"; msg := "bad";
                                       raising_cell := None |}]);
                 op_console := [];
                 timestamp := 0 |})];
     last_executed_code := [("a", "x = 1"); ("b", "raise ValueError"); ("c", "y = 2")] |}.

Definition demo_serialize (view : SessionView) (cell_ids : option (list CellId_t))
    : Outcome NotebookSessionV1 :=
  serialize_session_view demo_digest "1" "0.13.0" msg (fun _ => [])
    (fun _ => "{}") (fun _ => "[]") (fun _ => "{}") (fun _ => "[]")
    view None cell_ids.

Lemma demo_view_well_typed : well_typed demo_view.
Proof.
  intros cell_id cell_op o Hget Hout Hch.
  destruct (string_dec cell_id "a") as [->|Ha].
  - simpl in Hget. injection Hget as <-. simpl in Hout. injection Hout as <-.
    discriminate.
  - destruct (string_dec cell_id "b") as [->|Hb].
    + simpl in Hget. injection Hget as <-. simpl in Hout. injection Hout as <-.
      eexists. reflexivity.
    + assert (Hnone : PyDict.get (cell_operations demo_view) cell_id = None)
        by (apply get_None_keys; simpl; intros [H|[H|[]]]; congruence).
      rewrite Hnone in Hget. discriminate.
Qed.

Lemma serialize_session_view_witness :
  exists doc,
    demo_serialize demo_view (Some ["b"; "c"; "a"]) = Return doc
    /\ map id (cells doc) = ["b"; "c"; "a"].
Proof.
  destruct (@serialize_session_view_follows_cell_ids demo_digest "1" "0.13.0" msg
              (fun _ => []) (fun _ => "{}") (fun _ => "[]") (fun _ => "{}")
              (fun _ => "[]") demo_view None (Some ["b"; "c"; "a"]) demo_view_well_typed)
    as (doc & Hdoc & _ & _ & _ & Hids & _).
  exists doc. split; [exact Hdoc | exact (Hids _ eq_refl)].
Defined.

(** The document written for the cells [a] and [b]. *)
Definition demo_written : NotebookSessionV1 :=
  {| version := "1";
     metadata := {| session_marimo_version := "0.13.0" |};
     cells :=
       [ {| id := "a"; code_hash := Some "md5:x = 1";
            outputs := [DataOutput [("text/plain", "1")]];
            console := [StreamOutput stderr "careful"] |};
         {| id := "b"; code_hash := Some "md5:raise ValueError";
            outputs := [ErrorOutput "exception" "bad" []];
            console := [] |} ] |}.

Lemma written_cache_witness :
  is_cache_hit demo_digest demo_written (view_key "0.13.0" demo_view ["a"; "b"]) = true.
Proof.
  apply (proj1 (proj2 (@written_cache_hits_for_its_own_codes demo_digest "1" "0.13.0" msg
                         (fun _ => []) (fun _ => "{}") (fun _ => "[]") (fun _ => "{}")
                         (fun _ => "[]") demo_view ["a"; "b"] demo_written eq_refl
                         demo_view_well_typed))).
  intros cell_id [<-|[<-|[]]]; reflexivity.
Defined.

(** The cell [c] has code but no operation: written with the others, it
    makes the key of the view miss. *)
Example written_cache_misses_for_cell_without_operation :
  match demo_serialize demo_view (Some ["a"; "b"; "c"]) with
  | Return doc =>
      is_cache_hit demo_digest doc (view_key "0.13.0" demo_view ["a"; "b"; "c"])
  | Raise _ => true
  end = false.
Proof. reflexivity. Qed.

(** An error output that carries a non-empty string instead of errors
    stops the writing. *)
Example serialize_session_view_ill_typed_error :
  demo_serialize
    {| cell_operations :=
         [("a", {| cell_id := "a"; status := "idle";
                   output := Some {| channel := MARIMO_ERROR; mimetype := "text/plain";
                                     data := DataValue "oops" |};
                   op_console := []; timestamp := 0 |})];
       last_executed_code := [] |} None
  = Raise (AttributeError "type").
Proof. reflexivity. Qed.

Lemma demo_document_distinct_ids : NoDup (map id (cells demo_document)).
Proof.
  simpl. constructor; [intros [H|[]]; discriminate|].
  constructor; [intros []|constructor].
Qed.

Lemma rewritten_cache_witness :
  exists doc',
    demo_serialize (deserialize_session demo_document) None = Return doc'
    /\ map id (cells doc') = ["c1"; "c2"]
    /\ is_cache_hit demo_digest doc' (demo_key "y=x+1" "0.13.0") = false.
Proof.
  destruct (@rewritten_cache_has_no_code_hashes demo_digest "1" "0.13.0" msg
              (fun _ => []) (fun _ => "{}") (fun _ => "[]") (fun _ => "{}")
              (fun _ => "[]") demo_document demo_document_distinct_ids)
    as (doc' & Hdoc & Hids & _ & _ & Hhit).
  exists doc'. split; [exact Hdoc|]. split; [exact Hids|].
  destruct (is_cache_hit demo_digest doc' (demo_key "y=x+1" "0.13.0")) eqn:E;
    [|reflexivity].
  apply Hhit in E. destruct E as (_ & _ & Hall).
  destruct (Hall (Some "x=1") (or_introl eq_refl)); discriminate.
Defined.

End SerializeFlow.

(* ================================================================== *)
(** * The session manager: closing, counting, sending *)
(* ================================================================== *)

Module ManagerFlow.

Import Sessions Effects.

Notation "x <- m ;; k" := (bind m (fun x => k))
  (at level 61, m at next level, right associativity).
Notation "m ;;; k" := (bind m (fun _ => k))
  (at level 61, right associativity).

Section WithEnvironment.

Set Default Proof Using "Type".

Variable obj : SessionConsumer -> ConsumerObject.

(** [os.path.abspath], and [AppFileRouter.NEW_FILE], the prefix of the
    keys of notebooks that have no file yet. *)
Variable abspath : string -> string.
Variable NEW_FILE : string.

(** [SessionManager.get_session_by_file_key] *)
Definition get_session_by_file_key (self : SessionManager) (file_key : MarimoFileKey)
    : option Session :=
  option_map snd
    (find (fun entry => String.eqb (initialization_id (snd entry)) file_key
                        || same_file abspath file_key entry)
          (PyDict.items (sessions self))).

Definition is_open (session : Session) : bool :=
  ConnectionState_eqb (Session_connection_state obj session) OPEN.

(** [SessionManager.any_clients_connected] *)
Definition any_clients_connected (self : SessionManager) (key : MarimoFileKey) : bool :=
  if String.prefix NEW_FILE key then false
  else existsb (fun entry => is_open (snd entry) && same_file abspath key entry)
               (PyDict.items (sessions self)).

(** [SessionManager.get_active_connection_count] *)
Definition get_active_connection_count (self : SessionManager) : nat :=
  List.length (filter is_open (PyDict.values (sessions self))).

(** The loop of [close_all_sessions] over [self.sessions.values()]; each
    session is closed where it is stored. *)
Fixpoint close_all_loop (entries : list (SessionId * Session)) : M SessionManager unit :=
  match entries with
  | [] => ret tt
  | (session_id, session) :: rest =>
      zoom (fun _ => session)
           (fun self closed =>
              set_sessions self (PyDict.set (sessions self) session_id closed))
           (Session_close obj) ;;;
      close_all_loop rest
  end.

(** [SessionManager.close_all_sessions] *)
Definition close_all_sessions : M SessionManager unit :=
  entries <- gets (fun self => PyDict.items (sessions self)) ;;
  close_all_loop entries ;;;
  modify (fun self => set_sessions self []).

(** [SessionManager.shutdown] *)
Definition shutdown : X SessionManager unit :=
  xlift close_all_sessions >>> xemit [CallLspStop; CallWatcherStopAll].

(** [send_message_to_consumer] *)
Definition send_message_to_consumer (session : Session) (operation : MessageOperation)
    (consumer_id : option ConsumerId) : Run Session unit :=
  if is_open session
  then returns tt session
         (flat_map (fun entry => if is_except (snd entry) consumer_id
                                 then [EvWriteOperation (fst entry) operation]
                                 else [])
                   (PyDict.items (consumers (room session))))
  else returns tt session [].

(** The calls [close_session] makes to the file watcher. *)
Definition watcher_removal (w : bool) (session : Session) : list Event :=
  if path_is_set (app_file_manager_path session) && w
  then match app_file_manager_path session with
       | Some p => [EvWatcherRemoveCallback p]
       | None => []
       end
  else [].

Lemma set_sessions_same (self : SessionManager) : set_sessions self (sessions self) = self.
Proof. now destruct self. Qed.

Lemma close_session_unknown (self : SessionManager) (session_id : SessionId) :
  get_session self session_id = None ->
  close_session obj session_id self = returns false self [].
Proof.
  unfold get_session. intros Hnone.
  unfold close_session, bind, gets. 
  destruct (get_session_entry self session_id) as [[k s]|]; [discriminate|]. reflexivity.
Qed.

(** [close_session] on the entry found for an id, stored under
    [stored_id]. *)
Lemma close_session_found (self : SessionManager) (session_id stored_id : SessionId)
    (session : Session) :
  get_session_entry self session_id = Some (stored_id, session) ->
  closes_cleanly obj (watch self) session = true ->
  close_session obj session_id self
  = returns true
      (let stored := PyDict.set (sessions self) stored_id
                       (post (Session_close obj session)) in
       set_sessions self (if PyDict.mem stored session_id
                          then PyDict.del stored session_id else stored))
      (watcher_removal (watch self) session ++ trace (Session_close obj session)).
Proof.
  intros Hfound Hok. unfold closes_cleanly in Hok.
  apply andb_true_iff in Hok. destruct Hok as [Hwatch Hclose].
  unfold close_session, bind, gets, zoom, modify, ret, emit, throw, returns, raises,
    watcher_removal.
  cbv beta. rewrite Hfound.
  destruct (Session_close obj session) as [[[]|e] s' tr] eqn:Ec; simpl in Hclose;
    [|discriminate].
  destruct (path_is_set (app_file_manager_path session) && watch self) eqn:Ew;
    simpl in Hwatch.
  - destruct (_unsubscribe_file_watcher_ session) as [u|]; [|discriminate].
    destruct (app_file_manager_path session) as [p|] eqn:Ep; [|discriminate].
    cbn.
    destruct (PyDict.mem (PyDict.set (sessions self) stored_id s') session_id);
      cbn; now rewrite ?app_nil_r.
  - cbn.
    destruct (PyDict.mem (PyDict.set (sessions self) stored_id s') session_id);
      cbn; now rewrite ?app_nil_r.
Qed.

Lemma get_split (d : dict SessionId Session) (k : SessionId) (v : Session) :
  PyDict.wf d -> PyDict.get d k = Some v ->
  exists pre suf, d = pre ++ (k, v) :: suf /\ ~ In k (PyDict.keys pre).
Proof.
  intros Hwf Hg. apply (get_In _ _ Hwf) in Hg.
  apply in_split in Hg. destruct Hg as (pre & suf & ->).
  exists pre, suf. split; [reflexivity|].
  apply uniq_NoDup in Hwf. unfold PyDict.keys in *. rewrite map_app in Hwf. simpl in Hwf.
  apply NoDup_remove_2 in Hwf. intros Hin. apply Hwf. apply in_or_app. now left.
Qed.

(** X20. [close_session] for an id nothing is found under returns False,
    calls nothing and changes nothing.  For an id a session is stored
    under it returns True: the file-watcher callback of the session is
    removed first (when watching and the session has a file), then the
    session is closed, and its entry is deleted; every other entry stays
    as it is. *)
Theorem close_session_removes_stored_session :
  forall (self : SessionManager) (session_id : SessionId),
    (get_session self session_id = None ->
     close_session obj session_id self = returns false self [])
    /\ (forall session,
          PyDict.wf (sessions self) ->
          PyDict.get (sessions self) session_id = Some session ->
          closes_cleanly obj (watch self) session = true ->
          let r := close_session obj session_id self in
          outcome r = Return true
          /\ trace r = watcher_removal (watch self) session
                       ++ trace (Session_close obj session)
          /\ sessions (post r) = PyDict.del (sessions self) session_id
          /\ PyDict.get (sessions (post r)) session_id = None
          /\ (forall k, k <> session_id ->
                PyDict.get (sessions (post r)) k = PyDict.get (sessions self) k)
          /\ mode (post r) = mode self /\ watch (post r) = watch self).
Proof.
  intros self session_id. split; [apply close_session_unknown|].
  intros session Hwf Hget Hok r. subst r.
  assert (Hfound : get_session_entry self session_id = Some (session_id, session)).
  { unfold get_session_entry. now rewrite Hget. }
  rewrite (@close_session_found self session_id session_id session Hfound Hok).
  destruct (@get_split (sessions self) session_id session Hwf Hget) as (pre & suf & Hs & Hpre).
  cbn. rewrite Hs.
  rewrite (set_middle pre suf session_id session (post (Session_close obj session)) Hpre).
  assert (Hmem : PyDict.mem (pre ++ (session_id, post (Session_close obj session)) :: suf)
                   session_id = true).
  { unfold PyDict.mem.
    now rewrite (get_middle pre suf session_id (post (Session_close obj session)) Hpre). }
  rewrite Hmem. cbn.
  rewrite (del_middle pre suf session_id (post (Session_close obj session)) Hpre).
  rewrite (del_middle pre suf session_id session Hpre).
  split; [reflexivity|]. split; [reflexivity|]. split; [reflexivity|].
  assert (Hwf' : PyDict.wf (pre ++ suf)).
  { rewrite <- (del_middle pre suf session_id session Hpre). apply wf_del.
    now rewrite <- Hs. }
  split.
  { rewrite <- (del_middle pre suf session_id session Hpre). apply get_del_same.
    now rewrite <- Hs. }
  split; [|split; reflexivity].
  intros k Hne. rewrite <- (del_middle pre suf session_id session Hpre).
  apply get_del_other. congruence.
Qed.

(** X21. [close_session] called with the id of a kiosk consumer (an id no
    session is stored under, found in the room of a session) closes that
    whole session and returns True, but deletes nothing: the session
    stays in the map under its own id and now reports CLOSED. *)
Theorem close_session_by_kiosk_id_keeps_entry :
  forall (self : SessionManager) (kiosk_id stored_id : SessionId) (session : Session),
    PyDict.wf (sessions self) ->
    PyDict.get (sessions self) kiosk_id = None ->
    get_session_entry self kiosk_id = Some (stored_id, session) ->
    closes_cleanly obj (watch self) session = true ->
    let r := close_session obj kiosk_id self in
    outcome r = Return true
    /\ trace r = watcher_removal (watch self) session ++ trace (Session_close obj session)
    /\ PyDict.keys (sessions (post r)) = PyDict.keys (sessions self)
    /\ PyDict.get (sessions (post r)) stored_id = Some (post (Session_close obj session))
    /\ Session_connection_state obj (post (Session_close obj session)) = CLOSED
    /\ (forall k, k <> stored_id ->
          PyDict.get (sessions (post r)) k = PyDict.get (sessions self) k).
Proof.
  intros self kiosk_id stored_id session Hwf Hnone Hfound Hok r. subst r.
  rewrite (@close_session_found self kiosk_id stored_id session Hfound Hok).
  assert (Hin : In (stored_id, session) (sessions self)).
  { unfold get_session_entry in Hfound. rewrite Hnone in Hfound.
    apply find_some in Hfound. exact (proj1 Hfound). }
  assert (Hstored : PyDict.mem (sessions self) stored_id = true).
  { unfold PyDict.mem. apply (get_In _ _ Hwf) in Hin. now rewrite Hin. }
  assert (Hne : stored_id <> kiosk_id).
  { intros ->. unfold PyDict.mem in Hstored. now rewrite Hnone in Hstored. }
  assert (Hmem : PyDict.mem (PyDict.set (sessions self) stored_id
                               (post (Session_close obj session))) kiosk_id = false).
  { unfold PyDict.mem. rewrite get_set_other by assumption. now rewrite Hnone. }
  cbv zeta. rewrite Hmem. unfold returns, set_sessions. cbn [outcome post trace sessions].
  split; [reflexivity|]. split; [reflexivity|].
  split; [rewrite keys_set; now rewrite Hstored|].
  split; [apply get_set_same|].
  split.
  { unfold Session_connection_state. now rewrite Session_close_sets_closed. }
  intros k Hk. apply get_set_other. congruence.
Qed.

Definition is_watcher_call (e : Event) : bool :=
  match e with EvWatcherRemoveCallback _ => true | _ => false end.

Lemma close_loop_no_watcher (cs : list SessionConsumer) :
  forall disp, existsb is_watcher_call (snd (close_loop obj cs disp)) = false.
Proof.
  induction cs as [|c cs IH]; intros disp; simpl; [reflexivity|].
  unfold PyDict.pop. destruct (PyDict.get disp c) as [d|]; [|reflexivity].
  destruct (on_stop_raises (obj c)); [reflexivity|].
  specialize (IH (PyDict.del disp c)).
  destruct (close_loop obj cs (PyDict.del disp c)) as [[o disp'] tr]. exact IH.
Qed.

Lemma close_kernel_no_watcher (km : KernelManager) (qm : QueueManager) :
  existsb is_watcher_call (trace (close_kernel km qm)) = false.
Proof.
  destruct km as [[[[|] [|]]|] [pp|] [rc|]]; destruct qm as [[|] cq uq [|]]; reflexivity.
Qed.

(** [Session.close] never calls the file watcher. *)
Lemma Session_close_no_watcher (session : Session) :
  existsb is_watcher_call (trace (Session_close obj session)) = false.
Proof.
  destruct (_closed session) eqn:Hc.
  - now rewrite Session_close_again.
  - unfold Session_close, bind, zoom, gets, modify, emit, ret, returns, raises.
    cbv beta. rewrite Hc. cbn -[Room_close close_kernel Serialize.stop].
    pose proof (close_loop_no_watcher (PyDict.keys (consumers (room session)))
                  (disposables (room session))) as Hroom.
    unfold Room_close.
    destruct (close_loop obj (PyDict.keys (consumers (room session)))
                (disposables (room session))) as [[[[]|e] disp] tr];
      cbn -[close_kernel Serialize.stop]; simpl in Hroom; [|exact Hroom].
    destruct session as [iid pth rm qm km scm hbt cl unsub].
    cbn -[close_kernel Serialize.stop].
    pose proof (close_kernel_no_watcher km qm) as Hk.
    destruct hbt as [hb|]; cbn -[close_kernel Serialize.stop];
      destruct scm as [[v p i [w|]]|]; cbn -[close_kernel];
      destruct (close_kernel km qm) as [ko kq kt]; cbn in *;
      rewrite existsb_app, Hroom; cbn; exact Hk.
Qed.

Definition closed_entry (entry : SessionId * Session) : SessionId * Session :=
  (fst entry, post (Session_close obj (snd entry))).

Definition close_traces (entries : list (SessionId * Session)) : list Event :=
  flat_map (fun entry => trace (Session_close obj (snd entry))) entries.

Lemma close_all_loop_completes (entries : list (SessionId * Session)) :
  forall (pre : dict SessionId Session) (self : SessionManager),
    sessions self = pre ++ entries ->
    NoDup (PyDict.keys (pre ++ entries)) ->
    (forall entry, In entry entries -> outcome (Session_close obj (snd entry)) = Return tt) ->
    close_all_loop entries self
    = returns tt (set_sessions self (pre ++ map closed_entry entries))
        (close_traces entries).
Proof.
  induction entries as [|[k s] entries IH]; intros pre self Hs Hnd Hok.
  - simpl. unfold ret. rewrite app_nil_r, <- (app_nil_r pre), <- Hs.
    now rewrite set_sessions_same.
  - assert (Hpre : ~ In k (PyDict.keys pre)).
    { unfold PyDict.keys in *. rewrite map_app in Hnd. simpl in Hnd.
      apply NoDup_remove_2 in Hnd. intros Hin. apply Hnd. apply in_or_app. now left. }
    pose proof (Hok (k, s) (or_introl eq_refl)) as Hk. simpl in Hk.
    unfold close_traces. simpl.
    unfold bind at 1. unfold zoom.
    destruct (Session_close obj s) as [o s' tr] eqn:Ec. simpl in Hk. subst o.
    rewrite Hs, (set_middle pre entries k s s' Hpre).
    assert (Hs' : sessions (set_sessions self (pre ++ (k, s') :: entries))
                  = (pre ++ [(k, s')]) ++ entries) by (simpl; now rewrite <- app_assoc).
    assert (Hnd' : NoDup (PyDict.keys ((pre ++ [(k, s')]) ++ entries))).
    { rewrite <- app_assoc. unfold PyDict.keys in *. rewrite map_app in *. exact Hnd. }
    rewrite (IH (pre ++ [(k, s')]) _ Hs' Hnd');
      [|intros entry Hin; apply Hok; now right].
    unfold returns. simpl. unfold closed_entry at 2. simpl. rewrite Ec. simpl.
    now rewrite <- app_assoc.
Qed.

Lemma close_all_loop_keeps_keys (entries : list (SessionId * Session)) :
  forall self : SessionManager,
    (forall entry, In entry entries -> In (fst entry) (PyDict.keys (sessions self))) ->
    PyDict.keys (sessions (post (close_all_loop entries self)))
    = PyDict.keys (sessions self)
    /\ existsb is_watcher_call (trace (close_all_loop entries self)) = false.
Proof.
  induction entries as [|[k s] entries IH]; intros self Hin; simpl; [split; reflexivity|].
  unfold bind, zoom.
  pose proof (Session_close_no_watcher s) as Hw.
  destruct (Session_close obj s) as [o s' tr]. simpl in Hw.
  assert (Hkeys : PyDict.keys (PyDict.set (sessions self) k s') = PyDict.keys (sessions self)).
  { rewrite keys_set.
    assert (Hm : PyDict.mem (sessions self) k = true).
    { apply mem_keys. apply (Hin (k, s)). now left. }
    now rewrite Hm. }
  destruct o as [[]|e]; simpl; [|split; assumption].
  specialize (IH (set_sessions self (PyDict.set (sessions self) k s'))).
  destruct (close_all_loop entries (set_sessions self (PyDict.set (sessions self) k s')))
    as [o2 m2 tr2]. simpl in *.
  destruct IH as [IH1 IH2].
  { intros entry He. rewrite Hkeys. apply Hin. now right. }
  split; [now rewrite IH1|]. now rewrite existsb_app, Hw, IH2.
Qed.

(** X22. [close_all_sessions] closes every session in the order of the
    map and then empties the map; it never removes a file-watcher
    callback.  [shutdown] does that, then stops the language server, then
    stops all file watchers.  When the [close] of some session raises,
    the exception is passed on: the map still has every key, and
    [shutdown] stops neither the language server nor the file
    watchers. *)
Theorem shutdown_closes_sessions_then_stops_services :
  forall self : SessionManager,
    PyDict.wf (sessions self) ->
    let r := close_all_sessions self in
    let x := shutdown self in
    existsb is_watcher_call (trace r) = false
    /\ ((forall entry, In entry (sessions self) ->
           outcome (Session_close obj (snd entry)) = Return tt) ->
        r = returns tt (set_sessions self []) (close_traces (sessions self))
        /\ x = mkXRun (Return tt) (set_sessions self [])
                 (map Core (close_traces (sessions self))
                  ++ [CallLspStop; CallWatcherStopAll]))
    /\ (forall e, outcome r = Raise e ->
          PyDict.keys (sessions (post r)) = PyDict.keys (sessions self)
          /\ xoutcome x = Raise e
          /\ ~ In CallLspStop (calls x)
          /\ ~ In CallWatcherStopAll (calls x)).
Proof.
  intros self Hwf r x.
  assert (Hall : forall entry, In entry (PyDict.items (sessions self)) ->
                               In (fst entry) (PyDict.keys (sessions self))).
  { intros entry Hin. now apply in_map. }
  destruct (close_all_loop_keeps_keys (PyDict.items (sessions self)) self Hall)
    as [Hkeys Hnow].
  assert (Hr : r = match close_all_loop (PyDict.items (sessions self)) self with
                   | mkRun (Raise e) s' tr => raises e s' tr
                   | mkRun (Return _) s' tr => returns tt (set_sessions s' []) (tr ++ [])
                   end).
  { subst r. unfold close_all_sessions, bind, gets, modify, returns, raises. simpl.
    destruct (close_all_loop (PyDict.items (sessions self)) self) as [[[]|e] s' tr];
      reflexivity. }
  split.
  { rewrite Hr. destruct (close_all_loop (PyDict.items (sessions self)) self)
      as [[[]|e] s' tr]; simpl in *; [now rewrite app_nil_r | assumption]. }
  split.
  - intros Hok. apply uniq_NoDup in Hwf.
    assert (Hrun : r = returns tt (set_sessions self []) (close_traces (sessions self))).
    { rewrite Hr.
      rewrite (@close_all_loop_completes (PyDict.items (sessions self)) [] self
                 eq_refl Hwf Hok).
      unfold returns, PyDict.items. simpl. now rewrite app_nil_r. }
    split; [exact Hrun|].
    subst x. unfold shutdown, xbind, xlift, xemit. fold r. now rewrite Hrun.
  - intros e He. rewrite Hr in He |- *.
    subst x. unfold shutdown, xbind, xlift, xemit. fold r. rewrite Hr.
    destruct (close_all_loop (PyDict.items (sessions self)) self) as [[[]|e'] s' tr];
      simpl in *; [discriminate|].
    injection He as <-. split; [assumption|]. split; [reflexivity|].
    split; intros Hin; apply In_map_Core_other in Hin; destruct Hin as (ev & Hev & _);
      discriminate.
Qed.

(** X23. [any_clients_connected] is never true for the key of a new,
    unsaved notebook; when it is true, some stored session reports OPEN
    and has the path of the key, and [get_active_connection_count] is at
    least one, and [get_session_by_file_key] finds a session for the key.
    The count never exceeds the number of sessions, and a session that is
    closed is not counted. *)
Theorem connected_clients_are_counted :
  forall (self : SessionManager) (key : MarimoFileKey),
    (String.prefix NEW_FILE key = true -> any_clients_connected self key = false)
    /\ (any_clients_connected self key = true ->
        1 <= get_active_connection_count self
        /\ exists k session,
             In (k, session) (sessions self)
             /\ Session_connection_state obj session = OPEN
             /\ app_file_manager_path session = Some (abspath key))
    /\ (any_clients_connected self key = true ->
        get_session_by_file_key self key <> None)
    /\ get_active_connection_count self <= PyDict.len (sessions self)
    /\ (forall session, _closed session = true -> is_open session = false).
Proof.
  intros self key. unfold any_clients_connected, get_active_connection_count.
  split; [intros ->; reflexivity|].
  assert (Hex : (if String.prefix NEW_FILE key then false
                 else existsb (fun entry => is_open (snd entry)
                                            && same_file abspath key entry)
                              (PyDict.items (sessions self))) = true ->
                exists k s, In (k, s) (sessions self)
                            /\ is_open s = true
                            /\ same_file abspath key (k, s) = true).
  { destruct (String.prefix NEW_FILE key); [discriminate|].
    intros Hex. apply existsb_exists in Hex. destruct Hex as ([k s] & Hin & Hopen).
    apply andb_true_iff in Hopen. destruct Hopen as [Ho Hs]. exists k, s.
    split; [exact Hin|]. split; [exact Ho | exact Hs]. }
  split; [|split].
  - intros Htrue. destruct (Hex Htrue) as (k & s & Hin & Hopen & Hsame).
    split.
    + assert (Hf : In s (filter is_open (PyDict.values (sessions self)))).
      { apply filter_In. split; [|exact Hopen].
        change s with (snd (k, s)). now apply in_map. }
      destruct (filter is_open (PyDict.values (sessions self))); [contradiction|].
      simpl. lia.
    + exists k, s. split; [exact Hin|]. split.
      * now apply ConnectionState_eqb_eq.
      * unfold same_file in Hsame. simpl in Hsame.
        destruct (app_file_manager_path s) as [p|]; [|discriminate].
        apply String.eqb_eq in Hsame. now subst.
  - intros Htrue. destruct (Hex Htrue) as (k & s & Hin & _ & Hsame).
    unfold get_session_by_file_key.
    destruct (find _ (PyDict.items (sessions self))) as [e|] eqn:Ef; [discriminate|].
    pose proof (find_none _ _ Ef (k, s) Hin) as Hn. cbv beta in Hn.
    rewrite Hsame, orb_true_r in Hn. discriminate.
  - split.
    + unfold PyDict.len, PyDict.values.
      rewrite <- (length_map snd (sessions self)). apply filter_length_le.
    + intros session Hc. unfold is_open, Session_connection_state. now rewrite Hc.
Qed.

(** X24. [send_message_to_consumer] writes only while the session reports
    OPEN, and then to exactly the consumers registered in the room under
    the given consumer id, whatever their own connection state; for an
    orphaned or closed session, or with no consumer id, it writes
    nothing.  It returns and changes nothing. *)
Theorem send_message_reaches_registered_id_when_open :
  forall (session : Session) (operation : MessageOperation)
         (consumer_id : option ConsumerId),
    let r := send_message_to_consumer session operation consumer_id in
    outcome r = Return tt
    /\ post r = session
    /\ (forall e, In e (trace r) <->
          exists c cid,
            e = EvWriteOperation c operation
            /\ Session_connection_state obj session = OPEN
            /\ In (c, cid) (PyDict.items (consumers (room session)))
            /\ consumer_id = Some cid)
    /\ (Session_connection_state obj session <> OPEN -> trace r = [])
    /\ (consumer_id = None -> trace r = []).
Proof.
  intros session operation consumer_id r. subst r. unfold send_message_to_consumer, is_open.
  destruct (ConnectionState_eqb (Session_connection_state obj session) OPEN) eqn:Eo.
  - apply ConnectionState_eqb_eq in Eo. simpl.
    split; [reflexivity|]. split; [reflexivity|].
    split.
    + intros e. rewrite in_flat_map. split.
      * intros ([c cid] & Hin & He). simpl in He.
        destruct (is_except cid consumer_id) eqn:Ex; [|contradiction].
        destruct He as [<-|[]]. apply is_except_true in Ex. exists c, cid. auto.
      * intros (c & cid & -> & _ & Hin & ->). exists (c, cid). split; [exact Hin|].
        simpl. rewrite String.eqb_refl. now left.
    + split; [intros Hne; contradiction|].
      intros ->. induction (PyDict.items (consumers (room session))) as [|x l IH];
        simpl; [reflexivity | exact IH].
  - simpl. split; [reflexivity|]. split; [reflexivity|].
    split.
    + intros e. split; [intros []|].
      intros (c & cid & _ & Ho & _). apply ConnectionState_eqb_eq in Ho. congruence.
    + split; reflexivity.
Qed.

Lemma resume_fixed_point (self : SessionManager) (new_session_id : SessionId)
    (file_key : MarimoFileKey) (session : Session) :
  mode self = EDIT ->
  PyDict.wf (sessions self) ->
  forallb is_live (PyDict.items (sessions self)) = true ->
  filter (same_file abspath file_key) (PyDict.items (sessions self))
  = [(new_session_id, session)] ->
  Session_connection_state obj session = ORPHANED ->
  let r := maybe_resume_session obj abspath new_session_id file_key self in
  outcome r = Return (Some session) /\ post r = self.
Proof.
  intros Hmode Hwf Hlive Hsame Horph r.
  assert (Hl : live_sessions self = sessions self).
  { unfold live_sessions, PyDict.items. now apply forallb_filter_id. }
  assert (Hok : dead_sessions_close_cleanly obj self = true).
  { unfold dead_sessions_close_cleanly. apply forallb_forall. intros e He.
    rewrite forallb_forall in Hlive. now rewrite (Hlive e He). }
  pose proof (@maybe_resume_session_edit obj abspath self new_session_id file_key
                Hmode Hwf Hok) as Hrun.
  cbv zeta in Hrun. rewrite Hl in Hrun. unfold PyDict.items in Hsame.
  rewrite Hsame, Horph in Hrun. simpl in Hrun.
  rewrite String.eqb_refl in Hrun. simpl in Hrun.
  destruct Hrun as [Ho Hp]. split; [exact Ho|]. subst r. rewrite Hp.
  assert (Hget : PyDict.get (sessions self) new_session_id = Some session).
  { apply (get_In _ _ Hwf).
    assert (Hin : In (new_session_id, session)
                     (filter (same_file abspath file_key) (sessions self)))
      by (rewrite Hsame; now left).
    apply filter_In in Hin. exact (proj1 Hin). }
  rewrite (set_same_value _ _ Hget). apply set_sessions_same.
Qed.

(** X25. In edit mode a session that [maybe_resume_session] returns was
    stored in the map, reports ORPHANED, has a kernel that is not dead and
    has the path of the file key; afterwards it is stored under the new
    id.  Asking again with the same id and key returns the same session
    and leaves the manager as it is. *)
Theorem resumed_session_is_live_orphaned_and_stays_resumed :
  forall (self : SessionManager) (new_session_id : SessionId)
         (file_key : MarimoFileKey) (session : Session),
    mode self = EDIT ->
    PyDict.wf (sessions self) ->
    dead_sessions_close_cleanly obj self = true ->
    let r := maybe_resume_session obj abspath new_session_id file_key self in
    outcome r = Return (Some session) ->
    (exists old_id, PyDict.get (sessions self) old_id = Some session)
    /\ Session_connection_state obj session = ORPHANED
    /\ kernel_is_dead session = false
    /\ app_file_manager_path session = Some (abspath file_key)
    /\ PyDict.get (sessions (post r)) new_session_id = Some session
    /\ maybe_resume_session obj abspath new_session_id file_key (post r)
       = mkRun (Return (Some session)) (post r)
           (trace (maybe_resume_session obj abspath new_session_id file_key (post r))).
Proof.
  intros self new_session_id file_key session Hmode Hwf Hok r Hout.
  pose proof (@maybe_resume_session_edit obj abspath self new_session_id file_key
                Hmode Hwf Hok) as Hrun.
  cbv zeta in Hrun. fold r in Hrun.
  assert (Hwl : PyDict.wf (live_sessions self)) by (apply wf_filter; exact Hwf).
  destruct (filter (same_file abspath file_key) (live_sessions self))
    as [|[session_id s] [|e2 more]] eqn:Hsame.
  - destruct Hrun as [Ho _]. rewrite Ho in Hout. discriminate.
  - destruct (ConnectionState_eqb (Session_connection_state obj s) ORPHANED) eqn:Eo;
      destruct Hrun as [Ho Hp]; rewrite Ho in Hout; [|discriminate].
    injection Hout as ->. apply ConnectionState_eqb_eq in Eo.
    assert (Hin : In (session_id, session) (live_sessions self)
                  /\ same_file abspath file_key (session_id, session) = true).
    { apply filter_In. rewrite Hsame. now left. }
    destruct Hin as [Hin Hmatch].
    assert (Hlive : In (session_id, session) (sessions self)
                    /\ is_live (session_id, session) = true) by (now apply filter_In).
    destruct Hlive as [Hstored Halive].
    assert (Hget : PyDict.get (live_sessions self) session_id = Some session)
      by (now apply get_In).
    assert (Honly : forall k v, In (k, v) (live_sessions self) ->
                                same_file abspath file_key (k, v) = true -> k = session_id).
    { intros k v Hkv Hm.
      assert (Hs : In (k, v) (filter (same_file abspath file_key) (live_sessions self)))
        by (apply filter_In; now split).
      rewrite Hsame in Hs. destruct Hs as [Hs|[]]. congruence. }
    set (after := if negb (String.eqb new_session_id session_id)
                     && PyDict.mem (PyDict.set (live_sessions self) new_session_id session)
                          session_id
                  then PyDict.del (PyDict.set (live_sessions self) new_session_id session)
                         session_id
                  else PyDict.set (live_sessions self) new_session_id session) in *.
    assert (Hws : PyDict.wf (PyDict.set (live_sessions self) new_session_id session))
      by (now apply wf_set).
    assert (Hafter : PyDict.wf after
                     /\ PyDict.get after new_session_id = Some session
                     /\ (forall e, In e after ->
                           e = (new_session_id, session) \/ In e (live_sessions self))
                     /\ (new_session_id <> session_id ->
                         PyDict.get after session_id = None)).
    { subst after. destruct (String.eqb new_session_id session_id) eqn:Eid; simpl.
      - apply String.eqb_eq in Eid.
        split; [exact Hws|]. split; [apply get_set_same|].
        split; [intros e; apply PyDictEntries.In_set_inv | congruence].
      - apply String.eqb_neq in Eid.
        assert (Hmem : PyDict.mem (PyDict.set (live_sessions self) new_session_id session)
                         session_id = true).
        { unfold PyDict.mem. rewrite get_set_other by assumption. now rewrite Hget. }
        rewrite Hmem.
        split; [now apply wf_del|].
        split; [rewrite get_del_other by congruence; apply get_set_same|].
        split; [|intros _; now apply get_del_same].
        intros e He. apply PyDictEntries.In_del_inv in He.
        now apply PyDictEntries.In_set_inv in He. }
    destruct Hafter as (Hwa & Hnew & Hfrom & Hold).
    split; [exists session_id; now apply get_In|].
    split; [exact Eo|].
    split; [unfold is_live in Halive; simpl in Halive; now apply negb_true_iff in Halive|].
    split.
    { unfold same_file in Hmatch. simpl in Hmatch.
      destruct (app_file_manager_path session) as [p|]; [|discriminate].
      apply String.eqb_eq in Hmatch. now subst. }
    rewrite Hp. simpl. split; [exact Hnew|].
    assert (Hfix : let r2 := maybe_resume_session obj abspath new_session_id file_key
                               (set_sessions self after) in
                   outcome r2 = Return (Some session) /\ post r2 = set_sessions self after).
    { apply resume_fixed_point; simpl; try assumption.
      - apply forallb_forall. intros e He. destruct (Hfrom e He) as [->|Hl].
        + exact Halive.
        + apply filter_In in Hl. exact (proj2 Hl).
      - apply filter_unique_entry; [exact Hwa | exact Hnew
          | now rewrite (same_file_snd abspath file_key new_session_id session_id) |].
        intros k v Hkv Hm. destruct (Hfrom _ Hkv) as [Heq|Hl]; [congruence|].
        pose proof (Honly k v Hl Hm) as ->.
        destruct (String.eqb new_session_id session_id) eqn:Eid.
        * apply String.eqb_eq in Eid. congruence.
        * apply String.eqb_neq in Eid. apply (get_In _ _ Hwa) in Hkv.
          rewrite (Hold Eid) in Hkv. discriminate. }
    cbv zeta in Hfix. destruct Hfix as [Ho2 Hp2].
    destruct (maybe_resume_session obj abspath new_session_id file_key
                (set_sessions self after)) as [o2 p2 t2].
    simpl in *. now subst.
  - destruct Hrun as [Ho _]. rewrite Ho in Hout. discriminate.
Qed.

(* ------------------------------------------------------------------ *)
(** ** Creating a session *)
(* ------------------------------------------------------------------ *)

(** What the collaborators of [create_session] answer:
    [file_router.get_file_manager(file_key, ...).path]; the handle
    [message_distributor.add_consumer] returns for a consumer; whether
    [sys.platform] is win32; the profile path the kernel manager computes
    for a file name; what the started kernel task answers to [is_alive];
    whether an event loop is there for the heartbeat task. *)
Variable get_file_manager_path : MarimoFileKey -> option string.
Variable distributor_handle : SessionConsumer -> Disposable.
Variable win32 : bool.
Variable profile_path_of : option string -> option string.
Variable task_alive : bool.
Variable event_loop_running : bool.

(** [QueueManager(use_multiprocessing)]: empty queues. *)
Definition QueueManager_new (use_mp : bool) : QueueManager :=
  {| use_multiprocessing := use_mp;
     control_queue := [];
     set_ui_element_queue := [];
     has_win32_interrupt_queue := win32 |}.

(** [KernelManager(...)] once [start_kernel] has run: a process and a
    read connection in edit mode, a thread in run mode. *)
Definition started_kernel_manager (m : SessionMode) (filename : option string)
    : KernelManager :=
  {| kernel_task :=
       Some {| kind := if SessionMode_eqb m EDIT then Process else Thread;
               is_alive := task_alive |};
     profile_path := profile_path_of filename;
     _read_conn := if SessionMode_eqb m EDIT then Some tt else None |}.

(** The fields [Session.__init__] sets before it connects the consumer. *)
Definition Session_fields (initialization_id : string) (m : SessionMode)
    (path : option string) : Session :=
  {| initialization_id := initialization_id;
     app_file_manager_path := path;
     room := Room_new;
     _queue_manager := QueueManager_new (SessionMode_eqb m EDIT);
     kernel_manager := started_kernel_manager m path;
     session_cache_manager := None;
     heartbeat_task := if event_loop_running then Some tt else None;
     _closed := false;
     _unsubscribe_file_watcher_ := None |}.

(** [Session.create], that is [Session.__init__] on a fresh queue manager
    and kernel manager: the kernel is started, the Session View and then
    the consumer are subscribed to the distributor, the consumer becomes
    the main consumer of the new room, the distributor and the heartbeat
    are started. *)
Definition Session_create (initialization_id : string)
    (session_consumer : SessionConsumer) (m : SessionMode) (path : option string)
    : XRun Session unit :=
  (xemit [CallStartKernel m; CallDistributorAddView] >>>
   SessionFlow.connect_consumer obj session_consumer true
     (distributor_handle session_consumer) >>>
   xemit (CallDistributorStart
          :: if event_loop_running then [CallCreateHeartbeatTask] else []))
    (Session_fields initialization_id m path).

(** [session._unsubscribe_file_watcher_ = on_file_changed] *)
Definition set_unsubscribe_file_watcher (self : Session) : Session :=
  {| initialization_id := initialization_id self;
     app_file_manager_path := app_file_manager_path self;
     room := room self;
     _queue_manager := _queue_manager self;
     kernel_manager := kernel_manager self;
     session_cache_manager := session_cache_manager self;
     heartbeat_task := heartbeat_task self;
     _closed := _closed self;
     _unsubscribe_file_watcher_ := Some tt |}.

(** [SessionManager._start_file_watcher_for_session], on the session
    stored under [session_id]: the callback is kept on the session and
    registered with the watcher under the session's path. *)
Definition _start_file_watcher_for_session (session_id : SessionId) (session : Session)
    : X SessionManager unit :=
  fun self =>
    match app_file_manager_path session with
    | Some p =>
        if path_is_set (Some p)
        then mkXRun (Return tt)
               (set_sessions self
                  (PyDict.set (sessions self) session_id
                     (set_unsubscribe_file_watcher session)))
               [CallWatcherAddCallback p]
        else mkXRun (Return tt) self []
    | None => mkXRun (Return tt) self []
    end.

Definition recents_touch (path : option string) : list Call :=
  match path with
  | Some p => if path_is_set (Some p) then [CallRecentsTouch p] else []
  | None => []
  end.

(** [self.sessions[session_id] = session] *)
Definition store_session (session_id : SessionId) (session : Session)
    : X SessionManager unit :=
  fun self =>
    mkXRun (Return tt)
      (set_sessions self (PyDict.set (sessions self) session_id session)) [].

(** [self.sessions[session_id]] *)
Definition sessions_getitem (session_id : SessionId) : X SessionManager Session :=
  fun self =>
    match PyDict.get (sessions self) session_id with
    | Some session => mkXRun (Return session) self []
    | None => mkXRun (Raise KeyError) self []
    end.

(** [Session.create(...)] called by the manager, in the manager's mode. *)
Definition call_Session_create (file_key : MarimoFileKey)
    (session_consumer : SessionConsumer) (path : option string)
    : X SessionManager Session :=
  fun self =>
    match Session_create file_key session_consumer (mode self) path with
    | mkXRun (Raise e) _ cs => mkXRun (Raise e) self cs
    | mkXRun (Return _) session cs => mkXRun (Return session) self cs
    end.

(** [SessionManager.create_session] *)
Definition create_session (session_id : SessionId) (session_consumer : SessionConsumer)
    (file_key : MarimoFileKey) : X SessionManager Session :=
  xbind
    (fun self =>
       if negb (PyDict.mem (sessions self) session_id)
       then
         (let path := get_file_manager_path file_key in
          xemit (recents_touch path) >>>
          xbind (call_Session_create file_key session_consumer path)
            (fun session =>
               store_session session_id session >>>
               (fun stored =>
                  if watch stored && path_is_set path
                  then _start_file_watcher_for_session session_id session stored
                  else xret tt stored))) self
       else xret tt self)
    (fun _ => sessions_getitem session_id).

(** The session [Session.create] builds. *)
Definition created_session (file_key : MarimoFileKey) (c : SessionConsumer)
    (m : SessionMode) : Session :=
  set_room (Session_fields file_key m (get_file_manager_path file_key))
    {| main_consumer := Some c;
       consumers := [(c, consumer_id (obj c))];
       disposables := [(c, distributor_handle c)] |}.

Definition creation_calls (c : SessionConsumer) (m : SessionMode) : list Call :=
  [CallStartKernel m; CallDistributorAddView; CallOnStart c;
   CallDistributorAddConsumer c; CallDistributorStart]
  ++ (if event_loop_running then [CallCreateHeartbeatTask] else []).

Lemma Session_create_run (file_key : MarimoFileKey) (c : SessionConsumer) (m : SessionMode) :
  Session_create file_key c m (get_file_manager_path file_key)
  = mkXRun (Return tt) (created_session file_key c m) (creation_calls c m).
Proof.
  unfold Session_create, xbind, xemit. rewrite SessionFlow.connect_consumer_run.
  reflexivity.
Qed.

(** The session as [create_session] stores it. *)
Definition new_session (self : SessionManager) (file_key : MarimoFileKey)
    (c : SessionConsumer) : Session :=
  if watch self && path_is_set (get_file_manager_path file_key)
  then set_unsubscribe_file_watcher (created_session file_key c (mode self))
  else created_session file_key c (mode self).

Definition watcher_add (self : SessionManager) (file_key : MarimoFileKey) : list Call :=
  if watch self && path_is_set (get_file_manager_path file_key)
  then match get_file_manager_path file_key with
       | Some p => [CallWatcherAddCallback p]
       | None => []
       end
  else [].

Lemma create_session_new (self : SessionManager) (session_id : SessionId)
    (c : SessionConsumer) (file_key : MarimoFileKey) :
  PyDict.get (sessions self) session_id = None ->
  create_session session_id c file_key self
  = mkXRun (Return (new_session self file_key c))
      (set_sessions self (sessions self ++ [(session_id, new_session self file_key c)]))
      (recents_touch (get_file_manager_path file_key)
       ++ creation_calls c (mode self) ++ watcher_add self file_key).
Proof.
  intros Hnone.
  assert (Hfresh : ~ In session_id (PyDict.keys (sessions self)))
    by (now apply get_None_keys).
  unfold create_session, xbind at 1. unfold PyDict.mem. rewrite Hnone. cbn [negb].
  cbv zeta. unfold xbind, xemit, call_Session_create, store_session, sessions_getitem, xret.
  rewrite Session_create_run.
  unfold new_session, watcher_add, _start_file_watcher_for_session.
  cbn [sessions set_sessions watch mode].
  rewrite (@PyDictEntries.set_fresh _ _ _ (sessions self) session_id
             (created_session file_key c (mode self)) Hfresh).
  destruct (watch self && path_is_set (get_file_manager_path file_key)) eqn:Ew.
  - apply andb_true_iff in Ew. destruct Ew as [_ Hp].
    change (app_file_manager_path (created_session file_key c (mode self)))
      with (get_file_manager_path file_key).
    destruct (get_file_manager_path file_key) as [p|] eqn:Ep; [|discriminate].
    rewrite Hp. cbn [sessions set_sessions].
    rewrite (@PyDictEntries.set_last _ _ _ (sessions self) session_id
               (created_session file_key c (mode self))
               (set_unsubscribe_file_watcher (created_session file_key c (mode self)))
               Hfresh).
    rewrite (@PyDictEntries.get_last _ _ _ (sessions self) session_id
               (set_unsubscribe_file_watcher (created_session file_key c (mode self)))
               Hfresh).
    f_equal. now rewrite !app_nil_r.
  - cbn [sessions set_sessions].
    rewrite (@PyDictEntries.get_last _ _ _ (sessions self) session_id
               (created_session file_key c (mode self)) Hfresh).
    f_equal. now rewrite !app_nil_r.
Qed.

Lemma create_session_stored (self : SessionManager) (session_id : SessionId)
    (c : SessionConsumer) (file_key : MarimoFileKey) (stored : Session) :
  PyDict.get (sessions self) session_id = Some stored ->
  create_session session_id c file_key self = mkXRun (Return stored) self [].
Proof.
  intros Hget. unfold create_session, xbind, sessions_getitem, xret, PyDict.mem.
  rewrite Hget. cbn [negb]. now rewrite Hget.
Qed.

(** X26. [create_session] is get-or-create.  For an id that is stored it
    returns the stored session, calls nothing and changes nothing: the
    consumer and the file key that were passed are ignored.  For a new id
    it builds a session for the file key whose only consumer is the given
    one, as main consumer; the session goes last in the map, reports what
    that consumer reports, has a started kernel, and carries a
    file-watcher callback exactly when the manager watches and the file
    has a path.  A second call under the same id, with any consumer and
    key, returns that same session. *)
Theorem create_session_gets_or_creates :
  forall (self : SessionManager) (session_id : SessionId) (c : SessionConsumer)
         (file_key : MarimoFileKey),
    let x := create_session session_id c file_key self in
    (forall stored,
        PyDict.get (sessions self) session_id = Some stored ->
        x = mkXRun (Return stored) self [])
    /\ (PyDict.get (sessions self) session_id = None ->
        exists session,
          xoutcome x = Return session
          /\ sessions (xpost x) = sessions self ++ [(session_id, session)]
          /\ mode (xpost x) = mode self /\ watch (xpost x) = watch self
          /\ initialization_id session = file_key
          /\ app_file_manager_path session = get_file_manager_path file_key
          /\ room session = {| main_consumer := Some c;
                               consumers := [(c, consumer_id (obj c))];
                               disposables := [(c, distributor_handle c)] |}
          /\ Session_connection_state obj session = connection_state (obj c)
          /\ kernel_task (kernel_manager session) <> None
          /\ (_unsubscribe_file_watcher_ session <> None <->
              watch self && path_is_set (get_file_manager_path file_key) = true)
          /\ calls x = recents_touch (get_file_manager_path file_key)
                       ++ creation_calls c (mode self) ++ watcher_add self file_key
          /\ (forall c' file_key',
                create_session session_id c' file_key' (xpost x)
                = mkXRun (Return session) (xpost x) [])).
Proof.
  intros self session_id c file_key x. split.
  - intros stored Hget. subst x. now apply create_session_stored.
  - intros Hnone. subst x. rewrite (@create_session_new self session_id c file_key Hnone).
    assert (Hfresh : ~ In session_id (PyDict.keys (sessions self)))
      by (now apply get_None_keys).
    exists (new_session self file_key c). cbn [xoutcome xpost calls sessions set_sessions mode watch].
    split; [reflexivity|]. split; [reflexivity|]. split; [reflexivity|].
    split; [reflexivity|].
    unfold new_session.
    destruct (watch self && path_is_set (get_file_manager_path file_key)) eqn:Ew.
    + split; [reflexivity|]. split; [reflexivity|]. split; [reflexivity|].
      split; [reflexivity|]. split; [discriminate|].
      split; [split; [reflexivity | discriminate]|].
      split; [reflexivity|].
      intros c' file_key'. apply create_session_stored. cbn [sessions set_sessions].
      now apply PyDictEntries.get_last.
    + split; [reflexivity|]. split; [reflexivity|]. split; [reflexivity|].
      split; [reflexivity|]. split; [discriminate|].
      split; [split; [intros Hn; now contradiction Hn | discriminate]|].
      split; [reflexivity|].
      intros c' file_key'. apply create_session_stored. cbn [sessions set_sessions].
      now apply PyDictEntries.get_last.
Qed.

(** X27. A session made by [create_session] can be closed by
    [close_session] under the same id whenever the stop hook of its
    consumer does not raise: the callback that [close_session] hands to
    the file watcher is there whenever it is needed, the consumer is
    stopped and disposed of, the distributor is stopped, the heartbeat is
    cancelled if it was started, the kernel is closed, and the manager is
    left exactly as it was before the session was created. *)
Theorem created_session_closes_and_leaves_manager_as_before :
  forall (self : SessionManager) (session_id : SessionId) (c : SessionConsumer)
         (file_key : MarimoFileKey),
    PyDict.get (sessions self) session_id = None ->
    on_stop_raises (obj c) = false ->
    let x := create_session session_id c file_key self in
    let session := new_session self file_key c in
    let r := close_session obj session_id (xpost x) in
    xoutcome x = Return session
    /\ outcome r = Return true
    /\ post r = self
    /\ trace r
       = watcher_removal (watch self) session
         ++ [EvOnStop c; EvDispose c (distributor_handle c); EvDistributorStop]
         ++ (if event_loop_running then [EvHeartbeatCancel] else [])
         ++ trace (close_kernel (kernel_manager session) (_queue_manager session))
    /\ (forall p, In (Core (EvWatcherRemoveCallback p)) (map Core (trace r)) <->
                  In (CallWatcherAddCallback p) (calls x)).
Proof.
  intros self session_id c file_key Hnone Hstop x session r.
  assert (Hfresh : ~ In session_id (PyDict.keys (sessions self)))
    by (now apply get_None_keys).
  assert (Hx : x = mkXRun (Return session)
                     (set_sessions self (sessions self ++ [(session_id, session)]))
                     (recents_touch (get_file_manager_path file_key)
                      ++ creation_calls c (mode self) ++ watcher_add self file_key))
    by (apply create_session_new; exact Hnone).
  assert (Hroom : room session = {| main_consumer := Some c;
                                    consumers := [(c, consumer_id (obj c))];
                                    disposables := [(c, distributor_handle c)] |}).
  { subst session. unfold new_session.
    now destruct (watch self && path_is_set (get_file_manager_path file_key)). }
  assert (Hcloses : room_closes obj (room session)).
  { rewrite Hroom. split; [reflexivity|]. split.
    - intros c0 [<-|[]]. unfold PyDict.mem. simpl. now rewrite Nat.eqb_refl.
    - intros c0 [<-|[]]. exact Hstop. }
  assert (Hopen : _closed session = false).
  { subst session. unfold new_session.
    now destruct (watch self && path_is_set (get_file_manager_path file_key)). }
  assert (Hkm : kernel_task (kernel_manager session) <> None).
  { subst session. unfold new_session.
    destruct (watch self && path_is_set (get_file_manager_path file_key)); discriminate. }
  assert (Hhb : heartbeat_task session = if event_loop_running then Some tt else None).
  { subst session. unfold new_session.
    now destruct (watch self && path_is_set (get_file_manager_path file_key)). }
  assert (Hcm : session_cache_manager session = None).
  { subst session. unfold new_session.
    now destruct (watch self && path_is_set (get_file_manager_path file_key)). }
  assert (Hpath : app_file_manager_path session = get_file_manager_path file_key).
  { subst session. unfold new_session.
    now destruct (watch self && path_is_set (get_file_manager_path file_key)). }
  assert (Hunsub : watch self && path_is_set (get_file_manager_path file_key) = true ->
                   _unsubscribe_file_watcher_ session = Some tt).
  { intros Hw. subst session. unfold new_session. now rewrite Hw. }
  pose proof (@Session_close_first obj session Hopen Hcloses) as Hclose.
  pose proof (@close_kernel_returns (kernel_manager session) (_queue_manager session) Hkm)
    as Hkernel.
  assert (Hok : closes_cleanly obj (watch self) session = true).
  { unfold closes_cleanly. rewrite Hclose. cbn [outcome]. rewrite Hkernel.
    rewrite andb_true_r. rewrite Hpath, andb_comm.
    destruct (watch self && path_is_set (get_file_manager_path file_key)) eqn:Ew;
      [|reflexivity].
    now rewrite (Hunsub eq_refl). }
  assert (Hfound : get_session_entry (xpost x) session_id = Some (session_id, session)).
  { rewrite Hx. unfold get_session_entry. cbn [xpost sessions set_sessions].
    now rewrite (@PyDictEntries.get_last _ _ _ (sessions self) session_id session Hfresh). }
  assert (Hwatch : watch (xpost x) = watch self) by (now rewrite Hx).
  assert (Hr : r = returns true self
                     (watcher_removal (watch self) session
                      ++ trace (Session_close obj session))).
  { subst r. rewrite <- Hwatch in Hok.
    rewrite (@close_session_found (xpost x) session_id session_id session Hfound Hok).
    rewrite Hwatch. f_equal. rewrite Hx. cbv zeta. cbn [xpost sessions set_sessions].
    rewrite (@PyDictEntries.set_last _ _ _ (sessions self) session_id session
               (post (Session_close obj session)) Hfresh).
    assert (Hmem : PyDict.mem (sessions self ++ [(session_id, post (Session_close obj session))])
                     session_id = true).
    { unfold PyDict.mem.
      now rewrite (@PyDictEntries.get_last _ _ _ (sessions self) session_id
                     (post (Session_close obj session)) Hfresh). }
    rewrite Hmem, (@PyDictEntries.del_last _ _ _ (sessions self) session_id
                     (post (Session_close obj session)) Hfresh).
    unfold set_sessions. cbn [mode watch]. now destruct self. }
  assert (Htrace : trace (Session_close obj session)
                   = [EvOnStop c; EvDispose c (distributor_handle c); EvDistributorStop]
                     ++ (if event_loop_running then [EvHeartbeatCancel] else [])
                     ++ trace (close_kernel (kernel_manager session) (_queue_manager session))).
  { rewrite Hclose. cbn [trace]. unfold heartbeat_events, cache_events.
    rewrite Hroom, Hhb, Hcm. unfold stop_events. simpl. rewrite Nat.eqb_refl. simpl.
    now destruct event_loop_running. }
  split; [now rewrite Hx|]. split; [now rewrite Hr|]. split; [now rewrite Hr|].
  split; [rewrite Hr; cbn [trace]; now rewrite Htrace|].
  intros p. rewrite In_map_Core, Hr, Hx. unfold returns. cbn [trace calls].
  assert (Hrem : watcher_removal (watch self) session
                 = if watch self && path_is_set (get_file_manager_path file_key)
                   then match get_file_manager_path file_key with
                        | Some p0 => [EvWatcherRemoveCallback p0]
                        | None => []
                        end
                   else []).
  { unfold watcher_removal. rewrite Hpath.
    now rewrite (andb_comm (path_is_set (get_file_manager_path file_key)) (watch self)). }
  rewrite Hrem. unfold watcher_add. rewrite !in_app_iff.
  assert (Hno : ~ In (EvWatcherRemoveCallback p) (trace (Session_close obj session))).
  { intros Hin.
    assert (Hex : existsb is_watcher_call (trace (Session_close obj session)) = true).
    { apply existsb_exists. exists (EvWatcherRemoveCallback p). now split. }
    rewrite (Session_close_no_watcher session) in Hex. discriminate. }
  assert (Hnc : ~ In (CallWatcherAddCallback p) (creation_calls c (mode self))).
  { unfold creation_calls. destruct event_loop_running; simpl; intros H;
      repeat (destruct H as [H|H]; [discriminate|]); exact H. }
  assert (Hnt : ~ In (CallWatcherAddCallback p)
                  (recents_touch (get_file_manager_path file_key))).
  { unfold recents_touch. destruct (get_file_manager_path file_key) as [p0|];
      [destruct (path_is_set (Some p0))|]; simpl; intros H;
      repeat (destruct H as [H|H]; [discriminate|]); exact H. }
  assert (Hev : forall p0, In (EvWatcherRemoveCallback p) [EvWatcherRemoveCallback p0]
                           <-> p0 = p).
  { intros p0. simpl. split; [intros [H|[]]; congruence | intros ->; now left]. }
  assert (Hca : forall p0, In (CallWatcherAddCallback p) [CallWatcherAddCallback p0]
                           <-> p0 = p).
  { intros p0. simpl. split; [intros [H|[]]; congruence | intros ->; now left]. }
  destruct (watch self && path_is_set (get_file_manager_path file_key));
    [destruct (get_file_manager_path file_key) as [p0|]|].
  - split.
    + intros [H|H]; [|contradiction (Hno H)].
      right. right. apply Hca. now apply Hev.
    + intros [H|[H|H]]; [contradiction (Hnt H) | contradiction (Hnc H) |].
      left. apply Hev. now apply Hca.
  - split.
    + intros [[]|H]. contradiction (Hno H).
    + intros [H|[H|[]]]; [contradiction (Hnt H) | contradiction (Hnc H)].
  - split.
    + intros [[]|H]. contradiction (Hno H).
    + intros [H|[H|[]]]; [contradiction (Hnt H) | contradiction (Hnc H)].
Qed.

(* ------------------------------------------------------------------ *)
(** ** The file-watcher callback *)
(* ------------------------------------------------------------------ *)

(** [enumerate(cell_ids)] *)
Fixpoint enumerate_from {A : Type} (n : nat) (l : list A) : list (nat * A) :=
  match l with
  | [] => []
  | a :: rest => (n, a) :: enumerate_from (S n) rest
  end.

(** [{cell_id: idx for idx, cell_id in enumerate(cell_ids)}] *)
Definition cell_ids_to_idx (cell_ids : list CellId_t) : dict CellId_t nat :=
  fold_left (fun d entry => PyDict.set d (snd entry) (fst entry))
            (enumerate_from 0 cell_ids) [].

(** [[codes[cell_ids_to_idx[cell_id]] for cell_id in changed_cell_ids_list]];
    [None] stands for the [KeyError] of an id that is not a key.  The
    indices stored in the map are positions of [cell_ids], which is as long
    as [codes]. *)
Fixpoint changed_codes (codes : list string) (to_idx : dict CellId_t nat)
    (changed_cell_ids_list : list CellId_t) : option (list string) :=
  match changed_cell_ids_list with
  | [] => Some []
  | cell_id :: rest =>
      match PyDict.get to_idx cell_id with
      | None => None
      | Some idx => option_map (cons (nth idx codes "")) (changed_codes codes to_idx rest)
      end
  end.

Definition path_eqb (p : option string) (q : string) : bool :=
  match p with
  | Some s => String.eqb s q
  | None => false
  end.

(** The callback [on_file_changed] that
    [_start_file_watcher_for_session] registers for a session, in a
    manager of mode [m].  [reloaded] is what
    [session.app_file_manager.reload()] answers: the ids of the changed
    cells, or [None] when it raises.  [cell_data] are the cells of the
    notebook after the reload, by id and code, in notebook order;
    [should_autorun] is whether the configuration says [autorun]. *)
Definition on_file_changed (m : SessionMode) (path : string)
    (reloaded : option (list CellId_t)) (cell_data : list (CellId_t * string))
    (should_autorun : bool) : X Session unit :=
  fun session =>
    if negb (path_eqb (app_file_manager_path session) (abspath path))
    then xret tt session
    else
      match reloaded with
      | None => xret tt session
      | Some changed_cell_ids =>
          if SessionMode_eqb m RUN
          then SessionFlow.write_operation obj Reload None session
          else
            let codes := map snd cell_data in
            let cell_ids := map fst cell_data in
            (SessionFlow.write_operation obj (UpdateCellIdsRequest cell_ids) None >>>
             if should_autorun
             then
               match changed_codes codes (cell_ids_to_idx cell_ids) changed_cell_ids with
               | None => fun s => mkXRun (Raise KeyError) s []
               | Some changed =>
                   xlift (put_control_request obj
                            (ExecuteMultipleRequest changed_cell_ids changed) None)
               end
             else SessionFlow.write_operation obj (UpdateCellCodes cell_ids codes true) None)
              session
      end.

Definition writes_to_open_consumers (session : Session) (operation : MessageOperation)
    : list Call :=
  map Core (notified obj session operation None).

(** X28. The file-watcher callback does nothing for a path that is not
    the session's, and nothing when reloading the file fails.  In run
    mode it only sends [Reload], whatever the configuration says about
    autorun.  In edit mode without autorun it sends the cell ids and then
    the codes, marked stale, and nothing is put on the control queue.  In
    all these cases the callback returns, the session is left as it was,
    and each operation is recorded in the Session View before it is
    written to the open consumers. *)
Theorem file_change_without_autorun_only_notifies :
  forall (m : SessionMode) (path : string) (reloaded : option (list CellId_t))
         (cell_data : list (CellId_t * string)) (should_autorun : bool)
         (session : Session),
    let x := on_file_changed m path reloaded cell_data should_autorun session in
    let cell_ids := map fst cell_data in
    let codes := map snd cell_data in
    (app_file_manager_path session <> Some (abspath path) ->
     x = mkXRun (Return tt) session [])
    /\ (reloaded = None -> x = mkXRun (Return tt) session [])
    /\ (app_file_manager_path session = Some (abspath path) ->
        reloaded <> None ->
        m = RUN ->
        x = mkXRun (Return tt) session
              (CallViewAddOperation Reload :: writes_to_open_consumers session Reload))
    /\ (app_file_manager_path session = Some (abspath path) ->
        reloaded <> None ->
        m = EDIT ->
        should_autorun = false ->
        x = mkXRun (Return tt) session
              (CallViewAddOperation (UpdateCellIdsRequest cell_ids)
               :: writes_to_open_consumers session (UpdateCellIdsRequest cell_ids)
               ++ CallViewAddOperation (UpdateCellCodes cell_ids codes true)
               :: writes_to_open_consumers session (UpdateCellCodes cell_ids codes true))).
Proof.
  intros m path reloaded cell_data should_autorun session x cell_ids codes. subst x.
  unfold on_file_changed, path_eqb, writes_to_open_consumers, notified.
  split; [|split; [|split]].
  - intros Hne. destruct (app_file_manager_path session) as [p|]; [|reflexivity].
    destruct (String.eqb p (abspath path)) eqn:Eq; [|reflexivity].
    apply String.eqb_eq in Eq. congruence.
  - intros ->. destruct (app_file_manager_path session) as [p|]; [|reflexivity].
    now destruct (String.eqb p (abspath path)).
  - intros -> Hre ->. rewrite String.eqb_refl. cbn [negb SessionMode_eqb].
    destruct reloaded as [changed|]; [|now contradiction Hre].
    now rewrite SessionFlow.write_operation_run.
  - intros -> Hre -> ->. rewrite String.eqb_refl. cbn [negb SessionMode_eqb].
    destruct reloaded as [changed|]; [|now contradiction Hre].
    cbv zeta. unfold xbind. now rewrite !SessionFlow.write_operation_run.
Qed.

Lemma cell_ids_to_idx_other (cell_id : CellId_t) (l : list CellId_t) :
  forall (n : nat) (d : dict CellId_t nat),
    ~ In cell_id l ->
    PyDict.get (fold_left (fun d entry => PyDict.set d (snd entry) (fst entry))
                          (enumerate_from n l) d) cell_id
    = PyDict.get d cell_id.
Proof.
  induction l as [|a l IH]; intros n d Hn; simpl; [reflexivity|].
  rewrite IH by (intros Hin; apply Hn; now right).
  apply get_set_other. intros ->. apply Hn. now left.
Qed.

Lemma cell_ids_to_idx_at (cell_id : CellId_t) (l : list CellId_t) :
  forall (n i : nat) (d : dict CellId_t nat),
    NoDup l ->
    nth_error l i = Some cell_id ->
    PyDict.get (fold_left (fun d entry => PyDict.set d (snd entry) (fst entry))
                          (enumerate_from n l) d) cell_id
    = Some (n + i).
Proof.
  induction l as [|a l IH]; intros n i d Hnd Hi; [destruct i; discriminate|].
  inversion Hnd as [|? ? Hnot Hrest]; subst. destruct i as [|i]; simpl in *.
  - injection Hi as ->. rewrite cell_ids_to_idx_other by assumption.
    rewrite get_set_same. f_equal. lia.
  - rewrite (IH (S n) i _ Hrest Hi). f_equal. lia.
Qed.

Lemma changed_codes_current (cell_data : list (CellId_t * string))
    (changed : list CellId_t) :
  NoDup (map fst cell_data) ->
  (forall cell_id, In cell_id changed -> In cell_id (map fst cell_data)) ->
  exists codes,
    changed_codes (map snd cell_data) (cell_ids_to_idx (map fst cell_data)) changed
    = Some codes
    /\ Forall2 (fun cell_id code => In (cell_id, code) cell_data) changed codes.
Proof.
  intros Hnd. induction changed as [|cell_id rest IH]; intros Hin; simpl.
  - exists []. split; [reflexivity | constructor].
  - destruct IH as (codes & Hc & Hall); [intros c Hc; apply Hin; now right|].
    assert (Hid : In cell_id (map fst cell_data)) by (apply Hin; now left).
    apply in_map_iff in Hid. destruct Hid as ([id0 code] & Hfst & Hcell).
    simpl in Hfst. subst id0.
    destruct (In_nth_error _ _ Hcell) as [i Hi].
    assert (Hi1 : nth_error (map fst cell_data) i = Some cell_id)
      by (rewrite nth_error_map, Hi; reflexivity).
    assert (Hi2 : nth_error (map snd cell_data) i = Some code)
      by (rewrite nth_error_map, Hi; reflexivity).
    unfold cell_ids_to_idx at 1.
    rewrite (@cell_ids_to_idx_at cell_id (map fst cell_data) 0 i [] Hnd Hi1). simpl.
    fold (cell_ids_to_idx (map fst cell_data)). rewrite Hc. simpl.
    exists (nth i (map snd cell_data) "" :: codes). split; [reflexivity|].
    constructor; [|exact Hall].
    now rewrite (nth_error_nth _ _ "" Hi2).
Qed.

Lemma changed_codes_missing (codes : list string) (cell_ids changed : list CellId_t) :
  (exists cell_id, In cell_id changed /\ ~ In cell_id cell_ids) ->
  changed_codes codes (cell_ids_to_idx cell_ids) changed = None.
Proof.
  intros (cell_id & Hin & Hnot).
  induction changed as [|c rest IH]; simpl; [contradiction|].
  destruct (PyDict.get (cell_ids_to_idx cell_ids) c) as [idx|] eqn:Eg; [|reflexivity].
  destruct Hin as [->|Hin].
  - unfold cell_ids_to_idx in Eg. rewrite cell_ids_to_idx_other in Eg by assumption.
    discriminate.
  - now rewrite (IH Hin).
Qed.

(** X29. With autorun, in edit mode, a change of the session's file
    sends the cell ids to the open consumers and then puts exactly one
    [ExecuteMultipleRequest] on the control queue: it names the changed
    cells and carries, for each of them, the code that cell has after the
    reload.  The consumers get those codes as not stale.  When a changed
    id is not a cell of the notebook any more, the callback raises
    [KeyError] after the cell ids were sent, and the control queue is
    left alone. *)
Theorem file_change_with_autorun_runs_changed_cells :
  forall (path : string) (changed_cell_ids : list CellId_t)
         (cell_data : list (CellId_t * string)) (session : Session),
    app_file_manager_path session = Some (abspath path) ->
    NoDup (map fst cell_data) ->
    let x := on_file_changed EDIT path (Some changed_cell_ids) cell_data true session in
    let cell_ids := map fst cell_data in
    ((forall cell_id, In cell_id changed_cell_ids -> In cell_id cell_ids) ->
     exists codes,
       Forall2 (fun cell_id code => In (cell_id, code) cell_data) changed_cell_ids codes
       /\ xoutcome x = Return tt
       /\ control_queue (_queue_manager (xpost x))
          = control_queue (_queue_manager session)
            ++ [ExecuteMultipleRequest changed_cell_ids codes]
       /\ room (xpost x) = room session
       /\ calls x
          = CallViewAddOperation (UpdateCellIdsRequest cell_ids)
            :: writes_to_open_consumers session (UpdateCellIdsRequest cell_ids)
            ++ writes_to_open_consumers session
                 (UpdateCellCodes changed_cell_ids codes false)
            ++ match changed_cell_ids with
               | [cell_id] => writes_to_open_consumers session (FocusCell cell_id)
               | _ => []
               end
            ++ [Core (EvViewAddControlRequest
                        (ExecuteMultipleRequest changed_cell_ids codes))])
    /\ ((exists cell_id, In cell_id changed_cell_ids /\ ~ In cell_id cell_ids) ->
        xoutcome x = Raise KeyError
        /\ xpost x = session
        /\ calls x
           = CallViewAddOperation (UpdateCellIdsRequest cell_ids)
             :: writes_to_open_consumers session (UpdateCellIdsRequest cell_ids)).
Proof.
  intros path changed_cell_ids cell_data session Hpath Hnd x cell_ids.
  assert (Hx : x = (SessionFlow.write_operation obj (UpdateCellIdsRequest cell_ids) None >>>
                    match changed_codes (map snd cell_data) (cell_ids_to_idx cell_ids)
                            changed_cell_ids with
                    | None => fun s => mkXRun (Raise KeyError) s []
                    | Some changed =>
                        xlift (put_control_request obj
                                 (ExecuteMultipleRequest changed_cell_ids changed) None)
                    end) session).
  { subst x. unfold on_file_changed, path_eqb. rewrite Hpath, String.eqb_refl. reflexivity. }
  split.
  - intros Hin.
    destruct (@changed_codes_current cell_data changed_cell_ids Hnd Hin)
      as (codes & Hc & Hall).
    exists codes. split; [exact Hall|].
    rewrite Hx. fold cell_ids in Hc. rewrite Hc.
    unfold xbind. rewrite SessionFlow.write_operation_run. unfold xlift.
    pose proof (@put_control_request_run obj session
                  (ExecuteMultipleRequest changed_cell_ids codes) None) as Hput.
    cbv zeta in Hput.
    destruct (put_control_request obj (ExecuteMultipleRequest changed_cell_ids codes) None
                session) as [o s' tr].
    cbn [outcome post trace] in Hput.
    destruct Hput as (Ho & Hq & _ & Htr & Hroom & _).
    cbn [xoutcome xpost calls]. subst o.
    split; [reflexivity|]. split; [exact Hq|]. split; [exact Hroom|].
    rewrite Htr. unfold writes_to_open_consumers. cbn [app].
    f_equal. rewrite !map_app. rewrite <- !app_assoc. f_equal. f_equal.
    destruct changed_cell_ids as [|c1 [|c2 more]]; reflexivity.
  - intros Hmiss.
    rewrite Hx.
    rewrite (@changed_codes_missing (map snd cell_data) cell_ids changed_cell_ids Hmiss).
    unfold xbind. rewrite SessionFlow.write_operation_run.
    cbn [xoutcome xpost calls]. rewrite app_nil_r.
    split; [reflexivity|]. split; reflexivity.
Qed.

(* ------------------------------------------------------------------ *)
(** ** Renaming the file of a session *)
(* ------------------------------------------------------------------ *)

(** [os.path.exists], and [str(e)] of a caught exception. *)
Variable os_path_exists : string -> bool.
Variable str_of_exception : Exception -> string.

(** [session.session_cache_manager.rename_path(new_path)], when the
    session has a cache manager. *)
Definition rename_session_cache (new_path : string) (session : Session)
    : Session * list Call :=
  match session_cache_manager session with
  | Some m =>
      match SerializeFlow.rename_path new_path m with
      | mkXRun _ m' cs => (set_session_cache_manager session (Some m'), cs)
      end
  | None => (session, [])
  end.

(** [SessionManager.handle_file_rename_for_watch].  The session found is
    the object stored under [stored_id]; what is done to it shows there.
    Inside the [try], reading [session._unsubscribe_file_watcher_] raises
    [AttributeError] when no watcher was ever started for the session;
    the handler starts one and reports the failure. *)
Definition handle_file_rename_for_watch (session_id : SessionId)
    (prev_path : option string) (new_path : string)
    : X SessionManager (bool * option string) :=
  fun self =>
    match get_session_entry self session_id with
    | None => mkXRun (Return (false, Some "Session not found")) self []
    | Some (stored_id, session) =>
        if negb (os_path_exists new_path)
        then mkXRun (Return (false, Some ("File " ++ new_path ++ " does not exist")%string))
               self []
        else if negb (path_is_set (app_file_manager_path session))
        then mkXRun (Return (false, Some "Session has no associated file")) self []
        else
          let (renamed, cs) := rename_session_cache new_path session in
          let stored :=
            set_sessions self (PyDict.set (sessions self) stored_id renamed) in
          if watch self
          then
            match (if path_is_set prev_path
                   then match _unsubscribe_file_watcher_ renamed, prev_path with
                        | Some _, Some prev =>
                            Return [Core (EvWatcherRemoveCallback prev)]
                        | _, _ => Raise (AttributeError "_unsubscribe_file_watcher_")
                        end
                   else Return []) with
            | Return removal =>
                match _start_file_watcher_for_session stored_id renamed stored with
                | mkXRun _ watched cs' =>
                    mkXRun (Return (true, None)) watched (cs ++ removal ++ cs')
                end
            | Raise e =>
                match _start_file_watcher_for_session stored_id renamed stored with
                | mkXRun _ watched cs' =>
                    mkXRun (Return (false, Some (str_of_exception e))) watched (cs ++ cs')
                end
            end
          else mkXRun (Return (true, None)) stored cs
    end.

Definition cache_rename_calls (new_path : string) (session : Session) : list Call :=
  match session_cache_manager session with
  | Some m =>
      (match Serialize.session_cache_writer m with
       | Some _ => [Core EvWriterStopSync]
       | None => []
       end) ++ [CallWriterStart new_path]
  | None => []
  end.

(** The session once its file was renamed under a watching manager. *)
Definition renamed_session (new_path : string) (session : Session) : Session :=
  set_unsubscribe_file_watcher (fst (rename_session_cache new_path session)).

Lemma rename_session_cache_run (new_path : string) (session : Session) :
  snd (rename_session_cache new_path session) = cache_rename_calls new_path session
  /\ app_file_manager_path (fst (rename_session_cache new_path session))
     = app_file_manager_path session
  /\ _unsubscribe_file_watcher_ (fst (rename_session_cache new_path session))
     = _unsubscribe_file_watcher_ session
  /\ room (fst (rename_session_cache new_path session)) = room session
  /\ session_cache_manager (fst (rename_session_cache new_path session))
     = option_map (fun m => {| Serialize.session_view := Serialize.session_view m;
                               Serialize.path := Some new_path;
                               Serialize.interval := Serialize.interval m;
                               Serialize.session_cache_writer := Some tt |})
                  (session_cache_manager session).
Proof.
  unfold rename_session_cache, cache_rename_calls.
  destruct (session_cache_manager session) as [[v p i [[]|]]|] eqn:Em; simpl;
    repeat split; try reflexivity; now rewrite Em.
Qed.

(** X30. [handle_file_rename_for_watch] reports a failure, calls nothing
    and changes nothing when no session is found for the id, when the new
    file does not exist, and when the session has no file.  Otherwise the
    cache writer of the session, if it has a cache manager, is restarted
    on the new path.  A manager that does not watch stops there and
    reports success.  A watching manager then removes the callback under
    the previous path, if there was one, and registers a callback under
    the path of the session; it reports success, and the session stored
    afterwards carries a callback.  When there was a previous path but
    no callback on the session, the failure is reported although the new
    callback is registered all the same. *)
Theorem file_rename_restarts_cache_writer_and_watcher :
  forall (self : SessionManager) (session_id : SessionId)
         (prev_path : option string) (new_path : string),
    let x := handle_file_rename_for_watch session_id prev_path new_path self in
    (get_session self session_id = None ->
     x = mkXRun (Return (false, Some "Session not found")) self [])
    /\ (forall stored_id session p,
          get_session_entry self session_id = Some (stored_id, session) ->
          (os_path_exists new_path = false ->
           x = mkXRun (Return (false, Some ("File " ++ new_path ++ " does not exist")%string))
                 self [])
          /\ (os_path_exists new_path = true ->
              path_is_set (app_file_manager_path session) = false ->
              x = mkXRun (Return (false, Some "Session has no associated file")) self [])
          /\ (os_path_exists new_path = true ->
              app_file_manager_path session = Some p ->
              path_is_set (Some p) = true ->
              (watch self = false ->
               x = mkXRun (Return (true, None))
                     (set_sessions self
                        (PyDict.set (sessions self) stored_id
                           (fst (rename_session_cache new_path session))))
                     (cache_rename_calls new_path session))
              /\ (watch self = true ->
                  xpost x
                  = set_sessions self
                      (PyDict.set (sessions self) stored_id
                         (renamed_session new_path session))
                  /\ _unsubscribe_file_watcher_ (renamed_session new_path session) = Some tt
                  /\ (path_is_set prev_path = false ->
                      xoutcome x = Return (true, None)
                      /\ calls x = cache_rename_calls new_path session
                                   ++ [CallWatcherAddCallback p])
                  /\ (forall prev, prev_path = Some prev -> path_is_set prev_path = true ->
                      _unsubscribe_file_watcher_ session <> None ->
                      xoutcome x = Return (true, None)
                      /\ calls x = cache_rename_calls new_path session
                                   ++ [Core (EvWatcherRemoveCallback prev);
                                       CallWatcherAddCallback p])
                  /\ (path_is_set prev_path = true ->
                      _unsubscribe_file_watcher_ session = None ->
                      xoutcome x
                      = Return (false,
                                Some (str_of_exception
                                        (AttributeError "_unsubscribe_file_watcher_")))
                      /\ calls x = cache_rename_calls new_path session
                                   ++ [CallWatcherAddCallback p])))).
Proof.
  intros self session_id prev_path new_path x. subst x.
  unfold handle_file_rename_for_watch. split.
  - unfold get_session. intros Hnone.
    destruct (get_session_entry self session_id) as [[k s]|]; [discriminate | reflexivity].
  - intros stored_id session p Hfound. rewrite Hfound.
    split; [intros ->; reflexivity|].
    split; [intros -> ->; reflexivity|].
    intros -> Hp Hset. rewrite Hp, Hset. cbn [negb].
    pose proof (rename_session_cache_run new_path session)
      as (Hcalls & Hpath & Hunsub & _ & _).
    unfold renamed_session.
    destruct (rename_session_cache new_path session) as [renamed cs].
    cbn [fst snd] in *. subst cs.
    split; [intros ->; reflexivity|].
    intros ->. unfold _start_file_watcher_for_session. rewrite Hpath, Hp, Hset.
    rewrite Hunsub.
    destruct (path_is_set prev_path) eqn:Eprev.
    + destruct prev_path as [prev|]; [|discriminate].
      destruct (_unsubscribe_file_watcher_ session) as [u|] eqn:Eu;
        cbn [xoutcome xpost calls sessions set_sessions].
      * split; [now rewrite PyDictEntries.set_set_same|]. split; [reflexivity|].
        split; [discriminate|].
        split; [intros prev0 [= <-] _ _; split; reflexivity|].
        intros _ Hn. discriminate.
      * split; [now rewrite PyDictEntries.set_set_same|]. split; [reflexivity|].
        split; [discriminate|].
        split; [intros prev0 _ _ Hn; now contradiction Hn|].
        intros _ _. split; reflexivity.
    + cbn [xoutcome xpost calls sessions set_sessions].
      split; [now rewrite PyDictEntries.set_set_same|]. split; [reflexivity|].
      split; [intros _; split; reflexivity|].
      split; [intros prev0 _ Ht; discriminate|].
      intros Ht; discriminate.
Qed.

End WithEnvironment.

(* ------------------------------------------------------------------ *)
(** ** A worked manager *)
(* ------------------------------------------------------------------ *)

(** Every file key but the one of a new notebook names a file under
    [/srv]; the distributor hands out the handle [100 + c] for consumer
    [c]. *)
Definition demo_file_path (file_key : MarimoFileKey) : option string :=
  if String.eqb file_key "__new__" then None else Some (demo_abspath file_key).

Definition demo_handle (c : SessionConsumer) : Disposable := 100 + c.

Definition demo_create (session_id : SessionId) (c : SessionConsumer)
    (file_key : MarimoFileKey) : X SessionManager Session :=
  create_session demo_obj demo_file_path demo_handle false (fun _ => None) true true
    session_id c file_key.

Lemma close_session_stored_witness :
  outcome (close_session demo_obj "s-old" demo_edit_manager) = Return true
  /\ PyDict.get (sessions (post (close_session demo_obj "s-old" demo_edit_manager))) "s-old"
     = None.
Proof.
  destruct (proj2 (@close_session_removes_stored_session demo_obj demo_edit_manager "s-old")
              (demo_session orphaned_room true) eq_refl eq_refl eq_refl)
    as (Ho & _ & _ & Hg & _).
  split; [exact Ho | exact Hg].
Defined.

Lemma close_session_kiosk_witness :
  outcome (close_session demo_obj "kiosk-3" demo_edit_manager) = Return true
  /\ PyDict.keys (sessions (post (close_session demo_obj "kiosk-3" demo_edit_manager)))
     = ["s-dead"; "s-old"].
Proof.
  destruct (@close_session_by_kiosk_id_keeps_entry demo_obj demo_edit_manager "kiosk-3"
              "s-dead" (demo_session demo_room false) eq_refl eq_refl eq_refl eq_refl)
    as (Ho & _ & Hk & _).
  split; [exact Ho | exact Hk].
Defined.

Lemma shutdown_witness :
  shutdown demo_obj demo_edit_manager
  = mkXRun (Return tt) (set_sessions demo_edit_manager [])
      (map Core (close_traces demo_obj (sessions demo_edit_manager))
       ++ [CallLspStop; CallWatcherStopAll]).
Proof.
  destruct (@shutdown_closes_sessions_then_stops_services demo_obj demo_edit_manager eq_refl)
    as (_ & Hall & _).
  assert (Hok : forall entry, In entry (sessions demo_edit_manager) ->
                              outcome (Session_close demo_obj (snd entry)) = Return tt).
  { intros entry [<-|[<-|[]]]; reflexivity. }
  exact (proj2 (Hall Hok)).
Defined.

(** A session whose stop hook raises stops [shutdown] before the
    language server and the file watchers are stopped. *)
Example shutdown_stopped_by_raising_stop_hook :
  let self := {| mode := EDIT;
                 sessions := [("s-1", demo_session faulty_room true)];
                 watch := true |} in
  xoutcome (shutdown demo_obj self) = Raise (StopHookError 9)
  /\ existsb (fun c => match c with CallLspStop | CallWatcherStopAll => true | _ => false end)
       (calls (shutdown demo_obj self)) = false
  /\ PyDict.keys (sessions (xpost (shutdown demo_obj self))) = ["s-1"].
Proof. repeat split; reflexivity. Qed.

Lemma resumed_session_witness :
  Session_connection_state demo_obj (demo_session orphaned_room true) = ORPHANED
  /\ kernel_is_dead (demo_session orphaned_room true) = false
  /\ PyDict.get
       (sessions (post (maybe_resume_session demo_obj demo_abspath "s-new" "nb.py"
                          demo_edit_manager))) "s-new"
     = Some (demo_session orphaned_room true).
Proof.
  destruct (@resumed_session_is_live_orphaned_and_stays_resumed demo_obj demo_abspath
              demo_edit_manager "s-new" "nb.py" (demo_session orphaned_room true)
              eq_refl eq_refl eq_refl eq_refl)
    as (_ & Ho & Hk & _ & Hg & _).
  split; [exact Ho|]. split; [exact Hk | exact Hg].
Defined.

Lemma created_session_witness :
  post (close_session demo_obj "s-2"
          (xpost (demo_create "s-2" 1 "app.py" demo_run_manager)))
  = demo_run_manager.
Proof.
  destruct (@created_session_closes_and_leaves_manager_as_before demo_obj demo_file_path
              demo_handle false (fun _ => None) true true demo_run_manager "s-2" 1 "app.py"
              eq_refl eq_refl)
    as (_ & _ & Hp & _).
  exact Hp.
Defined.

(** A watching manager in edit mode: the new session is a process kernel
    with a file-watcher callback, registered after everything else. *)
Example create_session_in_watching_manager :
  let x := demo_create "s-new" 1 "app.py" demo_edit_manager in
  calls x
  = [CallRecentsTouch "/srv/app.py"; CallStartKernel EDIT; CallDistributorAddView;
     CallOnStart 1; CallDistributorAddConsumer 1; CallDistributorStart;
     CallCreateHeartbeatTask; CallWatcherAddCallback "/srv/app.py"]
  /\ PyDict.keys (sessions (xpost x)) = ["s-dead"; "s-old"; "s-new"]
  /\ calls (demo_create "s-new" 2 "other.py" (xpost x)) = [].
Proof. repeat split; reflexivity. Qed.

Definition demo_cells : list (CellId_t * string) := [("c1", "x = 1"); ("c2", "y = x + 1")].

Lemma demo_cells_distinct : NoDup (map fst demo_cells).
Proof.
  simpl. constructor; [intros [H|[]]; discriminate|].
  constructor; [intros []|constructor].
Qed.

Lemma file_change_autorun_witness :
  exists codes,
    Forall2 (fun cell_id code => In (cell_id, code) demo_cells) ["c2"] codes
    /\ control_queue
         (_queue_manager
            (xpost (on_file_changed demo_obj demo_abspath EDIT "nb.py" (Some ["c2"])
                      demo_cells true (demo_session demo_room true))))
       = [ExecuteMultipleRequest ["c2"] codes].
Proof.
  assert (Hin : forall cell_id, In cell_id ["c2"] -> In cell_id (map fst demo_cells)).
  { intros cell_id [<-|[]]. right. now left. }
  destruct (proj1 (@file_change_with_autorun_runs_changed_cells demo_obj demo_abspath
                     "nb.py" ["c2"] demo_cells (demo_session demo_room true)
                     eq_refl demo_cells_distinct) Hin)
    as (codes & Hall & _ & Hq & _).
  exists codes. split; [exact Hall | exact Hq].
Defined.

(** The request carries the code the changed cell has now; a changed id
    that is no cell of the notebook raises [KeyError]. *)
Example file_change_autorun_request :
  control_queue
    (_queue_manager
       (xpost (on_file_changed demo_obj demo_abspath EDIT "nb.py" (Some ["c2"])
                 demo_cells true (demo_session demo_room true))))
  = [ExecuteMultipleRequest ["c2"] ["y = x + 1"]]
  /\ xoutcome (on_file_changed demo_obj demo_abspath EDIT "nb.py" (Some ["c9"])
                 demo_cells true (demo_session demo_room true))
     = Raise KeyError.
Proof. split; reflexivity. Qed.

(** Renaming the file of a watched session: the cache writer is stopped
    and started for the new path, the old callback is removed, a new one
    is registered under the path of the session. *)
Example file_rename_in_watching_manager :
  let x := handle_file_rename_for_watch (fun _ => true) (fun _ => "error") "s-old"
             (Some "/srv/nb.py") "/srv/renamed.py" demo_edit_manager in
  xoutcome x = Return (true, None)
  /\ calls x = [Core EvWriterStopSync; CallWriterStart "/srv/renamed.py";
                Core (EvWatcherRemoveCallback "/srv/nb.py");
                CallWatcherAddCallback "/srv/nb.py"].
Proof. split; reflexivity. Qed.

End ManagerFlow.
